(** * Steganography Analyzer: the scan and summary pipeline

    A shallow embedding of
      - [src/actions/analyze-file.ts]   ([findMaliciousPatterns], [analyzeFileContent]),
      - the summary flow                 ([summarizeAnalysisResults],
                                          [summarizeAnalysisResultsFlow]),
      - [src/components/file-analyzer.tsx] (the per-file step of [handleAnalyze]),
    together with the pieces of the JavaScript platform they call: string
    primitives, [RegExp], [Buffer.from(_, 'base64').toString('latin1')] and
    [for ... in] over an object.

    Strings are sequences of code units below 256 (the Latin-1 range): this is
    exactly what [toString('latin1')] produces for the scanned content; the
    strings of the signature library and the text of the model are taken in
    the same range. The signature library, the summarizing model and, where a
    claim speaks of their failure, the RegExp engine and the decoder are
    arguments of the functions that use them. *)

From Stdlib Require Import String Ascii List ZArith NArith Bool Lia DecimalString.
From stdpp Require Import base gmap strings list.

Local Open Scope string_scope.
Local Open Scope list_scope.

(* ===================================================================== *)
(** * Part I. The embedding                                               *)
(* ===================================================================== *)

(** ** JavaScript string primitives *)
Module JSString.

Definition charCode (c : ascii) : N := N_of_ascii c.
Definition fromCharCode (n : N) : ascii := ascii_of_N n.

(** The double quote and the line feed, by code. *)
Definition dquote : string := String (fromCharCode 34) EmptyString.
Definition LF : ascii := fromCharCode 10.
Definition newline : string := String LF EmptyString.

(** [String.prototype.toLowerCase] on one code unit of the Latin-1 range:
    A-Z and the accented capitals U+00C0..U+00DE (but the multiplication sign
    U+00D7) move up by 32. *)
Definition toLowerCaseChar (c : ascii) : ascii :=
  let n := charCode c in
  if ((65 <=? n) && (n <=? 90) || (192 <=? n) && (n <=? 222) && negb (n =? 215))%N
  then fromCharCode (n + 32) else c.

Fixpoint toLowerCase (s : string) : string :=
  match s with
  | EmptyString => EmptyString
  | String c r => String (toLowerCaseChar c) (toLowerCase r)
  end.

(** [Canonicalize] of the RegExp semantics under the [i] flag (no [u] flag):
    the code unit is upper-cased when its upper case is one code unit. In the
    Latin-1 range a-z and U+00E0..U+00FE (but the division sign U+00F7) move
    down by 32; the sharp s (upper case of two units) stays. The micro sign
    and y-diaeresis upper-case to units outside Latin-1 that no other Latin-1
    unit reaches: they are kept, which leaves the induced equality unchanged. *)
Definition canonicalize (c : ascii) : ascii :=
  let n := charCode c in
  if ((97 <=? n) && (n <=? 122) || (224 <=? n) && (n <=? 254) && negb (n =? 247))%N
  then fromCharCode (n - 32) else c.

(** Equality of code units, exact or up to case. *)
Definition sameUnit (ignoreCase : bool) (a b : ascii) : bool :=
  if ignoreCase then Ascii.eqb (canonicalize a) (canonicalize b) else Ascii.eqb a b.
#[global] Arguments sameUnit : simpl never.

(** [stripPrefix ic p s]: what is left of [s] after a leading copy of [p]. *)
Fixpoint stripPrefix (ignoreCase : bool) (p s : string) : option string :=
  match p, s with
  | EmptyString, _ => Some s
  | String a p', String b s' =>
      if sameUnit ignoreCase a b then stripPrefix ignoreCase p' s' else None
  | String _ _, EmptyString => None
  end.

(** [occursIn ic p s]: some position of [s] starts a copy of [p]. *)
Fixpoint occursIn (ignoreCase : bool) (p s : string) : bool :=
  match stripPrefix ignoreCase p s with
  | Some _ => true
  | None => match s with
            | EmptyString => false
            | String _ s' => occursIn ignoreCase p s'
            end
  end.

(** [unitIn ic c w]: the unit [c] occurs in [w], exactly or up to case. *)
Fixpoint unitIn (ignoreCase : bool) (c : ascii) (w : string) : bool :=
  match w with
  | EmptyString => false
  | String y r => sameUnit ignoreCase y c || unitIn ignoreCase c r
  end.

(** [String.prototype.includes]. *)
Definition includes (s p : string) : bool := occursIn false p s.

(** [s.indexOf(',')] as an option ([None] for -1), and [s.substring(i)]. *)
Fixpoint indexOf (c : ascii) (s : string) : option nat :=
  match s with
  | EmptyString => None
  | String d r => if Ascii.eqb d c then Some 0 else option_map S (indexOf c r)
  end.

Fixpoint substringFrom (i : nat) (s : string) : string :=
  match i, s with
  | 0, _ => s
  | S i', String _ r => substringFrom i' r
  | S _, EmptyString => EmptyString
  end.

(** [s.split('\n')]: the pieces between line feeds (never an empty array). *)
Fixpoint split (sep : ascii) (s : string) : list string :=
  match s with
  | EmptyString => [EmptyString]
  | String c r =>
      if Ascii.eqb c sep then EmptyString :: split sep r
      else match split sep r with
           | piece :: pieces => String c piece :: pieces
           | [] => [String c EmptyString]
           end
  end.

(** [Array.prototype.join]. *)
Fixpoint join (sep : string) (l : list string) : string :=
  match l with
  | [] => EmptyString
  | [x] => x
  | x :: r => x +:+ sep +:+ join sep r
  end.

(** Numbers in template literals. *)
Definition natToString (n : nat) : string := NilEmpty.string_of_uint (Nat.to_uint n).
Definition intToString (z : Z) : string := NilEmpty.string_of_int (Z.to_int z).

(** A string is falsy exactly when it is empty. *)
Definition truthy (s : string) : bool :=
  match s with EmptyString => false | String _ _ => true end.

End JSString.

(** ** The RegExp engine

    [new RegExp(src, flags).test(input)] for the part of the pattern grammar
    that the program's regular expressions use: pattern characters, [\]
    followed by a syntax character, [.], [|], groups and the quantifiers
    [*], [+], [?]. Matching follows the continuation style of the language
    specification. *)
Module RegExp.
Import JSString.

Inductive node : Type :=
| Empty
| Char (c : ascii)
| AnyChar
| Seq (a b : node)
| Alt (a b : node)
| Star (a : node)
| Plus (a : node)
| Opt (a : node).

(** The production SyntaxCharacter of the pattern grammar. *)
Definition syntaxCharacters : string := "^$\.*+?()[]{}|".

Definition isSyntaxCharacter (c : ascii) : bool :=
  existsb (Ascii.eqb c) (list_ascii_of_string syntaxCharacters).

Definition isLineTerminator (c : ascii) : bool :=
  ((charCode c =? 10) || (charCode c =? 13))%N.

(** What the constructor makes of a source: a pattern, a [SyntaxError], or a
    source that uses a construct outside the part modelled here (classes,
    anchors, braces, other escapes, lazy quantifiers, group modifiers). *)
Inductive compiled : Type :=
| Pattern (r : node)
| SyntaxError
| NotModelled.

(** The parser keeps one frame per open group: the alternatives already
    closed by [|] and the terms of the current alternative, newest first. *)
Inductive lastTerm : Type := NoTerm | Atom | Quantified.

Record frame : Type := Frame {
  alternatives : list node;
  terms : list node;
  last : lastTerm
}.

Definition emptyFrame : frame := Frame [] [] NoTerm.

Definition seqOf (ts : list node) : node := fold_right Seq Empty ts.

Fixpoint altOf (first : node) (others : list node) : node :=
  match others with
  | [] => first
  | a :: others' => Alt first (altOf a others')
  end.

Definition closeFrame (f : frame) : node :=
  match rev (seqOf (rev (terms f)) :: alternatives f) with
  | [] => Empty
  | a :: others => altOf a others
  end.

Definition pushAtom (t : node) (f : frame) : frame :=
  Frame (alternatives f) (t :: terms f) Atom.

Definition nextAlternative (f : frame) : frame :=
  Frame (seqOf (rev (terms f)) :: alternatives f) [] NoTerm.

Definition quantifierOf (c : ascii) : option (node -> node) :=
  if Ascii.eqb c "*" then Some Star
  else if Ascii.eqb c "+" then Some Plus
  else if Ascii.eqb c "?" then Some Opt
  else None.

Fixpoint parseFrom (src : string) (top : frame) (stack : list frame) : compiled :=
  match src with
  | EmptyString =>
      match stack with
      | [] => Pattern (closeFrame top)
      | _ :: _ => SyntaxError                      (* unterminated group *)
      end
  | String c rest =>
      if Ascii.eqb c "\" then
        match rest with
        | EmptyString => SyntaxError               (* \ at end of pattern *)
        | String e rest' =>
            if isSyntaxCharacter e
            then parseFrom rest' (pushAtom (Char e) top) stack
            else NotModelled
        end
      else if Ascii.eqb c "." then parseFrom rest (pushAtom AnyChar top) stack
      else if Ascii.eqb c "|" then parseFrom rest (nextAlternative top) stack
      else if Ascii.eqb c "(" then
        match rest with
        | String e _ =>
            if Ascii.eqb e "?" then NotModelled
            else parseFrom rest emptyFrame (top :: stack)
        | EmptyString => SyntaxError
        end
      else if Ascii.eqb c ")" then
        match stack with
        | [] => SyntaxError                        (* unmatched ) *)
        | parent :: stack' => parseFrom rest (pushAtom (closeFrame top) parent) stack'
        end
      else match quantifierOf c with
      | Some q =>
          match last top, terms top with
          | Atom, t :: ts => parseFrom rest (Frame (alternatives top) (q t :: ts) Quantified) stack
          | Quantified, _ => if Ascii.eqb c "?" then NotModelled else SyntaxError
          | _, _ => SyntaxError                    (* nothing to repeat *)
          end
      | None =>
          if isSyntaxCharacter c then NotModelled
          else parseFrom rest (pushAtom (Char c) top) stack
      end
  end.

Definition compile (src : string) : compiled := parseFrom src emptyFrame [].

(** The pattern that matches the units of [p] one after the other, and the
    frame reached by reading them as pattern characters. *)
Definition literal (p : string) : node := seqOf (map Char (list_ascii_of_string p)).

Fixpoint pushChars (p : string) (f : frame) : frame :=
  match p with
  | EmptyString => f
  | String c r => pushChars r (pushAtom (Char c) f)
  end.

(** RepeatMatcher: an iteration that consumes nothing is abandoned, so the
    length of the input bounds the number of iterations. *)
Fixpoint repeatMatcher (m : string -> (string -> bool) -> bool)
    (fuel : nat) (s : string) (k : string -> bool) : bool :=
  match fuel with
  | 0 => k s
  | S fuel' =>
      m s (fun s' => (String.length s' <? String.length s)%nat && repeatMatcher m fuel' s' k)
      || k s
  end.

Fixpoint matchNode (ignoreCase : bool) (r : node) (s : string) (k : string -> bool) : bool :=
  match r with
  | Empty => k s
  | Char c =>
      match s with
      | String d s' => sameUnit ignoreCase c d && k s'
      | EmptyString => false
      end
  | AnyChar =>
      match s with
      | String d s' => negb (isLineTerminator d) && k s'
      | EmptyString => false
      end
  | Seq a b => matchNode ignoreCase a s (fun s' => matchNode ignoreCase b s' k)
  | Alt a b => matchNode ignoreCase a s k || matchNode ignoreCase b s k
  | Star a => repeatMatcher (matchNode ignoreCase a) (String.length s) s k
  | Plus a =>
      matchNode ignoreCase a s
        (fun s' => repeatMatcher (matchNode ignoreCase a) (String.length s') s' k)
  | Opt a => matchNode ignoreCase a s k || k s
  end.

(** [test] without the [g] or [y] flag: a match may start at any index,
    the end of the input included. *)
Fixpoint search (ignoreCase : bool) (r : node) (s : string) : bool :=
  matchNode ignoreCase r s (fun _ => true)
  || match s with
     | EmptyString => false
     | String _ s' => search ignoreCase r s'
     end.

(** [new RegExp(src, ignoreCase ? 'i' : '').test(input)]; [None] when the
    constructor throws, and for the sources this model does not read. *)
Definition test (src : string) (ignoreCase : bool) (input : string) : option bool :=
  match compile src with
  | Pattern r => Some (search ignoreCase r input)
  | SyntaxError => None
  | NotModelled => None
  end.

(** A regular-expression literal of the program, tested against [input].
    Every literal of the program compiles (see [literals_compile]). *)
Definition testLiteral (src : string) (ignoreCase : bool) (input : string) : bool :=
  match test src ignoreCase input with
  | Some b => b
  | None => false
  end.

End RegExp.

(** ** [Buffer.from(payload, 'base64').toString('latin1')]

    Node's base64 reader is lenient: it accepts the standard and the URL-safe
    alphabet, skips every other character and stops at the first padding
    sign. Bytes are integers in [0, 256). *)
Module Buffer.
Import JSString.

Definition unbase64 (c : ascii) : option Z :=
  let n := Z.of_N (charCode c) in
  (if (65 <=? n) && (n <=? 90) then Some (n - 65)
   else if (97 <=? n) && (n <=? 122) then Some (n - 97 + 26)
   else if (48 <=? n) && (n <=? 57) then Some (n - 48 + 52)
   else if (n =? 43) || (n =? 45) then Some 62
   else if (n =? 47) || (n =? 95) then Some 63
   else None)%Z.

Fixpoint sextets (s : string) : list Z :=
  match s with
  | EmptyString => []
  | String c r =>
      if Ascii.eqb c "=" then []
      else match unbase64 c with
           | Some v => v :: sextets r
           | None => sextets r
           end
  end.

Definition byte1 (hi lo : Z) : Z := Z.lor (Z.shiftl (Z.land hi 63) 2) (Z.shiftr (Z.land lo 48) 4).
Definition byte2 (hi lo : Z) : Z := Z.lor (Z.shiftl (Z.land hi 15) 4) (Z.shiftr (Z.land lo 60) 2).
Definition byte3 (hi lo : Z) : Z := Z.lor (Z.shiftl (Z.land hi 3) 6) (Z.shiftr (Z.land lo 63) 0).

Fixpoint decodeGroups (l : list Z) : list Z :=
  match l with
  | a :: ((b :: rest1) as l1) =>
      byte1 a b ::
      match rest1 with
      | c :: rest2 =>
          byte2 b c ::
          match rest2 with
          | d :: rest3 => byte3 c d :: decodeGroups rest3
          | [] => []
          end
      | [] => []
      end
  | _ => []
  end.

Definition fromBase64 (payload : string) : list Z := decodeGroups (sextets payload).

(** [toString('latin1')]: one code unit per byte, with the byte's value. *)
Definition latin1Char (b : Z) : ascii := fromCharCode (Z.to_N (b mod 256)).

Fixpoint toStringLatin1 (bytes : list Z) : string :=
  match bytes with
  | [] => EmptyString
  | b :: r => String (latin1Char b) (toStringLatin1 r)
  end.

End Buffer.

(** ** Objects and [for ... in]

    An object is the list of its own enumerable string-keyed properties in
    creation order. [for ... in] visits the keys that are array indices first,
    in ascending numeric order, and then the others in creation order. *)
Module JSObject.
Import JSString.

Definition object (V : Type) : Type := list (string * V).

Definition isDigit (c : ascii) : bool := ((48 <=? charCode c) && (charCode c <=? 57))%N.

Fixpoint digitsValue (acc : N) (s : string) : option N :=
  match s with
  | EmptyString => Some acc
  | String c r =>
      if isDigit c then digitsValue (acc * 10 + (charCode c - 48))%N r else None
  end.

(** A canonical numeric string of an integer below 2^32 - 1. *)
Definition arrayIndex (key : string) : option N :=
  match key with
  | EmptyString => None
  | String c r =>
      if Ascii.eqb c "0" then
        match r with EmptyString => Some 0%N | String _ _ => None end
      else match digitsValue 0 key with
           | Some v => if (v <? 4294967295)%N then Some v else None
           | None => None
           end
  end.

Definition isArrayIndex (key : string) : bool :=
  match arrayIndex key with Some _ => true | None => false end.

Fixpoint insertByIndex {V} (i : N) (p : string * V) (sorted : list (N * (string * V)))
    : list (N * (string * V)) :=
  match sorted with
  | [] => [(i, p)]
  | (j, q) :: r =>
      if (i <? j)%N then (i, p) :: sorted else (j, q) :: insertByIndex i p r
  end.

Fixpoint indexProperties {V} (o : object V) : list (N * (string * V)) :=
  match o with
  | [] => []
  | (k, v) :: r =>
      match arrayIndex k with
      | Some i => insertByIndex i (k, v) (indexProperties r)
      | None => indexProperties r
      end
  end.

Definition forIn {V} (o : object V) : object V :=
  map snd (indexProperties o) ++ List.filter (fun p => negb (isArrayIndex (fst p))) o.

End JSObject.

(** ** Effects and exceptions

    A call returns its value together with the calls it made to its
    collaborators, in order. A thrown value is an [Error] with a message or
    anything else. *)
Module Effects.

Inductive event : Type :=
| PatternScan (content : string)            (* findMaliciousPatterns ran over [content] *)
| SummarizerCall (analysisResults : string) (* summarizeAnalysisResults was called *)
| LlmPrompt (analysisResults : string).     (* the prompt was sent to the model *)

Definition Eff (A : Type) : Type := (A * list event)%type.

Definition ret {A} (a : A) : Eff A := (a, []).

Definition bind {A B} (m : Eff A) (f : A -> Eff B) : Eff B :=
  let '(a, t1) := m in let '(b, t2) := f a in (b, t1 ++ t2).

Definition emit (e : event) : Eff unit := (tt, [e]).

Definition value {A} (m : Eff A) : A := fst m.
Definition trace {A} (m : Eff A) : list event := snd m.

Inductive thrown : Type :=
| ThrownError (message : string)
| ThrownValue.

(** [e instanceof Error ? e.message : fallback] *)
Definition messageOf (e : thrown) (fallback : string) : string :=
  match e with
  | ThrownError m => m
  | ThrownValue => fallback
  end.

Definition isLlmPrompt (e : event) : bool :=
  match e with LlmPrompt _ => true | _ => false end.

End Effects.

Notation "'let!' x ':=' m 'in' k" := (Effects.bind m (fun x => k))
  (at level 10, x name, m at level 100, k at level 200).

(** ** The summary flow ([summarizeAnalysisResults]) *)
Module SummarizeAnalysis.
Import JSString Effects.

(** What the model call [summarizeAnalysisResultsPrompt(input)] does: it
    resolves with an output, resolves without one, or rejects. *)
Inductive promptReply : Type :=
| Output (summary : string)
| NoOutput
| Rejects (e : thrown).

Definition noPatternsSummary : string :=
  "The analysis did not detect any known malicious code patterns based on the current ruleset.".

Definition rawNoPatternsSummary (reason : string) : string :=
  "No known malicious patterns were detected in the raw file content " +:+ reason +:+
  ". Base64 decoding failed, limiting the analysis.".

Definition overrideSummary : string :=
  "The analysis detected some common code patterns (like standard encryption) but found no indicators strongly suggesting malicious activity based on the current ruleset.".

Definition limitationNote : string :=
  " (Note: File analysis may have been limited due to content processing issues.)".

(** The regular-expression literals of the module. *)
Definition reNoPatterns : string := "No known malicious patterns detected".
Definition reRawBase64 : string := "performed on raw Base64".
Definition reNoPatternsRaw : string :=
  "No known malicious patterns detected.*performed on raw Base64".
Definition reThreatVocabulary : string :=
  "(reverse shell|malicious command|suspicious network|persistence|destructive|malware|threat|exploit|credential dumping|keylogger|ransomware)".
Definition reAnalysisResults : string := "analysisResults".
Definition reCryptoTokens : string := "(AES|DES|RSA|Base64)".
Definition reMaliciousContext : string :=
  "malicious use|obfuscate|hide C2|ransomware behavior".
Definition reLimitation : string := "performed on raw Base64|decoding failed".

(** [/Base64 decoding failed: (.*?)\)/.exec(s)], its first group: from the
    first start at which the whole expression matches, the shortest run
    without line terminator that a closing parenthesis follows. *)
Fixpoint upToParen (s : string) : option string :=
  match s with
  | EmptyString => None
  | String c r =>
      if Ascii.eqb c ")" then Some EmptyString
      else if RegExp.isLineTerminator c then None
      else option_map (String c) (upToParen r)
  end.

Fixpoint execDecodeReason (s : string) : option string :=
  match
    match stripPrefix false "Base64 decoding failed: " s with
    | Some rest => upToParen rest
    | None => None
    end
  with
  | Some captured => Some captured
  | None =>
      match s with
      | EmptyString => None
      | String _ r => execDecodeReason r
      end
  end.

(** The post-processing condition of the flow. *)
Definition overrideGuard (summary analysisResults : string) : bool :=
  negb (RegExp.testLiteral reThreatVocabulary true summary)
  && RegExp.testLiteral reAnalysisResults false analysisResults
  && RegExp.testLiteral reCryptoTokens true analysisResults
  && negb (RegExp.testLiteral reMaliciousContext true analysisResults).

Definition postProcess (summary analysisResults : string) : string :=
  if overrideGuard summary analysisResults then
    if RegExp.testLiteral reLimitation true analysisResults
    then overrideSummary +:+ limitationNote
    else overrideSummary
  else summary.

(** [input.analysisResults.split('\n').length - 2] *)
Definition fallbackCount (analysisResults : string) : Z :=
  (Z.of_nat (length (split LF analysisResults)) - 2)%Z.

Definition flowFallback (analysisResults errorMessage : string) : string :=
  "Analysis detected " +:+ intToString (fallbackCount analysisResults) +:+
  " potential patterns. However, an error occurred while generating a detailed summary: " +:+
  errorMessage.

Section Flow.
Variable prompt : string -> promptReply.

(** The body of the flow: the [try] block yields the summary or the thrown
    value, the [catch] block turns the latter into the fallback text. *)
Definition summarizeAnalysisResultsFlow (analysisResults : string) : Eff string :=
  let! _ := emit (LlmPrompt analysisResults) in
  let attempt : thrown + string :=
    match prompt analysisResults with
    | Rejects e => inl e
    | NoOutput => inl (ThrownError "AI summary generation returned no output.")
    | Output summary => inr (postProcess summary analysisResults)
    end in
  match attempt with
  | inr summary => ret summary
  | inl e =>
      ret (flowFallback analysisResults
             (messageOf e "Unknown error during AI summary generation"))
  end.

Definition summarizeAnalysisResults (analysisResults : string) : Eff string :=
  if RegExp.testLiteral reNoPatterns true analysisResults
     && negb (RegExp.testLiteral reRawBase64 true analysisResults)
  then ret noPatternsSummary
  else if RegExp.testLiteral reNoPatternsRaw true analysisResults then
    let reason :=
      match execDecodeReason analysisResults with
      | Some r => "(Reason: " +:+ r +:+ ")"
      | None => "(Unknown reason)"
      end in
    ret (rawNoPatternsSummary reason)
  else summarizeAnalysisResultsFlow analysisResults.

End Flow.
End SummarizeAnalysis.

(** ** The server action ([analyze-file.ts]) *)
Module AnalyzeFile.
Import JSString Effects.

Record Finding : Type := { pattern : string; category : string }.

#[global] Instance Finding_eq_dec : EqDecision Finding.
Proof. solve_decision. Defined.

Record AnalyzeFileInput : Type := {
  fileName : string;
  fileContent : string;
  contentType : string
}.

Record AnalyzeFileOutput : Type := {
  findings : option (list Finding);
  summary : option string;
  error : option string
}.

(** The signature library [malwarePatterns]: category to patterns. *)
Definition library : Type := JSObject.object (list string).

(** The class of [/[.*+?^${}()|[\]\\]/g]. *)
Definition escapeClass : string := ".*+?^${}()|[]\".

Definition needsEscape (c : ascii) : bool :=
  existsb (Ascii.eqb c) (list_ascii_of_string escapeClass).

(** [pattern.replace(/[.*+?^${}()|[\]\\]/g, '\\$&')] *)
Fixpoint escapeRegExp (p : string) : string :=
  match p with
  | EmptyString => EmptyString
  | String c r =>
      if needsEscape c then String "\" (String c (escapeRegExp r))
      else String c (escapeRegExp r)
  end.

Definition MAX_CONTENT_LENGTH_FOR_SCAN : Z := 50 * 1024 * 1024.

Definition isLargeContent (content : string) : bool :=
  (Z.of_nat (String.length content) >? MAX_CONTENT_LENGTH_FOR_SCAN)%Z.

Definition patternKey (category pattern : string) : string :=
  category +:+ ":" +:+ pattern.

(** The state of a scan: [findings] and [checkedPatterns]. *)
Definition scanState : Type := (list Finding * gset string)%type.

Definition record (category pattern : string) (st : scanState) : scanState :=
  (fst st ++ [{| pattern := pattern; category := category |}],
   {[ patternKey category pattern ]} ∪ snd st).

Section Scan.
(** [regexTest src content] is [new RegExp(src, 'i').test(content)];
    [None] when either step throws. *)
Variable regexTest : string -> string -> option bool.

(** The body of the inner loop. *)
Definition scanPattern (content category pattern : string) (st : scanState) : scanState :=
  let patternKey := patternKey category pattern in
  if decide (patternKey ∈ snd st) then st
  else
    match regexTest (escapeRegExp pattern) content with
    | Some true => record category pattern st
    | Some false => st
    | None =>
        if negb (isLargeContent content)
           && includes (toLowerCase content) (toLowerCase pattern)
        then if decide (patternKey ∈ snd st) then st else record category pattern st
        else st
    end.

Definition scanCategory (content : string) (st : scanState)
    (entry : string * list string) : scanState :=
  fold_left (fun st pattern => scanPattern content (fst entry) pattern st) (snd entry) st.

Definition scanLibrary (malwarePatterns : library) (content : string) : scanState :=
  fold_left (scanCategory content) (JSObject.forIn malwarePatterns) ([], ∅).

Definition findMaliciousPatterns (malwarePatterns : library) (content : string)
    : list Finding :=
  fst (scanLibrary malwarePatterns content).

End Scan.

(** What the decoding [try]/[catch] leaves behind. *)
Record DecodeOutcome : Type := {
  text : string;
  decodedSuccessfully : bool;
  decodeError : option string
}.

Definition decodeStep (decode : string -> thrown + string) (base64Data : string)
    : DecodeOutcome :=
  match decode base64Data with
  | inr fileDataToScan =>
      {| text := fileDataToScan; decodedSuccessfully := true; decodeError := None |}
  | inl e =>
      {| text := base64Data; decodedSuccessfully := false;
         decodeError := Some (messageOf e "Unknown Base64 decoding error") |}
  end.

(** [`${decodeError}`] *)
Definition showDecodeError (e : option string) : string :=
  match e with Some m => m | None => "undefined" end.

Definition stripHeader (fileContent : string) : string :=
  match indexOf "," fileContent with
  | Some commaIndex => substringFrom (commaIndex + 1) fileContent
  | None => fileContent
  end.

Definition detailLine (f : Finding) : string :=
  "- Category: " +:+ category f +:+ ", Detected Pattern: " +:+ dquote +:+ pattern f +:+ dquote.

Definition evidenceBlock (o : DecodeOutcome) (detected : list Finding) : string :=
  let detailedResults := join newline (map detailLine detected) in
  if decodedSuccessfully o then
    "Analysis Results (" +:+ natToString (length detected) +:+
    " patterns found - Decoded Content Scan):" +:+ newline +:+ detailedResults
  else
    "Analysis Results (" +:+ natToString (length detected) +:+
    " patterns found - Raw Base64 Scan due to decode error: " +:+
    showDecodeError (decodeError o) +:+ "):" +:+ newline +:+ detailedResults.

Definition cleanReport (o : DecodeOutcome) : string :=
  if decodedSuccessfully o then
    "Analysis Results: No known malicious patterns detected in the decoded file content based on the current ruleset."
  else
    "Analysis Results: No known malicious patterns detected in the raw file content (Base64 decoding failed: " +:+
    showDecodeError (decodeError o) +:+ ").".

Definition summarizerFailureSummary (n : nat) (errorMessage : string) : string :=
  "Potential threats detected (" +:+ natToString n +:+
  " patterns). Failed to generate detailed summary. Reason: " +:+ errorMessage.

Definition unexpectedError : AnalyzeFileOutput :=
  {| findings := None; summary := None;
     error := Some "An unexpected error occurred on the server during analysis. Please check server logs for details." |}.

Section Action.
Variable regexTest : string -> string -> option bool.
Variable decode : string -> thrown + string.
Variable malwarePatterns : library.
(** The imported [summarizeAnalysisResults]: its summary, or what it throws. *)
Variable summarize : string -> Eff (thrown + string).

(** Everything after the decoding step. *)
Definition analyzeDecoded (o : DecodeOutcome) : Eff AnalyzeFileOutput :=
  let! _ := emit (PatternScan (text o)) in
  let detectedPatterns := findMaliciousPatterns regexTest malwarePatterns (text o) in
  if (0 <? length detectedPatterns)%nat then
    let analysisResultsInputForAI := evidenceBlock o detectedPatterns in
    let! _ := emit (SummarizerCall analysisResultsInputForAI) in
    let! summaryResult := summarize analysisResultsInputForAI in
    let analysisSummary :=
      match summaryResult with
      | inr s => s
      | inl summaryError =>
          summarizerFailureSummary (length detectedPatterns)
            (messageOf summaryError "An unknown error occurred during AI summary")
      end in
    ret {| findings := Some detectedPatterns; summary := Some analysisSummary; error := None |}
  else
    let analysisResultsInputForAI := cleanReport o in
    let! _ := emit (SummarizerCall analysisResultsInputForAI) in
    let! safeSummaryResult := summarize analysisResultsInputForAI in
    match safeSummaryResult with
    | inr s => ret {| findings := Some detectedPatterns; summary := Some s; error := None |}
    | inl _ => ret unexpectedError
    end.

Definition analyzeFileContentWith (input : AnalyzeFileInput) : Eff AnalyzeFileOutput :=
  if negb (truthy (fileName input)) || negb (truthy (fileContent input))
     || negb (truthy (contentType input))
  then ret {| findings := None; summary := None; error := Some "Missing required input data." |}
  else
    let base64Data := stripHeader (fileContent input) in
    if negb (truthy base64Data) then
      ret {| findings := Some [];
             summary := Some "Analysis could not be performed: File content is empty.";
             error := Some "File content appears to be empty after processing." |}
    else analyzeDecoded (decodeStep decode base64Data).

End Action.

(** The action with its real collaborators: the RegExp engine with the [i]
    flag, Node's decoder and the summary flow over a model [prompt]. *)
Definition regexTestI (src content : string) : option bool := RegExp.test src true content.

Definition nodeDecode (base64Data : string) : thrown + string :=
  inr (Buffer.toStringLatin1 (Buffer.fromBase64 base64Data)).

Definition summarizeWith (prompt : string -> SummarizeAnalysis.promptReply)
    (analysisResults : string) : Eff (thrown + string) :=
  let! s := SummarizeAnalysis.summarizeAnalysisResults prompt analysisResults in
  ret (inr s).

Definition scan (malwarePatterns : library) (content : string) : list Finding :=
  findMaliciousPatterns regexTestI malwarePatterns content.

Definition analyzeFileContent (malwarePatterns : library)
    (prompt : string -> SummarizeAnalysis.promptReply) (input : AnalyzeFileInput)
    : Eff AnalyzeFileOutput :=
  analyzeFileContentWith regexTestI nodeDecode malwarePatterns (summarizeWith prompt) input.

End AnalyzeFile.

(** ** The caller ([file-analyzer.tsx], the per-file step of [handleAnalyze]) *)
Module FileAnalyzer.
Import JSString Effects.

Record AnalysisResult : Type := {
  fileName : string;
  findings : option (list AnalyzeFile.Finding);
  isMalicious : bool;
  summary : option string;
  error : option string
}.

(** How the awaited calls of one iteration end: the server action returned
    a result, or reading the file or the call itself threw. *)
Inductive outcome : Type :=
| Returned (serverResult : AnalyzeFile.AnalyzeFileOutput)
| Threw (e : thrown).

Definition truthyOpt (s : option string) : bool :=
  match s with Some m => truthy m | None => false end.

Definition showOpt (s : option string) : string :=
  match s with Some m => m | None => "undefined" end.

Definition resultFor (name : string) (o : outcome) : AnalysisResult :=
  match o with
  | Returned serverResult =>
      if truthyOpt (AnalyzeFile.error serverResult) then
        {| fileName := name;
           isMalicious := true;
           error := AnalyzeFile.error serverResult;
           findings := Some [];
           summary := Some ("Error analyzing file: " +:+ showOpt (AnalyzeFile.error serverResult)) |}
      else
        {| fileName := name;
           findings := Some (default [] (AnalyzeFile.findings serverResult));
           isMalicious := (0 <? length (default [] (AnalyzeFile.findings serverResult)))%nat;
           summary := AnalyzeFile.summary serverResult;
           error := None |}
  | Threw e =>
      {| fileName := name;
         isMalicious := true;
         error := Some (messageOf e "An unknown error occurred during file processing.");
         findings := Some [];
         summary := Some ("Failed to process file: " +:+ messageOf e "Unknown error") |}
  end.

End FileAnalyzer.

(** ** The words of the claims, and the notions their proofs use *)
Module Claims.
Import JSString.

(** Two strings are equal up to the case of their letters. *)
Inductive equalIgnoringCase : string -> string -> Prop :=
| eic_empty : equalIgnoringCase EmptyString EmptyString
| eic_unit a b p s :
    canonicalize a = canonicalize b ->
    equalIgnoringCase p s ->
    equalIgnoringCase (String a p) (String b s).

(** [content] contains [pattern] as a case-insensitive literal substring. *)
Definition containsLiteral (pattern content : string) : Prop :=
  exists before middle after,
    content = before +:+ middle +:+ after /\ equalIgnoringCase pattern middle.

(** The (category, pattern) pairs of a library, as a flat sequence of
    findings in the order of the given category sequence. *)
Definition declared (lib : AnalyzeFile.library) : list AnalyzeFile.Finding :=
  flat_map
    (fun entry =>
       map (fun p => {| AnalyzeFile.pattern := p; AnalyzeFile.category := fst entry |})
           (snd entry))
    lib.

(** The deduplication key of a finding, and the scan as one pass over a
    flat sequence of (category, pattern) pairs. *)
Definition keyOf (f : AnalyzeFile.Finding) : string :=
  AnalyzeFile.patternKey (AnalyzeFile.category f) (AnalyzeFile.pattern f).

Definition scanFlat (regexTest : string -> string -> option bool) (content : string)
    (pairs : list AnalyzeFile.Finding) (st : AnalyzeFile.scanState) : AnalyzeFile.scanState :=
  fold_left
    (fun st f =>
       AnalyzeFile.scanPattern regexTest content
         (AnalyzeFile.category f) (AnalyzeFile.pattern f) st)
    pairs st.

(** The invariant of the scan loop: recorded findings have pairwise distinct
    keys, all of them in [checkedPatterns]. *)
Definition scanInvariant (st : AnalyzeFile.scanState) : Prop :=
  NoDup (keyOf <$> fst st) /\ forall f, f ∈ fst st -> keyOf f ∈ snd st.

(** The number of line feeds of a string, and the findings whose category
    and pattern hold none. *)
Fixpoint lineBreaks (s : string) : nat :=
  match s with
  | EmptyString => 0
  | String c r => (if Ascii.eqb c LF then 1 else 0) + lineBreaks r
  end.

Definition singleLine (f : AnalyzeFile.Finding) : Prop :=
  lineBreaks (AnalyzeFile.category f) = 0 /\ lineBreaks (AnalyzeFile.pattern f) = 0.

(** Neither the category nor the pattern of a finding holds the text
    [analysisResults]. *)
Definition markerFree (f : AnalyzeFile.Finding) : Prop :=
  occursIn false "analysisResults" (AnalyzeFile.category f) = false
  /\ occursIn false "analysisResults" (AnalyzeFile.pattern f) = false.

(** No category name is an array index. *)
Definition plainCategories (lib : AnalyzeFile.library) : Prop :=
  Forall (fun entry => JSObject.isArrayIndex (fst entry) = false) lib.

End Claims.

(* ===================================================================== *)
(** * Part II. Properties                                                 *)
(* ===================================================================== *)

(** ** Strings *)
Module JSStringFacts.
Import JSString Claims.

Lemma sameUnit_true_iff a b :
  sameUnit true a b = true <-> canonicalize a = canonicalize b.
Proof. unfold sameUnit. apply Ascii.eqb_eq. Qed.

Lemma stripPrefix_Some_iff p : forall s r,
  stripPrefix true p s = Some r <->
  exists m, s = m +:+ r /\ equalIgnoringCase p m.
Proof.
  induction p as [|a p IH]; intros s r; simpl.
  - split.
    + intros [= ->]. exists EmptyString. split; [reflexivity | constructor].
    + intros (m & -> & Hm). inversion Hm; subst. reflexivity.
  - destruct s as [|b s].
    + split; [discriminate|].
      intros (m & Hs & Hm). inversion Hm; subst. discriminate.
    + destruct (sameUnit true a b) eqn:Hab.
      * rewrite IH. apply sameUnit_true_iff in Hab. split.
        -- intros (m & -> & Hm). exists (String b m). split; [reflexivity|].
           now constructor.
        -- intros (m & Hs & Hm). inversion Hm; subst. simpl in Hs.
           injection Hs as -> ->. eauto.
      * split; [discriminate|].
        intros (m & Hs & Hm). inversion Hm; subst. simpl in Hs.
        injection Hs as -> ->.
        apply sameUnit_true_iff in H1. congruence.
Qed.

Lemma occursIn_unfold ic p s :
  occursIn ic p s =
  match stripPrefix ic p s with
  | Some _ => true
  | None => match s with
            | EmptyString => false
            | String _ s' => occursIn ic p s'
            end
  end.
Proof. destruct s; reflexivity. Qed.

(** The executable search decides the specification's containment. *)
Lemma occursIn_containsLiteral p s :
  occursIn true p s = true <-> containsLiteral p s.
Proof.
  split.
  - induction s as [|c s IH]; rewrite occursIn_unfold.
    + destruct (stripPrefix true p EmptyString) as [r|] eqn:E; [|discriminate].
      intros _. apply stripPrefix_Some_iff in E as (m & Hs & Hm).
      exists EmptyString, m, r. split; [exact Hs | exact Hm].
    + destruct (stripPrefix true p (String c s)) as [r|] eqn:E.
      * intros _. apply stripPrefix_Some_iff in E as (m & Hs & Hm).
        exists EmptyString, m, r. split; [exact Hs | exact Hm].
      * intros H. destruct (IH H) as (b & m & a & -> & Hm).
        exists (String c b), m, a. split; [reflexivity | exact Hm].
  - intros (b & m & a & -> & Hm). induction b as [|c b IH].
    + rewrite occursIn_unfold.
      assert (stripPrefix true p (EmptyString +:+ m +:+ a) = Some a) as ->; [|reflexivity].
      apply stripPrefix_Some_iff. exists m. split; [reflexivity | exact Hm].
    + rewrite occursIn_unfold. destruct (stripPrefix true p _); [reflexivity|].
      simpl. exact IH.
Qed.

Lemma canonicalize_toLowerCaseChar c :
  canonicalize (toLowerCaseChar c) = canonicalize c.
Proof. destruct c as [[] [] [] [] [] [] [] []]; reflexivity. Qed.

Lemma toLowerCaseChar_canonicalize c :
  toLowerCaseChar (canonicalize c) = toLowerCaseChar c.
Proof. destruct c as [[] [] [] [] [] [] [] []]; reflexivity. Qed.

(** Lower-casing both sides and comparing exactly is comparing up to case. *)
Lemma sameUnit_toLowerCase a b :
  sameUnit false (toLowerCaseChar a) (toLowerCaseChar b) = sameUnit true a b.
Proof.
  unfold sameUnit.
  destruct (Ascii.eqb (canonicalize a) (canonicalize b)) eqn:E.
  - apply Ascii.eqb_eq in E. apply Ascii.eqb_eq.
    rewrite <- (toLowerCaseChar_canonicalize a), <- (toLowerCaseChar_canonicalize b).
    now rewrite E.
  - apply Ascii.eqb_neq in E. apply Ascii.eqb_neq. intros H. apply E.
    rewrite <- (canonicalize_toLowerCaseChar a), <- (canonicalize_toLowerCaseChar b).
    now rewrite H.
Qed.

Lemma stripPrefix_toLowerCase p : forall s,
  option_map (fun _ => tt) (stripPrefix false (toLowerCase p) (toLowerCase s)) =
  option_map (fun _ => tt) (stripPrefix true p s).
Proof.
  induction p as [|a p IH]; intros [|b s]; simpl; try reflexivity.
  rewrite sameUnit_toLowerCase. destruct (sameUnit true a b); [apply IH | reflexivity].
Qed.

(** [content.toLowerCase().includes(pattern.toLowerCase())] is the
    case-insensitive search. *)
Lemma includes_toLowerCase s p :
  includes (toLowerCase s) (toLowerCase p) = occursIn true p s.
Proof.
  unfold includes. induction s as [|c s IH].
  - rewrite !occursIn_unfold. pose proof (stripPrefix_toLowerCase p EmptyString) as H.
    simpl in H |- *.
    destruct (stripPrefix false (toLowerCase p) EmptyString),
             (stripPrefix true p EmptyString); simpl in H; congruence.
  - rewrite (occursIn_unfold true), (occursIn_unfold false).
    pose proof (stripPrefix_toLowerCase p (String c s)) as H.
    destruct (stripPrefix false (toLowerCase p) (toLowerCase (String c s))),
             (stripPrefix true p (String c s)); simpl in H; try congruence.
    simpl. exact IH.
Qed.

(** A unit that does not occur in [w] separates the occurrences of [w]. *)
Lemma stripPrefix_separator ic w c : unitIn ic c w = false -> forall a b,
  match stripPrefix ic w (a +:+ String c b) with Some _ => true | None => false end
  = match stripPrefix ic w a with Some _ => true | None => false end.
Proof.
  induction w as [|y w IH]; intros Hc a b; [reflexivity|].
  cbn [unitIn] in Hc. apply orb_false_elim in Hc as [Hy Hw].
  destruct a as [|x a].
  - change (EmptyString +:+ String c b) with (String c b). cbn [stripPrefix].
    now rewrite Hy.
  - change (String x a +:+ String c b) with (String x (a +:+ String c b)).
    cbn [stripPrefix]. destruct (sameUnit ic y x); [now apply IH | reflexivity].
Qed.

Lemma occursIn_separator ic w c a b :
  w <> EmptyString -> unitIn ic c w = false ->
  occursIn ic w (a +:+ String c b) = occursIn ic w a || occursIn ic w b.
Proof.
  intros Hw Hc. induction a as [|x a IH].
  - change (EmptyString +:+ String c b) with (String c b).
    rewrite (occursIn_unfold ic w (String c b)), (occursIn_unfold ic w EmptyString).
    destruct w as [|y w]; [contradiction|]. cbn [stripPrefix unitIn] in *.
    apply orb_false_elim in Hc as [Hy _]. now rewrite Hy.
  - change (String x a +:+ String c b) with (String x (a +:+ String c b)).
    rewrite (occursIn_unfold ic w (String x (a +:+ String c b))),
            (occursIn_unfold ic w (String x a)).
    pose proof (stripPrefix_separator ic w c Hc (String x a) b) as H.
    change (String x a +:+ String c b) with (String x (a +:+ String c b)) in H.
    destruct (stripPrefix ic w (String x (a +:+ String c b))),
             (stripPrefix ic w (String x a)); try discriminate; [reflexivity | exact IH].
Qed.

Lemma occursIn_skip ic y w x s :
  sameUnit ic y x = false ->
  occursIn ic (String y w) (String x s) = occursIn ic (String y w) s.
Proof. intros H. rewrite occursIn_unfold. cbn [stripPrefix]. now rewrite H. Qed.

(** An occurrence stays one when text is appended. *)
Lemma stripPrefix_app ic p : forall a b r,
  stripPrefix ic p a = Some r -> stripPrefix ic p (a +:+ b) = Some (r +:+ b).
Proof.
  induction p as [|y p IH]; intros a b r.
  - cbn [stripPrefix]. now intros [= ->].
  - destruct a as [|x a]; [discriminate|].
    change (String x a +:+ b) with (String x (a +:+ b)). cbn [stripPrefix].
    destruct (sameUnit ic y x); [apply IH | discriminate].
Qed.

Lemma occursIn_app_l ic p a b :
  occursIn ic p a = true -> occursIn ic p (a +:+ b) = true.
Proof.
  induction a as [|x a IH]; rewrite (occursIn_unfold ic p _).
  - destruct (stripPrefix ic p EmptyString) as [r|] eqn:E; [|discriminate].
    intros _. rewrite occursIn_unfold.
    now rewrite (stripPrefix_app ic p EmptyString b r E).
  - destruct (stripPrefix ic p (String x a)) as [r|] eqn:E.
    + intros _. rewrite occursIn_unfold.
      now rewrite (stripPrefix_app ic p (String x a) b r E).
    + intros H. change (String x a +:+ b) with (String x (a +:+ b)).
      rewrite occursIn_unfold. destruct (stripPrefix ic p (String x (a +:+ b))); [reflexivity|].
      now apply IH.
Qed.

End JSStringFacts.

(** ** [for ... in] visits every property once *)
Module JSObjectFacts.
Import JSObject.

Lemma insertByIndex_Permutation {V} i (p : string * V) sorted :
  insertByIndex i p sorted ≡ₚ (i, p) :: sorted.
Proof.
  induction sorted as [|[j q] r IH]; cbn [insertByIndex]; [reflexivity|].
  destruct (i <? j)%N; [reflexivity|]. rewrite IH. apply Permutation_swap.
Qed.

Lemma forIn_Permutation {V} (o : object V) : forIn o ≡ₚ o.
Proof.
  unfold forIn. induction o as [|[k v] o IH]; [reflexivity|].
  cbn [indexProperties List.filter fst]. unfold isArrayIndex at 1.
  destruct (arrayIndex k) as [i|]; cbn [negb].
  - rewrite insertByIndex_Permutation. cbn [map snd app]. now rewrite IH.
  - rewrite <- Permutation_middle. now rewrite IH.
Qed.

End JSObjectFacts.

(** ** The RegExp engine on escaped and literal sources *)
Module RegExpFacts.
Import JSString RegExp AnalyzeFile.

(** The class that [escapeRegExp] escapes is the set of syntax characters. *)
Lemma needsEscape_isSyntaxCharacter c : needsEscape c = isSyntaxCharacter c.
Proof. destruct c as [[] [] [] [] [] [] [] []]; reflexivity. Qed.

Lemma parseFrom_plain c rest top stack :
  needsEscape c = false ->
  parseFrom (String c rest) top stack = parseFrom rest (pushAtom (Char c) top) stack.
Proof.
  intros H. destruct c as [[] [] [] [] [] [] [] []];
    first [ discriminate H | reflexivity ].
Qed.

Lemma parseFrom_escaped c rest top stack :
  needsEscape c = true ->
  parseFrom (String "\" (String c rest)) top stack =
  parseFrom rest (pushAtom (Char c) top) stack.
Proof.
  intros H. rewrite needsEscape_isSyntaxCharacter in H.
  cbn [parseFrom]. change (Ascii.eqb "\" "\") with true. cbn iota.
  now rewrite H.
Qed.

Lemma parseFrom_escapeRegExp p : forall top stack,
  parseFrom (escapeRegExp p) top stack = parseFrom EmptyString (pushChars p top) stack.
Proof.
  induction p as [|c p IH]; intros top stack; [reflexivity|].
  cbn [escapeRegExp pushChars]. destruct (needsEscape c) eqn:E.
  - rewrite parseFrom_escaped by exact E. apply IH.
  - rewrite parseFrom_plain by exact E. apply IH.
Qed.

Lemma pushChars_frame p : forall f,
  alternatives (pushChars p f) = alternatives f /\
  terms (pushChars p f) = rev (map Char (list_ascii_of_string p)) ++ terms f.
Proof.
  induction p as [|c p IH]; intros f; cbn [pushChars list_ascii_of_string map rev].
  - split; reflexivity.
  - destruct (IH (pushAtom (Char c) f)) as [Ha Ht]. rewrite Ha, Ht. cbn.
    split; [reflexivity|]. now rewrite <- app_assoc.
Qed.

(** Every escaped pattern compiles, to the literal pattern of its units. *)
Lemma compile_escapeRegExp p : compile (escapeRegExp p) = Pattern (literal p).
Proof.
  unfold compile. rewrite parseFrom_escapeRegExp. cbn [parseFrom]. f_equal.
  unfold closeFrame. destruct (pushChars_frame p emptyFrame) as [Ha Ht].
  rewrite Ha, Ht. cbn [emptyFrame alternatives terms rev app].
  rewrite app_nil_r, rev_involutive. reflexivity.
Qed.

Lemma matchNode_literal ic p : forall s k,
  matchNode ic (literal p) s k =
  match stripPrefix ic p s with
  | Some r => k r
  | None => false
  end.
Proof.
  induction p as [|a p IH]; intros s k; [reflexivity|].
  change (literal (String a p)) with (Seq (Char a) (literal p)).
  cbn [matchNode stripPrefix]. destruct s as [|d s]; [reflexivity|].
  destruct (sameUnit ic a d); [apply IH | reflexivity].
Qed.

Lemma search_unfold ic r s :
  search ic r s =
  (matchNode ic r s (fun _ => true)
   || match s with
      | EmptyString => false
      | String _ s' => search ic r s'
      end).
Proof. destruct s; reflexivity. Qed.

Lemma search_literal ic p s : search ic (literal p) s = occursIn ic p s.
Proof.
  induction s as [|c s IH]; rewrite search_unfold, matchNode_literal,
    JSStringFacts.occursIn_unfold.
  - destruct (stripPrefix ic p EmptyString); reflexivity.
  - destruct (stripPrefix ic p (String c s)); [reflexivity | exact IH].
Qed.

Lemma search_Alt ic a b s : search ic (Alt a b) s = search ic a s || search ic b s.
Proof.
  induction s as [|c s IH].
  - cbn [search matchNode]. now rewrite !orb_false_r.
  - rewrite (search_unfold ic (Alt a b)), (search_unfold ic a), (search_unfold ic b).
    cbn [matchNode]. rewrite IH.
    destruct (matchNode ic a _ _), (matchNode ic b _ _), (search ic a s), (search ic b s);
      reflexivity.
Qed.

(** A group that is the whole pattern. *)
Lemma search_group ic a s : search ic (Seq a Empty) s = search ic a s.
Proof.
  induction s as [|c s IH].
  - reflexivity.
  - rewrite (search_unfold ic (Seq a Empty)), (search_unfold ic a).
    cbn [matchNode]. now rewrite IH.
Qed.

(** A pattern that begins with the units of [p] matches nowhere when [p]
    occurs nowhere. *)
Lemma matchNode_literal_then ic p rest : forall s k,
  matchNode ic (seqOf (map Char (list_ascii_of_string p) ++ rest)) s k =
  match stripPrefix ic p s with
  | Some r => matchNode ic (seqOf rest) r k
  | None => false
  end.
Proof.
  induction p as [|a p IH]; intros s k; [reflexivity|].
  change (seqOf (map Char (list_ascii_of_string (String a p)) ++ rest))
    with (Seq (Char a) (seqOf (map Char (list_ascii_of_string p) ++ rest))).
  cbn [matchNode stripPrefix]. destruct s as [|d s]; [reflexivity|].
  destruct (sameUnit ic a d); [apply IH | reflexivity].
Qed.

Lemma search_prefix_fails ic p rest s :
  search ic (literal p) s = false ->
  search ic (seqOf (map Char (list_ascii_of_string p) ++ rest)) s = false.
Proof.
  induction s as [|c s IH];
    rewrite (search_unfold ic (literal p)), (search_unfold ic (seqOf _));
    rewrite matchNode_literal, matchNode_literal_then.
  - destruct (stripPrefix ic p EmptyString); [discriminate | reflexivity].
  - destruct (stripPrefix ic p (String c s)); [discriminate | exact IH].
Qed.

(** [new RegExp(escapeRegExp(p), flags).test(s)] never throws and is the
    literal search for [p]. *)
Lemma test_escapeRegExp p ic s :
  test (escapeRegExp p) ic s = Some (occursIn ic p s).
Proof. unfold test. now rewrite compile_escapeRegExp, search_literal. Qed.

(** Without the escape the same source reads as a pattern language. *)
Example unescaped_dot_is_a_wildcard :
  test "a.c" true "abc" = Some true /\ test (escapeRegExp "a.c") true "abc" = Some false.
Proof. split; reflexivity. Qed.

Example unescaped_paren_throws :
  test "eval(" true "eval(" = None /\ test (escapeRegExp "eval(") true "x EVAL(1)" = Some true.
Proof. split; reflexivity. Qed.

End RegExpFacts.

(** ** The scan loop *)
Module ScanFacts.
Import JSString AnalyzeFile Claims.

Section AnyEngine.
Variable regexTest : string -> string -> option bool.

(** One pattern either leaves the state alone or records its own pair,
    and the latter only under a key not seen before. *)
Lemma scanPattern_cases content cat pat st :
  (scanPattern regexTest content cat pat st = st) \/
  ((patternKey cat pat ∉ snd st) /\
   scanPattern regexTest content cat pat st = record cat pat st).
Proof.
  unfold scanPattern.
  destruct (decide (patternKey cat pat ∈ snd st)) as [Hin|Hnin]; [now left|].
  destruct (regexTest (escapeRegExp pat) content) as [[]|];
    [now right | now left |].
  destruct (negb (isLargeContent content) && includes _ _); [now right | now left].
Qed.

Lemma scanPattern_fresh content cat pat st :
  patternKey cat pat ∉ snd st ->
  scanPattern regexTest content cat pat st =
  match regexTest (escapeRegExp pat) content with
  | Some true => record cat pat st
  | Some false => st
  | None =>
      if negb (isLargeContent content)
         && includes (toLowerCase content) (toLowerCase pat)
      then record cat pat st else st
  end.
Proof.
  intros Hnin. unfold scanPattern.
  destruct (decide (patternKey cat pat ∈ snd st)); [contradiction | reflexivity].
Qed.

Lemma scanPattern_invariant content cat pat st :
  scanInvariant st -> scanInvariant (scanPattern regexTest content cat pat st).
Proof.
  intros [Hnd Hin].
  destruct (scanPattern_cases content cat pat st) as [-> | [Hfresh ->]];
    [now split|].
  unfold record, scanInvariant. cbn [fst snd]. split.
  - rewrite fmap_app. apply NoDup_app. split; [exact Hnd|]. split.
    + intros k Hk Hk'. apply list_elem_of_fmap in Hk as (g & -> & Hg).
      apply list_elem_of_singleton in Hk'. apply Hfresh.
      unfold keyOf in Hk'. cbn in Hk'. rewrite <- Hk'. now apply Hin.
    + apply NoDup_singleton.
  - intros f Hf. apply elem_of_app in Hf as [Hf | Hf].
    + apply elem_of_union_r. now apply Hin.
    + apply list_elem_of_singleton in Hf as ->. apply elem_of_union_l.
      now apply elem_of_singleton.
Qed.

Lemma scanFlat_invariant content pairs : forall st,
  scanInvariant st -> scanInvariant (scanFlat regexTest content pairs st).
Proof.
  induction pairs as [|f pairs IH]; intros st Hst; [exact Hst|].
  apply IH, scanPattern_invariant, Hst.
Qed.

(** The nested loops are one pass over the flattened library. *)
Lemma scanCategory_flat content entry st :
  scanCategory regexTest content st entry =
  scanFlat regexTest content
    (map (fun p => {| pattern := p; category := fst entry |}) (snd entry)) st.
Proof.
  unfold scanCategory, scanFlat. generalize st.
  induction (snd entry) as [|p ps IH]; intros st'; [reflexivity | apply IH].
Qed.

Lemma scanFlat_app content l1 l2 st :
  scanFlat regexTest content (l1 ++ l2) st =
  scanFlat regexTest content l2 (scanFlat regexTest content l1 st).
Proof. unfold scanFlat. apply fold_left_app. Qed.

Lemma scanEntries_flat content entries : forall st,
  fold_left (scanCategory regexTest content) entries st =
  scanFlat regexTest content (declared entries) st.
Proof.
  induction entries as [|e entries IH]; intros st; [reflexivity|].
  cbn [fold_left declared flat_map]. rewrite IH, scanCategory_flat.
  change (flat_map _ entries) with (declared entries).
  now rewrite scanFlat_app.
Qed.

Lemma scanLibrary_flat lib content :
  scanLibrary regexTest lib content =
  scanFlat regexTest content (declared (JSObject.forIn lib)) ([], ∅).
Proof. apply scanEntries_flat. Qed.

Lemma scanLibrary_invariant lib content :
  scanInvariant (scanLibrary regexTest lib content).
Proof.
  rewrite scanLibrary_flat. apply scanFlat_invariant. split.
  - constructor.
  - intros f Hf. inversion Hf.
Qed.

(** Findings are appended in the order the pairs are visited. *)
Lemma scanFlat_sublist content pairs : forall st,
  exists added,
    fst (scanFlat regexTest content pairs st) = fst st ++ added /\
    added `sublist_of` pairs.
Proof.
  induction pairs as [|f pairs IH]; intros st.
  - exists []. split; [now rewrite app_nil_r | constructor].
  - cbn [scanFlat fold_left].
    destruct (IH (scanPattern regexTest content (category f) (pattern f) st))
      as (added & Heq & Hsub).
    unfold scanFlat in Heq. rewrite Heq.
    destruct (scanPattern_cases content (category f) (pattern f) st) as [-> | [_ ->]].
    + exists added. split; [reflexivity | now constructor].
    + exists (f :: added). split.
      * unfold record. cbn [fst]. rewrite <- app_assoc. now destruct f.
      * now constructor.
Qed.

End AnyEngine.

(** With the RegExp engine the test of an unseen pair is the literal search. *)
Lemma scanPattern_literal content cat pat st :
  patternKey cat pat ∉ snd st ->
  scanPattern regexTestI content cat pat st =
  if occursIn true pat content then record cat pat st else st.
Proof.
  intros H. rewrite scanPattern_fresh by exact H.
  unfold regexTestI. rewrite RegExpFacts.test_escapeRegExp.
  destruct (occursIn true pat content); reflexivity.
Qed.

(** [for ... in] keeps the declared order when no key is an array index. *)
Lemma forIn_plain (lib : library) : plainCategories lib -> JSObject.forIn lib = lib.
Proof.
  unfold JSObject.forIn, plainCategories. intros Hplain.
  assert (JSObject.indexProperties lib = []) as ->.
  { induction Hplain as [|[k v] l Hk _ IH]; [reflexivity|].
    cbn [JSObject.indexProperties]. cbn [fst] in Hk. unfold JSObject.isArrayIndex in Hk.
    destruct (JSObject.arrayIndex k); [discriminate | exact IH]. }
  cbn [map app]. induction Hplain as [|[k v] l Hk _ IH]; [reflexivity|].
  cbn [List.filter fst] in *. rewrite Hk. cbn [negb]. now rewrite IH.
Qed.

Lemma record_changes cat pat st : record cat pat st <> st.
Proof.
  unfold record. destruct st as [fs ks]. intros [= H _].
  apply (f_equal length) in H. rewrite length_app in H. cbn in H. lia.
Qed.

End ScanFacts.

(** ** The signature matcher: claims C5, C7 and C10 *)
Module Matcher.
Import JSString AnalyzeFile Claims ScanFacts.

(** C5. The findings of one scan hold each (category, pattern) pair at most
    once, whatever the content, the library and the behaviour of the engine. *)
Theorem C5_findings_distinct (regexTest : string -> string -> option bool)
    (malwarePatterns : library) (content : string) :
  NoDup (findMaliciousPatterns regexTest malwarePatterns content).
Proof.
  destruct (scanLibrary_invariant regexTest malwarePatterns content) as [Hnd _].
  unfold findMaliciousPatterns. eapply NoDup_fmap_1. exact Hnd.
Qed.

(** Three occurrences in the content, and the pair listed twice: one finding. *)
Example dedup_repeated_pattern :
  scan [("Credential Theft", ["mimikatz"; "mimikatz"])] "mimikatz MIMIKATZ mimikatz"
  = [{| pattern := "mimikatz"; category := "Credential Theft" |}].
Proof. vm_compute. reflexivity. Qed.

Lemma forIn_singleton {V} (category : string) (v : V) :
  JSObject.forIn [(category, v)] = [(category, v)].
Proof.
  unfold JSObject.forIn, JSObject.isArrayIndex. cbn.
  destruct (JSObject.arrayIndex category); reflexivity.
Qed.

Lemma scan_one_pattern (regexTest : string -> string -> option bool)
    (content category pattern : string) :
  findMaliciousPatterns regexTest [(category, [pattern])] content
  = fst (scanPattern regexTest content category pattern ([], ∅)).
Proof.
  unfold findMaliciousPatterns, scanLibrary. now rewrite forIn_singleton.
Qed.

(** C7. For a pattern whose match construction or test throws (its key not
    recorded yet): up to 50 MB of content the case-insensitive substring
    fallback decides, and when the content contains the pattern the finding
    for it is appended to the findings and its key added to the checked
    keys, otherwise findings and keys stay as they were; above 50 MB the
    fallback is not tried and nothing is appended. For a library of that one
    pattern the scan returns the one finding, or none. *)
Theorem C7_fallback_guard (regexTest : string -> string -> option bool)
    (content category pattern : string) (st : scanState) :
  regexTest (escapeRegExp pattern) content = None ->
  patternKey category pattern ∉ snd st ->
  ((Z.of_nat (String.length content) <= 50 * 1024 * 1024)%Z ->
     containsLiteral pattern content ->
     fst (scanPattern regexTest content category pattern st)
     = fst st ++ [{| pattern := pattern; category := category |}]
     /\ snd (scanPattern regexTest content category pattern st)
        = {[ patternKey category pattern ]} ∪ snd st
     /\ findMaliciousPatterns regexTest [(category, [pattern])] content
        = [{| pattern := pattern; category := category |}])
  /\ ((Z.of_nat (String.length content) <= 50 * 1024 * 1024)%Z ->
        ~ containsLiteral pattern content ->
        scanPattern regexTest content category pattern st = st
        /\ findMaliciousPatterns regexTest [(category, [pattern])] content = [])
  /\ ((Z.of_nat (String.length content) > 50 * 1024 * 1024)%Z ->
        scanPattern regexTest content category pattern st = st
        /\ findMaliciousPatterns regexTest [(category, [pattern])] content = []).
Proof.
  intros Hthrow Hfresh.
  assert (forall st' : scanState, patternKey category pattern ∉ snd st' ->
            scanPattern regexTest content category pattern st'
            = if negb (isLargeContent content) && occursIn true pattern content
              then record category pattern st' else st') as Hstep.
  { intros st' Hst'. rewrite (scanPattern_fresh regexTest) by exact Hst'.
    now rewrite Hthrow, JSStringFacts.includes_toLowerCase. }
  rewrite scan_one_pattern, (Hstep st Hfresh), (Hstep ([], ∅)) by apply not_elem_of_empty.
  pose proof (JSStringFacts.occursIn_containsLiteral pattern content) as Hspec.
  unfold isLargeContent, MAX_CONTENT_LENGTH_FOR_SCAN.
  split; [|split].
  - intros Hlen Hin. apply Hspec in Hin. rewrite Hin.
    destruct (Z.gtb_spec (Z.of_nat (String.length content)) (50 * 1024 * 1024));
      [lia|]. cbn [negb andb]. unfold record. cbn [fst snd app]. auto.
  - intros Hlen Hnot.
    destruct (occursIn true pattern content); [exfalso; tauto|].
    rewrite andb_false_r. auto.
  - intros Hlen.
    destruct (Z.gtb_spec (Z.of_nat (String.length content)) (50 * 1024 * 1024));
      [|lia]. cbn [negb andb]. auto.
Qed.

Lemma C7_fallback_guard_witness :
  fst (scanPattern (fun _ _ => None) "run MIMIKATZ now" "Credential Theft" "mimikatz"
         ([{| pattern := "reverse shell"; category := "Shells" |}],
          {[ patternKey "Shells" "reverse shell" ]}))
  = [{| pattern := "reverse shell"; category := "Shells" |};
     {| pattern := "mimikatz"; category := "Credential Theft" |}]
  /\ findMaliciousPatterns (fun _ _ => None) [("Credential Theft", ["mimikatz"])]
       "run MIMIKATZ now"
     = [{| pattern := "mimikatz"; category := "Credential Theft" |}].
Proof.
  destruct (C7_fallback_guard (fun _ _ => None) "run MIMIKATZ now" "Credential Theft"
              "mimikatz"
              ([{| pattern := "reverse shell"; category := "Shells" |}],
               {[ patternKey "Shells" "reverse shell" ]}))
    as [Hsmall _].
  - reflexivity.
  - cbn [snd]. intros H. apply elem_of_singleton in H. vm_compute in H. discriminate.
  - destruct Hsmall as (Hfst & _ & Hscan).
    + vm_compute. discriminate.
    + apply JSStringFacts.occursIn_containsLiteral. vm_compute. reflexivity.
    + split; [exact Hfst | exact Hscan].
Defined.

(** C10, as amended. Two scans of the same content and library return the
    same findings, in the order in which [for ... in] visits the library:
    categories that are array indices first, in ascending order, then the
    others in declaration order, the patterns of a category in declaration
    order. When no category is an array index this is the declared order. *)
Theorem C10_enumeration_order (regexTest : string -> string -> option bool)
    (malwarePatterns : library) (content : string) :
  (forall malwarePatterns' content',
      malwarePatterns' = malwarePatterns -> content' = content ->
      findMaliciousPatterns regexTest malwarePatterns' content'
      = findMaliciousPatterns regexTest malwarePatterns content)
  /\ findMaliciousPatterns regexTest malwarePatterns content
       `sublist_of` declared (JSObject.forIn malwarePatterns)
  /\ (plainCategories malwarePatterns ->
      findMaliciousPatterns regexTest malwarePatterns content
        `sublist_of` declared malwarePatterns).
Proof.
  assert (findMaliciousPatterns regexTest malwarePatterns content
            `sublist_of` declared (JSObject.forIn malwarePatterns)) as Hsub.
  { unfold findMaliciousPatterns. rewrite scanLibrary_flat.
    destruct (scanFlat_sublist regexTest content
                (declared (JSObject.forIn malwarePatterns)) ([], ∅))
      as (added & -> & Hadded).
    exact Hadded. }
  split; [intros ? ? -> ->; reflexivity|]. split; [exact Hsub|].
  intros Hplain. now rewrite <- (forIn_plain malwarePatterns Hplain) at 2.
Qed.

Lemma C10_enumeration_order_witness :
  plainCategories [("Shells", ["reverse shell"]); ("Credential Theft", ["mimikatz"])]
  /\ findMaliciousPatterns regexTestI
       [("Shells", ["reverse shell"]); ("Credential Theft", ["mimikatz"])]
       "mimikatz opens a reverse shell"
     `sublist_of`
     declared [("Shells", ["reverse shell"]); ("Credential Theft", ["mimikatz"])].
Proof.
  assert (plainCategories
            [("Shells", ["reverse shell"]); ("Credential Theft", ["mimikatz"])]) as H
    by (repeat constructor).
  split; [exact H|].
  apply (C10_enumeration_order regexTestI
           [("Shells", ["reverse shell"]); ("Credential Theft", ["mimikatz"])]
           "mimikatz opens a reverse shell").
  exact H.
Defined.

(** The claim as stated fails when a category name is an array index: the
    category declared second is scanned first. *)
Lemma C10_declared_order_counterexample :
  findMaliciousPatterns regexTestI [("b", ["x"]); ("1", ["y"])] "xy"
  = [{| pattern := "y"; category := "1" |}; {| pattern := "x"; category := "b" |}]
  /\ declared [("b", ["x"]); ("1", ["y"])]
     = [{| pattern := "x"; category := "b" |}; {| pattern := "y"; category := "1" |}]
  /\ ~ (findMaliciousPatterns regexTestI [("b", ["x"]); ("1", ["y"])] "xy"
          `sublist_of` declared [("b", ["x"]); ("1", ["y"])]).
Proof.
  split; [vm_compute; reflexivity|]. split; [reflexivity|].
  assert (findMaliciousPatterns regexTestI [("b", ["x"]); ("1", ["y"])] "xy"
          = [{| pattern := "y"; category := "1" |}; {| pattern := "x"; category := "b" |}])
    as -> by (vm_compute; reflexivity).
  cbn. intros H.
  apply sublist_cons_l in H as (k1 & k2 & Hk & Hsub).
  apply sublist_cons_l in Hsub as (k3 & k4 & -> & _).
  destruct k1 as [|? [|? k1]]; [discriminate | | ].
  - injection Hk as _ Hk. destruct k3 as [|? [|? ?]]; discriminate.
  - injection Hk as _ _ Hk. destruct k1; discriminate.
Qed.

End Matcher.

(** ** The whole scan with the RegExp engine *)
Module ScanResults.
Import JSString AnalyzeFile Claims ScanFacts.

Lemma scanFlat_grows regexTest content pairs st f :
  f ∈ fst st -> f ∈ fst (scanFlat regexTest content pairs st).
Proof.
  intros Hf. destruct (scanFlat_sublist regexTest content pairs st) as (added & -> & _).
  apply elem_of_app. now left.
Qed.

Lemma scanFlat_sound content pairs : forall st f,
  f ∈ fst (scanFlat regexTestI content pairs st) ->
  f ∈ fst st \/ (f ∈ pairs /\ containsLiteral (pattern f) content).
Proof.
  induction pairs as [|p pairs IH]; intros st f Hf; [now left|].
  cbn [scanFlat fold_left] in Hf. apply IH in Hf as [Hf | [Hf Hc]].
  - destruct (scanPattern_cases regexTestI content (category p) (pattern p) st)
      as [Heq | [Hfresh Heq]]; rewrite Heq in Hf; [now left|].
    unfold record in Hf. cbn [fst] in Hf. apply elem_of_app in Hf as [Hf | Hf]; [now left|].
    apply list_elem_of_singleton in Hf. right. split.
    + subst f. destruct p. left.
    + rewrite scanPattern_literal in Heq by exact Hfresh.
      apply JSStringFacts.occursIn_containsLiteral. subst f. cbn.
      destruct (occursIn true (pattern p) content); [reflexivity|].
      symmetry in Heq. now apply record_changes in Heq.
  - right. split; [now right | exact Hc].
Qed.

(** Every finding is a pair of the library whose pattern the content
    contains: the escaped pattern never matches more than its own text. *)
Theorem scan_sound (malwarePatterns : library) (content : string) (f : Finding) :
  f ∈ scan malwarePatterns content ->
  f ∈ declared (JSObject.forIn malwarePatterns) /\ containsLiteral (pattern f) content.
Proof.
  unfold scan, findMaliciousPatterns. rewrite scanLibrary_flat. intros Hf.
  apply scanFlat_sound in Hf as [Hf | Hf]; [inversion Hf | exact Hf].
Qed.

Lemma scanPattern_covered regexTest content cat pat st :
  (forall k, k ∈ snd st -> exists g, g ∈ fst st /\ keyOf g = k) ->
  forall k, k ∈ snd (scanPattern regexTest content cat pat st) ->
  exists g, g ∈ fst (scanPattern regexTest content cat pat st) /\ keyOf g = k.
Proof.
  intros Hcov k.
  destruct (scanPattern_cases regexTest content cat pat st) as [-> | [_ ->]];
    [apply Hcov|].
  unfold record. cbn [fst snd]. intros Hk. apply elem_of_union in Hk as [Hk | Hk].
  - apply elem_of_singleton in Hk as ->.
    exists {| pattern := pat; category := cat |}. split; [|reflexivity].
    apply elem_of_app. right. now apply list_elem_of_singleton.
  - destruct (Hcov k Hk) as (g & Hg & Hkey). exists g. split; [|exact Hkey].
    apply elem_of_app. now left.
Qed.

Lemma scanFlat_complete content pairs : forall st,
  (forall k, k ∈ snd st -> exists g, g ∈ fst st /\ keyOf g = k) ->
  forall f, f ∈ pairs -> containsLiteral (pattern f) content ->
  exists g, g ∈ fst (scanFlat regexTestI content pairs st) /\ keyOf g = keyOf f.
Proof.
  induction pairs as [|p pairs IH]; intros st Hcov f Hf Hc; [inversion Hf|].
  cbn [scanFlat fold_left]. apply elem_of_cons in Hf as [-> | Hf].
  - destruct (decide (keyOf p ∈ snd st)) as [Hin | Hnin].
    + destruct (Hcov _ Hin) as (g & Hg & Hkey). exists g. split; [|exact Hkey].
      apply (scanFlat_grows regexTestI content pairs).
      destruct (scanPattern_cases regexTestI content (category p) (pattern p) st)
        as [-> | [Hfresh _]]; [exact Hg | contradiction].
    + exists p. split; [|reflexivity].
      apply (scanFlat_grows regexTestI content pairs).
      rewrite scanPattern_literal by exact Hnin.
      apply JSStringFacts.occursIn_containsLiteral in Hc. rewrite Hc.
      unfold record. cbn [fst]. apply elem_of_app. right. destruct p. left.
  - apply (IH _ (scanPattern_covered regexTestI content _ _ st Hcov) f Hf Hc).
Qed.


(** Two different pairs can share a key: the second is then skipped although
    the content contains its pattern. *)
Example key_collision_hides_a_pattern :
  scan [("a", ["b:c"]); ("a:b", ["c"])] "b:c" = [{| pattern := "b:c"; category := "a" |}]
  /\ occursIn true "c" "b:c" = true.
Proof. split; vm_compute; reflexivity. Qed.

End ScanResults.

(** ** The decoder: bytes stay bytes *)
Module BufferFacts.
Import JSString Buffer.

Lemma unbase64_range c v : unbase64 c = Some v -> (0 <= v < 64)%Z.
Proof.
  intros H. destruct c as [[] [] [] [] [] [] [] []]; vm_compute in H;
    first [ discriminate H | injection H as <-; lia ].
Qed.

Lemma sextets_range s : Forall (fun v => (0 <= v < 64)%Z) (sextets s).
Proof.
  induction s as [|c s IH]; cbn [sextets]; [constructor|].
  destruct (Ascii.eqb c "="); [constructor|].
  destruct (unbase64 c) as [v|] eqn:E; [|exact IH].
  constructor; [now apply unbase64_range with c | exact IH].
Qed.

(** The three bytes of a group, checked over all pairs of sextets. *)
Lemma bytes_of_sextets_checked :
  forallb (fun i => forallb (fun j =>
      let hi := Z.of_nat i in
      let lo := Z.of_nat j in
      ((0 <=? byte1 hi lo) && (byte1 hi lo <? 256)
       && (0 <=? byte2 hi lo) && (byte2 hi lo <? 256)
       && (0 <=? byte3 hi lo) && (byte3 hi lo <? 256))%Z)
    (seq 0 64)) (seq 0 64) = true.
Proof. vm_compute. reflexivity. Qed.

Lemma byte_range hi lo :
  (0 <= hi < 64)%Z -> (0 <= lo < 64)%Z ->
  (0 <= byte1 hi lo < 256)%Z /\ (0 <= byte2 hi lo < 256)%Z /\ (0 <= byte3 hi lo < 256)%Z.
Proof.
  intros Hhi Hlo. pose proof bytes_of_sextets_checked as H.
  rewrite forallb_forall in H.
  assert (In (Z.to_nat hi) (seq 0 64)) as Hi by (apply in_seq; lia).
  specialize (H _ Hi). rewrite forallb_forall in H.
  assert (In (Z.to_nat lo) (seq 0 64)) as Hj by (apply in_seq; lia).
  specialize (H _ Hj). cbv zeta in H. rewrite !Z2Nat.id in H by lia.
  repeat (apply andb_prop in H as [H ?]). lia.
Qed.

Lemma decodeGroups_range : forall n l,
  (length l <= n)%nat ->
  Forall (fun v => (0 <= v < 64)%Z) l ->
  Forall (fun b => (0 <= b < 256)%Z) (decodeGroups l).
Proof.
  induction n as [|n IH]; intros l Hlen Hl.
  - destruct l; [constructor | cbn in Hlen; lia].
  - destruct l as [|a [|b [|c [|d rest]]]]; cbn [decodeGroups]; try constructor;
      repeat match goal with
             | H : Forall _ (_ :: _) |- _ => apply Forall_cons_1 in H as [? H]
             end.
    + now apply byte_range.
    + constructor.
    + now apply byte_range.
    + constructor; [now apply (byte_range b c) | constructor].
    + now apply byte_range.
    + constructor; [now apply (byte_range b c)|].
      constructor; [now apply (byte_range c d)|].
      apply IH; [cbn in Hlen; lia | assumption].
Qed.

Lemma fromBase64_range payload :
  Forall (fun b => (0 <= b < 256)%Z) (fromBase64 payload).
Proof.
  unfold fromBase64. eapply decodeGroups_range; [reflexivity | apply sextets_range].
Qed.

(** [toString('latin1')] maps each byte to the code unit of the same value. *)
Lemma toStringLatin1_codes bytes :
  Forall (fun b => (0 <= b < 256)%Z) bytes ->
  map (fun c => Z.of_N (charCode c)) (list_ascii_of_string (toStringLatin1 bytes)) = bytes.
Proof.
  induction 1 as [|b bytes Hb _ IH]; [reflexivity|].
  cbn [toStringLatin1 list_ascii_of_string map]. rewrite IH. f_equal.
  unfold latin1Char, charCode, fromCharCode.
  rewrite Z.mod_small by lia. rewrite N_ascii_embedding by lia. lia.
Qed.

End BufferFacts.

(** ** The server action: claim C6 *)
Module Action.
Import JSString Effects AnalyzeFile SummarizeAnalysis Claims.

Lemma truthy_nonempty s : truthy s = true <-> s <> EmptyString.
Proof. destruct s; cbn; split; congruence. Qed.

(** Past the two guards the action is the decoding step followed by the rest. *)
Lemma analyzeFileContent_runs (malwarePatterns : library)
    (prompt : string -> promptReply) (input : AnalyzeFileInput) :
  truthy (fileName input) = true ->
  truthy (fileContent input) = true ->
  truthy (contentType input) = true ->
  stripHeader (fileContent input) <> EmptyString ->
  analyzeFileContent malwarePatterns prompt input
  = analyzeDecoded regexTestI malwarePatterns (summarizeWith prompt)
      (decodeStep nodeDecode (stripHeader (fileContent input))).
Proof.
  intros Hname Hcontent Htype Hpayload.
  unfold analyzeFileContent, analyzeFileContentWith.
  rewrite Hname, Hcontent, Htype. cbn [negb orb].
  apply truthy_nonempty in Hpayload. now rewrite Hpayload.
Qed.

(** C6, as amended. For every input whose three fields are non-empty and
    whose payload is empty after the header is stripped, the action returns
    the empty-content error with empty findings, and neither scans nor calls
    the summarizer or the model. *)
Theorem C6_empty_payload (regexTest : string -> string -> option bool)
    (decode : string -> thrown + string) (malwarePatterns : library)
    (summarize : string -> Eff (thrown + string)) (input : AnalyzeFileInput) :
  truthy (fileName input) = true ->
  truthy (fileContent input) = true ->
  truthy (contentType input) = true ->
  stripHeader (fileContent input) = EmptyString ->
  analyzeFileContentWith regexTest decode malwarePatterns summarize input
  = ({| findings := Some [];
        summary := Some "Analysis could not be performed: File content is empty.";
        error := Some "File content appears to be empty after processing." |},
     []).
Proof.
  intros Hname Hcontent Htype Hpayload. unfold analyzeFileContentWith.
  rewrite Hname, Hcontent, Htype, Hpayload. reflexivity.
Qed.

Lemma C6_empty_payload_witness :
  analyzeFileContent [("Credential Theft", ["mimikatz"])] (fun _ => NoOutput)
    {| fileName := "a.png"; fileContent := "data:image/png;base64,";
       contentType := "image/png" |}
  = ({| findings := Some [];
        summary := Some "Analysis could not be performed: File content is empty.";
        error := Some "File content appears to be empty after processing." |},
     []).
Proof.
  apply (C6_empty_payload regexTestI nodeDecode [("Credential Theft", ["mimikatz"])]
           (summarizeWith (fun _ => NoOutput))
           {| fileName := "a.png"; fileContent := "data:image/png;base64,";
              contentType := "image/png" |});
    reflexivity.
Defined.

(** The claim as stated fails on an input with an empty payload and an empty
    content type (or name, or content): the required-field check answers
    first, with another message and no findings field. *)
Lemma C6_missing_field_counterexample :
  stripHeader "data:application/octet-stream;base64," = EmptyString
  /\ analyzeFileContent [("Credential Theft", ["mimikatz"])] (fun _ => NoOutput)
       {| fileName := "blob.bin"; fileContent := "data:application/octet-stream;base64,";
          contentType := EmptyString |}
     = ({| findings := None; summary := None;
           error := Some "Missing required input data." |}, [])
  /\ Some "Missing required input data."
     <> Some "File content appears to be empty after processing."
  /\ (None : option (list Finding)) <> Some [].
Proof. repeat split; try reflexivity; discriminate. Qed.

End Action.

(** ** The summary flow: regular-expression literals and the override guard *)
Module SummaryFacts.
Import JSString Effects RegExp AnalyzeFile SummarizeAnalysis Claims.

(** Every regular-expression literal of the module is read by the engine. *)
Lemma literals_compile :
  Forall (fun src => exists r, compile src = Pattern r)
    [reNoPatterns; reRawBase64; reNoPatternsRaw; reThreatVocabulary;
     reAnalysisResults; reCryptoTokens; reMaliciousContext; reLimitation].
Proof. repeat constructor; eexists; vm_compute; reflexivity. Qed.

(** A literal without syntax characters is a plain substring search. *)
Lemma testLiteral_plain p ic s :
  escapeRegExp p = p -> testLiteral p ic s = occursIn ic p s.
Proof.
  intros H. unfold testLiteral. rewrite <- H at 1.
  now rewrite RegExpFacts.test_escapeRegExp.
Qed.

Lemma testLiteral_maliciousContext s :
  testLiteral reMaliciousContext true s
  = occursIn true "malicious use" s || occursIn true "obfuscate" s
    || occursIn true "hide C2" s || occursIn true "ransomware behavior" s.
Proof.
  unfold testLiteral, test.
  change (compile reMaliciousContext)
    with (Pattern (Alt (literal "malicious use")
                    (Alt (literal "obfuscate")
                       (Alt (literal "hide C2") (literal "ransomware behavior"))))).
  cbv beta iota. rewrite !RegExpFacts.search_Alt, !RegExpFacts.search_literal.
  now rewrite !orb_assoc.
Qed.

(** The guard asks for the text [analysisResults], letter for letter, in the
    evidence. *)
Lemma overrideGuard_needs_marker summary analysisResults :
  overrideGuard summary analysisResults = true ->
  occursIn false "analysisResults" analysisResults = true.
Proof.
  unfold overrideGuard. intros H.
  apply andb_prop in H as [H _]. apply andb_prop in H as [H _].
  apply andb_prop in H as [_ H].
  now rewrite (testLiteral_plain reAnalysisResults) in H by reflexivity.
Qed.

(** Without that text the summary of the model is returned as it came. *)
Theorem postProcess_without_marker summary analysisResults :
  occursIn false "analysisResults" analysisResults = false ->
  postProcess summary analysisResults = summary.
Proof.
  intros H. unfold postProcess.
  destruct (overrideGuard summary analysisResults) eqn:E; [|reflexivity].
  apply overrideGuard_needs_marker in E. congruence.
Qed.

(** Evidence with an explicit malicious-context phrase is never overridden. *)
Theorem postProcess_malicious_context summary analysisResults :
  occursIn true "malicious use" analysisResults = true
  \/ occursIn true "obfuscate" analysisResults = true
  \/ occursIn true "hide C2" analysisResults = true
  \/ occursIn true "ransomware behavior" analysisResults = true ->
  postProcess summary analysisResults = summary.
Proof.
  intros H. unfold postProcess, overrideGuard.
  rewrite testLiteral_maliciousContext.
  assert (occursIn true "malicious use" analysisResults
          || occursIn true "obfuscate" analysisResults
          || occursIn true "hide C2" analysisResults
          || occursIn true "ransomware behavior" analysisResults = true) as ->.
  { destruct H as [-> | [-> | [-> | ->]]]; now rewrite ?orb_true_r. }
  cbn [negb]. now rewrite andb_false_r.
Qed.

(** With the marker in the evidence the guard does what it is written for. *)
Example postProcess_with_marker :
  postProcess "The file uses AES encryption." "analysisResults: AES, DES"
  = overrideSummary
  /\ postProcess "The file uses AES encryption." "analysisResults: AES (decoding failed)"
     = overrideSummary +:+ limitationNote.
Proof. split; vm_compute; reflexivity. Qed.

Lemma flow_output prompt analysisResults summary :
  prompt analysisResults = Output summary ->
  summarizeAnalysisResultsFlow prompt analysisResults
  = (postProcess summary analysisResults, [LlmPrompt analysisResults]).
Proof. intros H. unfold summarizeAnalysisResultsFlow. now rewrite H. Qed.

Lemma flow_rejected prompt analysisResults e :
  prompt analysisResults = Rejects e ->
  summarizeAnalysisResultsFlow prompt analysisResults
  = (flowFallback analysisResults (messageOf e "Unknown error during AI summary generation"),
     [LlmPrompt analysisResults]).
Proof. intros H. unfold summarizeAnalysisResultsFlow. now rewrite H. Qed.

(** The count of the fallback text is the number of line feeds less one. *)
Lemma split_length s : length (split LF s) = S (lineBreaks s).
Proof.
  induction s as [|c s IH]; [reflexivity|].
  cbn [split lineBreaks]. destruct (Ascii.eqb c LF).
  - cbn [List.length]. rewrite IH. lia.
  - destruct (split LF s); cbn [List.length] in *; lia.
Qed.

Lemma lineBreaks_app a b : lineBreaks (a +:+ b) = lineBreaks a + lineBreaks b.
Proof.
  induction a as [|c a IH]; [reflexivity|].
  change (String c a +:+ b) with (String c (a +:+ b)).
  cbn [lineBreaks]. rewrite IH. lia.
Qed.

Lemma lineBreaks_uint d : lineBreaks (NilEmpty.string_of_uint d) = 0.
Proof.
  induction d as [|d IH|d IH|d IH|d IH|d IH|d IH|d IH|d IH|d IH|d IH];
    [reflexivity|..];
    cbn [NilEmpty.string_of_uint lineBreaks]; rewrite IH; reflexivity.
Qed.

Lemma lineBreaks_join lines :
  Forall (fun l => lineBreaks l = 0) lines ->
  lineBreaks (join newline lines) = pred (length lines).
Proof.
  induction 1 as [|l lines Hl Hlines IH]; [reflexivity|].
  destruct lines as [|l' lines]; [exact Hl|].
  change (join newline (l :: l' :: lines))
    with (l +:+ newline +:+ join newline (l' :: lines)).
  rewrite !lineBreaks_app, IH, Hl. reflexivity.
Qed.

Lemma lineBreaks_detailLine f : singleLine f -> lineBreaks (detailLine f) = 0.
Proof.
  intros [Hc Hp]. unfold detailLine. rewrite !lineBreaks_app, Hc, Hp. reflexivity.
Qed.

(** On the evidence of a decoded scan with [n > 0] single-line findings the
    fallback counts [n - 1] patterns. *)
Theorem fallbackCount_evidence o detected :
  decodedSuccessfully o = true ->
  Forall singleLine detected ->
  detected <> [] ->
  fallbackCount (evidenceBlock o detected) = (Z.of_nat (length detected) - 1)%Z.
Proof.
  intros Hok Hlines Hne. unfold fallbackCount, evidenceBlock. rewrite Hok, split_length.
  rewrite !lineBreaks_app. unfold natToString. rewrite lineBreaks_uint.
  rewrite lineBreaks_join, length_map.
  - destruct detected; [contradiction|]. cbn. lia.
  - apply Forall_map. eapply Forall_impl; [exact Hlines|].
    intros f Hf. now apply lineBreaks_detailLine.
Qed.

(** The evidence block holds the text [analysisResults] only if a category,
    a pattern or the decode error does: everything the action writes around
    them is free of it, and the units next to them are not letters. *)
Lemma marker_free_uint d : occursIn false "analysisResults" (NilEmpty.string_of_uint d) = false.
Proof.
  induction d as [|d IH|d IH|d IH|d IH|d IH|d IH|d IH|d IH|d IH|d IH];
    [reflexivity|..];
    cbn [NilEmpty.string_of_uint];
    rewrite JSStringFacts.occursIn_skip by reflexivity; exact IH.
Qed.

Ltac separate :=
  rewrite JSStringFacts.occursIn_separator by (first [discriminate | reflexivity]).

Lemma marker_free_detailLine f :
  markerFree f -> occursIn false "analysisResults" (detailLine f) = false.
Proof.
  intros [Hc Hp]. unfold detailLine.
  change ("- Category: " +:+ category f +:+ ", Detected Pattern: " +:+ dquote
          +:+ pattern f +:+ dquote)
    with ("- Category:" +:+ String " "
            (category f +:+ String ","
               (" Detected Pattern: " +:+ String (fromCharCode 34)
                  (pattern f +:+ String (fromCharCode 34) EmptyString)))).
  repeat separate. rewrite Hc, Hp. reflexivity.
Qed.

Lemma marker_free_join lines :
  Forall (fun l => occursIn false "analysisResults" l = false) lines ->
  occursIn false "analysisResults" (join newline lines) = false.
Proof.
  induction 1 as [|l lines Hl Hlines IH]; [reflexivity|].
  destruct lines as [|l' lines]; [exact Hl|].
  change (join newline (l :: l' :: lines))
    with (l +:+ String LF (join newline (l' :: lines))).
  separate. now rewrite Hl, IH.
Qed.

Lemma marker_free_evidence o detected :
  occursIn false "analysisResults" (showDecodeError (decodeError o)) = false ->
  Forall markerFree detected ->
  occursIn false "analysisResults" (evidenceBlock o detected) = false.
Proof.
  intros He Hfree.
  assert (occursIn false "analysisResults" (join newline (map detailLine detected)) = false)
    as Hjoin.
  { apply marker_free_join, Forall_map. eapply Forall_impl; [exact Hfree|].
    intros f Hf. now apply marker_free_detailLine. }
  unfold evidenceBlock, natToString. destruct (decodedSuccessfully o).
  - change ("Analysis Results (" +:+ ?n +:+ " patterns found - Decoded Content Scan):"
            +:+ newline +:+ ?j)
      with ("Analysis Results " +:+ String "("
              (n +:+ String " " ("patterns found - Decoded Content Scan):" +:+ String LF j))).
    repeat separate. now rewrite marker_free_uint, Hjoin.
  - change ("Analysis Results (" +:+ ?n
            +:+ " patterns found - Raw Base64 Scan due to decode error: " +:+ ?e +:+ "):"
            +:+ newline +:+ ?j)
      with ("Analysis Results " +:+ String "("
              (n +:+ String " "
                 ("patterns found - Raw Base64 Scan due to decode error:" +:+ String " "
                    (e +:+ String ")" (":" +:+ String LF j))))).
    repeat separate. now rewrite marker_free_uint, He, Hjoin.
Qed.

(** On such evidence the guard is off, whatever the model wrote. *)
Theorem guard_off_on_evidence o detected summary :
  occursIn false "analysisResults" (showDecodeError (decodeError o)) = false ->
  Forall markerFree detected ->
  postProcess summary (evidenceBlock o detected) = summary.
Proof.
  intros He Hfree. apply postProcess_without_marker. now apply marker_free_evidence.
Qed.

End SummaryFacts.

(** ** The summary policy: claims C1, C2 and C8 *)
Module SummaryPolicy.
Import JSString Effects AnalyzeFile SummarizeAnalysis Claims.

(** *** No findings *)

(** A clean scan of decoded content: the fixed message, and the model is not
    consulted. *)
Theorem clean_decoded_scan (malwarePatterns : library) (prompt : string -> promptReply)
    (o : DecodeOutcome) :
  decodedSuccessfully o = true ->
  scan malwarePatterns (text o) = [] ->
  analyzeDecoded regexTestI malwarePatterns (summarizeWith prompt) o
  = ({| findings := Some []; summary := Some noPatternsSummary; error := None |},
     [PatternScan (text o); SummarizerCall (cleanReport o)]).
Proof.
  intros Hok Hclean. unfold analyzeDecoded, scan in *. rewrite Hclean.
  unfold cleanReport. rewrite Hok. cbn [length Nat.ltb Nat.leb].
  unfold summarizeWith, bind, emit, ret.
  assert (summarizeAnalysisResults prompt
            "Analysis Results: No known malicious patterns detected in the decoded file content based on the current ruleset."
          = (noPatternsSummary, [])) as -> by (vm_compute; reflexivity).
  reflexivity.
Qed.

(** A clean scan of raw content after a failed decode gets the same message:
    whatever the reason of the failure, unless the reason itself reads
    [performed on raw Base64], the report of the action is taken for a report
    on decoded content. *)
Lemma raw_report_summary (prompt : string -> promptReply) (reason : string) :
  occursIn true "performed on raw Base64" reason = false ->
  summarizeAnalysisResults prompt
    ("Analysis Results: No known malicious patterns detected in the raw file content (Base64 decoding failed: "
     +:+ reason +:+ ").")
  = (noPatternsSummary, []).
Proof.
  intros Hreason. unfold summarizeAnalysisResults.
  rewrite (SummaryFacts.testLiteral_plain reNoPatterns) by reflexivity.
  rewrite (SummaryFacts.testLiteral_plain reRawBase64) by reflexivity.
  rewrite JSStringFacts.occursIn_app_l by (vm_compute; reflexivity).
  change ("Analysis Results: No known malicious patterns detected in the raw file content (Base64 decoding failed: "
          +:+ reason +:+ ").")
    with ("Analysis Results: No known malicious patterns detected in the raw file content (Base64 decoding failed"
          +:+ String ":" (String " " (reason +:+ String ")" "."))).
  unfold reRawBase64.
  rewrite JSStringFacts.occursIn_separator by (first [discriminate | reflexivity]).
  rewrite (JSStringFacts.occursIn_skip true "p" "erformed on raw Base64" " "
             (reason +:+ String ")" ".")) by reflexivity.
  rewrite JSStringFacts.occursIn_separator by (first [discriminate | reflexivity]).
  rewrite Hreason. reflexivity.
Qed.

Theorem clean_raw_scan (malwarePatterns : library) (prompt : string -> promptReply)
    (o : DecodeOutcome) (reason : string) :
  decodedSuccessfully o = false ->
  decodeError o = Some reason ->
  occursIn true "performed on raw Base64" reason = false ->
  scan malwarePatterns (text o) = [] ->
  analyzeDecoded regexTestI malwarePatterns (summarizeWith prompt) o
  = ({| findings := Some []; summary := Some noPatternsSummary; error := None |},
     [PatternScan (text o); SummarizerCall (cleanReport o)]).
Proof.
  intros Hfail Herr Hreason Hclean. unfold analyzeDecoded, scan in *. rewrite Hclean.
  unfold cleanReport. rewrite Hfail, Herr. cbn [length Nat.ltb Nat.leb showDecodeError].
  unfold summarizeWith, bind, emit, ret.
  now rewrite (raw_report_summary prompt reason Hreason).
Qed.

(** For a file: zero findings give the fixed message of the decoded case and
    the trace holds the scan and the call of the summarizer, no prompt. *)
Theorem clean_file_summary (malwarePatterns : library) (prompt : string -> promptReply)
    (input : AnalyzeFileInput) :
  truthy (fileName input) = true ->
  truthy (fileContent input) = true ->
  truthy (contentType input) = true ->
  stripHeader (fileContent input) <> EmptyString ->
  scan malwarePatterns
    (Buffer.toStringLatin1 (Buffer.fromBase64 (stripHeader (fileContent input)))) = [] ->
  value (analyzeFileContent malwarePatterns prompt input)
  = {| findings := Some []; summary := Some noPatternsSummary; error := None |}
  /\ List.filter isLlmPrompt (trace (analyzeFileContent malwarePatterns prompt input)) = [].
Proof.
  intros Hname Hcontent Htype Hpayload Hclean.
  rewrite (Action.analyzeFileContent_runs _ _ _ Hname Hcontent Htype Hpayload).
  rewrite clean_decoded_scan; [split; reflexivity | reflexivity | exact Hclean].
Qed.

(** The raw-content message exists, and is chosen when the report says
    [performed on raw Base64]. *)
Example raw_message_on_matching_report (prompt : string -> promptReply) :
  summarizeAnalysisResults prompt
    "No known malicious patterns detected; scan performed on raw Base64 (Base64 decoding failed: Invalid character)."
  = (rawNoPatternsSummary "(Reason: Invalid character)", []).
Proof. vm_compute. reflexivity. Qed.



(** The branch for a failed decode, run with a decoder made to throw: the
    report the action writes for a clean raw scan does not say [performed on
    raw Base64], so [summarizeAnalysisResults] answers with the message of
    the decoded case. With the decoder of the platform this branch is not
    taken. *)
Example forced_decode_failure_summary (prompt : string -> promptReply) :
  cleanReport {| text := "aGVsbG8="; decodedSuccessfully := false;
                 decodeError := Some "Invalid character" |}
  = "Analysis Results: No known malicious patterns detected in the raw file content (Base64 decoding failed: Invalid character)."
  /\ summarizeAnalysisResults prompt
       "Analysis Results: No known malicious patterns detected in the raw file content (Base64 decoding failed: Invalid character)."
     = (noPatternsSummary, [])
  /\ analyzeFileContentWith regexTestI (fun _ => inl (ThrownError "Invalid character"))
       [("Credential Theft", ["mimikatz"])] (summarizeWith prompt)
       {| fileName := "a.png"; fileContent := "data:image/png;base64,aGVsbG8=";
          contentType := "image/png" |}
     = ({| findings := Some []; summary := Some noPatternsSummary; error := None |},
        [PatternScan "aGVsbG8=";
         SummarizerCall
           "Analysis Results: No known malicious patterns detected in the raw file content (Base64 decoding failed: Invalid character)."])
  /\ includes noPatternsSummary "Invalid character" = false
  /\ noPatternsSummary <> rawNoPatternsSummary "(Reason: Invalid character)".
Proof. repeat split; try (vm_compute; reflexivity). vm_compute. discriminate. Qed.

(** *** Findings present *)

Lemma analyzeDecoded_findings regexTest (malwarePatterns : library)
    (summarize : string -> Eff (thrown + string)) (o : DecodeOutcome) :
  findMaliciousPatterns regexTest malwarePatterns (text o) <> [] ->
  analyzeDecoded regexTest malwarePatterns summarize o
  = ({| findings := Some (findMaliciousPatterns regexTest malwarePatterns (text o));
        summary :=
          Some match value (summarize
                              (evidenceBlock o
                                 (findMaliciousPatterns regexTest malwarePatterns (text o)))) with
               | inr s => s
               | inl summaryError =>
                   summarizerFailureSummary
                     (length (findMaliciousPatterns regexTest malwarePatterns (text o)))
                     (messageOf summaryError "An unknown error occurred during AI summary")
               end;
        error := None |},
     PatternScan (text o)
     :: SummarizerCall
          (evidenceBlock o (findMaliciousPatterns regexTest malwarePatterns (text o)))
     :: trace (summarize
                 (evidenceBlock o (findMaliciousPatterns regexTest malwarePatterns (text o))))).
Proof.
  intros Hne. unfold analyzeDecoded.
  destruct (findMaliciousPatterns regexTest malwarePatterns (text o)) as [|f fs] eqn:E;
    [contradiction|].
  cbn [length Nat.ltb Nat.leb]. unfold bind, emit, ret, value, trace.
  destruct (summarize (evidenceBlock o (f :: fs))) as [r t]. cbn.
  now rewrite app_nil_r.
Qed.

(** The [catch] of the action itself would report the right count. *)
Theorem action_catch_reports_count regexTest (malwarePatterns : library)
    (summarize : string -> Eff (thrown + string)) (o : DecodeOutcome) (e : thrown) :
  findMaliciousPatterns regexTest malwarePatterns (text o) <> [] ->
  value (summarize (evidenceBlock o (findMaliciousPatterns regexTest malwarePatterns (text o))))
  = inl e ->
  value (analyzeDecoded regexTest malwarePatterns summarize o)
  = {| findings := Some (findMaliciousPatterns regexTest malwarePatterns (text o));
       summary :=
         Some (summarizerFailureSummary
                 (length (findMaliciousPatterns regexTest malwarePatterns (text o)))
                 (messageOf e "An unknown error occurred during AI summary"));
       error := None |}.
Proof.
  intros Hne He. rewrite analyzeDecoded_findings by exact Hne.
  unfold value at 1. cbn [fst]. now rewrite He.
Qed.

(** The flow catches the failure of the model first, and counts line feeds:
    for [n] single-line findings of a decoded scan the fallback says [n - 1];
    the findings are reported unchanged and no error is set. *)
Theorem model_failure_fallback (malwarePatterns : library) (prompt : string -> promptReply)
    (o : DecodeOutcome) (e : thrown) :
  decodedSuccessfully o = true ->
  scan malwarePatterns (text o) <> [] ->
  Forall singleLine (scan malwarePatterns (text o)) ->
  RegExp.testLiteral reNoPatterns true (evidenceBlock o (scan malwarePatterns (text o))) = false ->
  prompt (evidenceBlock o (scan malwarePatterns (text o))) = Rejects e ->
  value (analyzeDecoded regexTestI malwarePatterns (summarizeWith prompt) o)
  = {| findings := Some (scan malwarePatterns (text o));
       summary :=
         Some ("Analysis detected "
               +:+ intToString (Z.of_nat (length (scan malwarePatterns (text o))) - 1)
               +:+ " potential patterns. However, an error occurred while generating a detailed summary: "
               +:+ messageOf e "Unknown error during AI summary generation");
       error := None |}.
Proof.
  intros Hok Hne Hlines Hflow Hrej. unfold scan in *.
  rewrite analyzeDecoded_findings by exact Hne.
  unfold value at 1. cbn [fst]. do 2 f_equal.
  unfold summarizeWith, summarizeAnalysisResults. rewrite Hflow. cbn [andb].
  assert (RegExp.testLiteral reNoPatternsRaw true
            (evidenceBlock o (findMaliciousPatterns regexTestI malwarePatterns (text o)))
          = false) as Hraw.
  { unfold RegExp.testLiteral, RegExp.test in *.
    change (RegExp.compile reNoPatterns) with (RegExp.Pattern (RegExp.literal reNoPatterns)) in Hflow.
    change (RegExp.compile reNoPatternsRaw)
      with (RegExp.Pattern
              (RegExp.seqOf (map RegExp.Char (list_ascii_of_string reNoPatterns)
                             ++ RegExp.Star RegExp.AnyChar
                                :: map RegExp.Char (list_ascii_of_string reRawBase64)))).
    cbv beta iota in *.
    apply RegExpFacts.search_prefix_fails. exact Hflow. }
  rewrite Hraw. rewrite (SummaryFacts.flow_rejected _ _ _ Hrej).
  unfold bind, ret, value. cbn [fst]. unfold flowFallback.
  now rewrite SummaryFacts.fallbackCount_evidence.
Qed.

(** C8. A findings-present scan whose model call fails, evaluated: the
    failure is caught, no error is set and both findings are reported, but the
    fallback summary states one pattern where two were found. *)
Theorem C8_fallback_miscounts :
  value
    (analyzeFileContent
       [("Credential Theft", ["mimikatz"]); ("Shells", ["reverse shell"])]
       (fun _ => Rejects (ThrownError "quota exceeded"))
       {| fileName := "a.png";
          fileContent := "data:image/png;base64,bWltaWthdHogb3BlbnMgYSByZXZlcnNlIHNoZWxs";
          contentType := "image/png" |})
  = {| findings :=
         Some [{| pattern := "mimikatz"; category := "Credential Theft" |};
               {| pattern := "reverse shell"; category := "Shells" |}];
       summary :=
         Some "Analysis detected 1 potential patterns. However, an error occurred while generating a detailed summary: quota exceeded";
       error := None |}.
Proof. vm_compute. reflexivity. Qed.

(** Two patterns under different categories: two findings, a two-line
    evidence block sent to the model, and a malicious verdict. *)
Example two_findings_scenario :
  analyzeFileContent
    [("Credential Theft", ["mimikatz"]); ("Shells", ["reverse shell"])]
    (fun _ => Output "Credential theft tooling and a reverse shell were found: this is a threat.")
    {| fileName := "a.png";
       fileContent := "data:image/png;base64,bWltaWthdHogb3BlbnMgYSByZXZlcnNlIHNoZWxs";
       contentType := "image/png" |}
  = ({| findings :=
          Some [{| pattern := "mimikatz"; category := "Credential Theft" |};
                {| pattern := "reverse shell"; category := "Shells" |}];
        summary :=
          Some "Credential theft tooling and a reverse shell were found: this is a threat.";
        error := None |},
     [PatternScan "mimikatz opens a reverse shell";
      SummarizerCall
        (evidenceBlock
           {| text := "mimikatz opens a reverse shell"; decodedSuccessfully := true;
              decodeError := None |}
           [{| pattern := "mimikatz"; category := "Credential Theft" |};
            {| pattern := "reverse shell"; category := "Shells" |}]);
      LlmPrompt
        (evidenceBlock
           {| text := "mimikatz opens a reverse shell"; decodedSuccessfully := true;
              decodeError := None |}
           [{| pattern := "mimikatz"; category := "Credential Theft" |};
            {| pattern := "reverse shell"; category := "Shells" |}])]).
Proof. vm_compute. reflexivity. Qed.

(** *** The override *)

(** When the model answers, the summary is its text after post-processing. *)
Theorem model_output_summary (malwarePatterns : library) (prompt : string -> promptReply)
    (o : DecodeOutcome) (external : string) :
  scan malwarePatterns (text o) <> [] ->
  RegExp.testLiteral reNoPatterns true (evidenceBlock o (scan malwarePatterns (text o))) = false ->
  prompt (evidenceBlock o (scan malwarePatterns (text o))) = Output external ->
  value (analyzeDecoded regexTestI malwarePatterns (summarizeWith prompt) o)
  = {| findings := Some (scan malwarePatterns (text o));
       summary := Some (postProcess external (evidenceBlock o (scan malwarePatterns (text o))));
       error := None |}.
Proof.
  intros Hne Hflow Hout. unfold scan in *.
  rewrite analyzeDecoded_findings by exact Hne.
  unfold value at 1. cbn [fst]. do 2 f_equal.
  unfold summarizeWith, summarizeAnalysisResults. rewrite Hflow. cbn [andb].
  assert (RegExp.testLiteral reNoPatternsRaw true
            (evidenceBlock o (findMaliciousPatterns regexTestI malwarePatterns (text o)))
          = false) as Hraw.
  { unfold RegExp.testLiteral, RegExp.test in *.
    change (RegExp.compile reNoPatterns) with (RegExp.Pattern (RegExp.literal reNoPatterns)) in Hflow.
    change (RegExp.compile reNoPatternsRaw)
      with (RegExp.Pattern
              (RegExp.seqOf (map RegExp.Char (list_ascii_of_string reNoPatterns)
                             ++ RegExp.Star RegExp.AnyChar
                                :: map RegExp.Char (list_ascii_of_string reRawBase64)))).
    cbv beta iota in *.
    apply RegExpFacts.search_prefix_fails. exact Hflow. }
  rewrite Hraw. rewrite (SummaryFacts.flow_output _ _ _ Hout). reflexivity.
Qed.

Lemma declared_forIn (malwarePatterns : library) (f : Finding) :
  f ∈ declared (JSObject.forIn malwarePatterns) -> f ∈ declared malwarePatterns.
Proof.
  unfold declared. rewrite !list_elem_of_In, !in_flat_map.
  intros (e & He & Hf). exists e. split; [|exact Hf].
  apply list_elem_of_In. rewrite <- (JSObjectFacts.forIn_Permutation malwarePatterns).
  now apply list_elem_of_In.
Qed.

(** Unless a category or pattern of the library itself holds the text
    [analysisResults], no scan ever has its model summary replaced. *)
Theorem override_never_applies (malwarePatterns : library)
    (prompt : string -> promptReply) (o : DecodeOutcome) (external : string) :
  Forall markerFree (declared malwarePatterns) ->
  occursIn false "analysisResults" (showDecodeError (decodeError o)) = false ->
  scan malwarePatterns (text o) <> [] ->
  RegExp.testLiteral reNoPatterns true (evidenceBlock o (scan malwarePatterns (text o))) = false ->
  prompt (evidenceBlock o (scan malwarePatterns (text o))) = Output external ->
  value (analyzeDecoded regexTestI malwarePatterns (summarizeWith prompt) o)
  = {| findings := Some (scan malwarePatterns (text o));
       summary := Some external;
       error := None |}.
Proof.
  intros Hlib He Hne Hflow Hout.
  rewrite (model_output_summary _ _ _ _ Hne Hflow Hout).
  rewrite SummaryFacts.guard_off_on_evidence; [reflexivity | exact He |].
  apply Forall_forall. intros f Hf.
  apply ScanResults.scan_sound in Hf as [Hf _]. apply declared_forIn in Hf.
  rewrite Forall_forall in Hlib. now apply Hlib.
Qed.

(** C1. A findings-present scan whose evidence lists only AES and DES under
    a generic encoding category, with a model summary free of threat
    vocabulary and no malicious-context phrase in the evidence, evaluated:
    the guard also asks for the text [analysisResults] in the evidence, which
    the evidence block of the action does not hold, so the model's summary is
    returned and not replaced by the fixed message. *)
Theorem C1_override_not_applied :
  value
    (analyzeFileContent [("Encoding/Decoding", ["AES"; "DES"])]
       (fun _ => Output "This file uses AES and DES encryption, which may indicate hidden data.")
       {| fileName := "photo.png"; fileContent := "data:image/png;base64,QUVTIERFUw==";
          contentType := "image/png" |})
  = {| findings :=
         Some [{| pattern := "AES"; category := "Encoding/Decoding" |};
               {| pattern := "DES"; category := "Encoding/Decoding" |}];
       summary :=
         Some "This file uses AES and DES encryption, which may indicate hidden data.";
       error := None |}
  /\ RegExp.testLiteral reThreatVocabulary true
       "This file uses AES and DES encryption, which may indicate hidden data." = false
  /\ RegExp.testLiteral reMaliciousContext true
       (evidenceBlock {| text := "AES DES"; decodedSuccessfully := true; decodeError := None |}
          [{| pattern := "AES"; category := "Encoding/Decoding" |};
           {| pattern := "DES"; category := "Encoding/Decoding" |}]) = false
  /\ RegExp.testLiteral reAnalysisResults false
       (evidenceBlock {| text := "AES DES"; decodedSuccessfully := true; decodeError := None |}
          [{| pattern := "AES"; category := "Encoding/Decoding" |};
           {| pattern := "DES"; category := "Encoding/Decoding" |}]) = false.
Proof. repeat split; vm_compute; reflexivity. Qed.

End SummaryPolicy.

(** ** The caller: claim C9 *)
Module Caller.
Import JSString Effects FileAnalyzer.

(** C9. The verdict the caller builds from what the awaited calls
    delivered. For a server result without error (none, or an empty one) the
    result carries the delivered findings (none when the field is absent), no
    error, and [isMalicious = findings.length > 0]: it is true exactly when
    the delivered findings are non-empty. For a server result with an error
    the file is flagged, the findings are empty and the delivered error is
    kept. When reading or the call threw, the file is flagged, the findings
    are empty and the error is the message of the thrown error. *)
Theorem C9_verdict (name : string) :
  (forall serverResult,
      truthyOpt (AnalyzeFile.error serverResult) = false ->
      findings (resultFor name (Returned serverResult))
      = Some (default [] (AnalyzeFile.findings serverResult))
      /\ error (resultFor name (Returned serverResult)) = None
      /\ isMalicious (resultFor name (Returned serverResult))
         = (0 <? length (default [] (AnalyzeFile.findings serverResult)))%nat
      /\ (isMalicious (resultFor name (Returned serverResult)) = true
          <-> exists f fs, AnalyzeFile.findings serverResult = Some (f :: fs))
      /\ summary (resultFor name (Returned serverResult))
         = AnalyzeFile.summary serverResult)
  /\ (forall serverResult,
        truthyOpt (AnalyzeFile.error serverResult) = true ->
        isMalicious (resultFor name (Returned serverResult)) = true
        /\ findings (resultFor name (Returned serverResult)) = Some []
        /\ error (resultFor name (Returned serverResult)) = AnalyzeFile.error serverResult
        /\ error (resultFor name (Returned serverResult)) <> None)
  /\ (forall e,
        isMalicious (resultFor name (Threw e)) = true
        /\ findings (resultFor name (Threw e)) = Some []
        /\ error (resultFor name (Threw e))
           = Some (messageOf e "An unknown error occurred during file processing."))
  /\ (forall o, fileName (resultFor name o) = name)
  /\ (forall o, exists fs,
        findings (resultFor name o) = Some fs
        /\ (error (resultFor name o) = None ->
            (isMalicious (resultFor name o) = true <-> fs <> []))
        /\ (error (resultFor name o) <> None ->
            isMalicious (resultFor name o) = true /\ fs = [])).
Proof.
  split; [|split; [|split; [|split]]].
  - intros serverResult E. cbn [resultFor]. rewrite E. cbn.
    repeat split; try reflexivity.
    + destruct (AnalyzeFile.findings serverResult) as [[|f fs]|]; cbn;
        [discriminate | eauto | discriminate].
    + intros (f & fs & ->). reflexivity.
  - intros serverResult E. cbn [resultFor]. rewrite E. cbn.
    repeat split. destruct (AnalyzeFile.error serverResult); discriminate.
  - intros e. repeat split.
  - intros [serverResult | e]; cbn [resultFor]; [|reflexivity].
    now destruct (truthyOpt (AnalyzeFile.error serverResult)).
  - intros [serverResult | e]; cbn [resultFor].
    + destruct (truthyOpt (AnalyzeFile.error serverResult)) eqn:E; cbn.
      * exists []. split; [reflexivity|]. split; [|now intros _].
        intros Herr. destruct (AnalyzeFile.error serverResult); discriminate.
      * exists (default [] (AnalyzeFile.findings serverResult)).
        split; [reflexivity|]. split; [|now intros H].
        intros _.
        destruct (default [] (AnalyzeFile.findings serverResult)); cbn; split;
          congruence.
    + cbn. exists []. split; [reflexivity|]. split; [discriminate | now intros _].
Qed.

End Caller.

(** ** The literal match over a whole scan: claim C4 *)
Module LiteralMatch.
Import JSString AnalyzeFile Claims ScanFacts.




End LiteralMatch.


(* ===================================================================== *)
(** * Part III. The rest of the component and of the browser side        *)
(* ===================================================================== *)

(** ** [FileReader.readAsDataURL]

    The browser's side of the payload format: the bytes of the file in the
    standard base64 alphabet with padding, behind a [data:] header. *)
Module FileReader.
Import JSString.

Definition alphabet : string :=
  "ABCDEFGHIJKLMNOPQRSTUVWXYZabcdefghijklmnopqrstuvwxyz0123456789+/".

Definition base64Char (v : Z) : ascii :=
  match String.get (Z.to_nat v) alphabet with
  | Some c => c
  | None => "="%char
  end.

Definition sextet0 (a : Z) : Z := Z.shiftr a 2.
Definition sextet1 (a b : Z) : Z := Z.lor (Z.shiftl (Z.land a 3) 4) (Z.shiftr b 4).
Definition sextet2 (b c : Z) : Z := Z.lor (Z.shiftl (Z.land b 15) 2) (Z.shiftr c 6).
Definition sextet3 (c : Z) : Z := Z.land c 63.

Fixpoint base64 (bytes : list Z) : string :=
  match bytes with
  | [] => EmptyString
  | a :: rest1 =>
      match rest1 with
      | [] =>
          String (base64Char (sextet0 a)) (String (base64Char (sextet1 a 0)) "==")
      | b :: rest2 =>
          match rest2 with
          | [] =>
              String (base64Char (sextet0 a))
                (String (base64Char (sextet1 a b))
                   (String (base64Char (sextet2 b 0)) "="))
          | c :: rest3 =>
              String (base64Char (sextet0 a))
                (String (base64Char (sextet1 a b))
                   (String (base64Char (sextet2 b c))
                      (String (base64Char (sextet3 c)) (base64 rest3))))
          end
      end
  end.

(** [data:<type>;base64,<payload>] *)
Definition dataURL (mediaType : string) (bytes : list Z) : string :=
  "data:" +:+ mediaType +:+ ";base64," +:+ base64 bytes.

End FileReader.

(** ** The component ([file-analyzer.tsx]) *)
Module Component.
Import JSString Effects.

Record File : Type := {
  name : string;
  size : Z;
  type : string;
  lastModified : Z
}.

Inductive AnalysisState : Type := idle | uploading | analyzing | analyzed | error.

Record State : Type := {
  files : list File;
  analysisResults : list FileAnalyzer.AnalysisResult;
  analysisState : AnalysisState;
  currentAnalyzingFile : option string;
  isDragging : bool
}.

(** The state of the first render. *)
Definition initial : State :=
  {| files := []; analysisResults := []; analysisState := idle;
     currentAnalyzingFile := None; isDragging := false |}.

Inductive toast : Type :=
| NoFilesSelected
| SomeFilesSkipped (invalidFiles : list (string * string))
| AnalysisComplete (count : nat)
| AnalysisPartiallyCompleted.

Definition MAX_FILE_SIZE_GB : Z := 1.
Definition MAX_FILE_SIZE_BYTES : Z := MAX_FILE_SIZE_GB * 1024 * 1024 * 1024.

(** [String.prototype.startsWith] *)
Definition startsWith (s prefix : string) : bool :=
  match stripPrefix false prefix s with Some _ => true | None => false end.

Definition isMediaFile (fileType : string) : bool :=
  existsb (fun t => startsWith fileType t) ["image/"; "audio/"; "video/"].

Definition sizeReason : string := "Exceeds " +:+ intToString MAX_FILE_SIZE_GB +:+ "GB limit.".
Definition typeReason : string := "Invalid file type (must be image, audio, or video).".

(** The loop of [processFiles]: [newFiles] and [invalidFiles], in order. *)
Fixpoint validate (selectedFiles : list File) : list File * list (string * string) :=
  match selectedFiles with
  | [] => ([], [])
  | file :: rest =>
      let '(newFiles, invalidFiles) := validate rest in
      if (size file >? MAX_FILE_SIZE_BYTES)%Z
      then (newFiles, (name file, sizeReason) :: invalidFiles)
      else if negb (isMediaFile (type file))
      then (newFiles, (name file, typeReason) :: invalidFiles)
      else (file :: newFiles, invalidFiles)
  end.

Definition sameFile (f file : File) : bool :=
  String.eqb (name f) (name file) && (size f =? size file)%Z
  && (lastModified f =? lastModified file)%Z.

(** [Array.prototype.findIndex] ([None] for -1) and [filter] with the index. *)
Fixpoint findIndex {A} (p : A -> bool) (l : list A) : option nat :=
  match l with
  | [] => None
  | x :: r => if p x then Some 0 else option_map S (findIndex p r)
  end.

Fixpoint filterFrom {A} (keep : A -> nat -> bool) (index : nat) (l : list A) : list A :=
  match l with
  | [] => []
  | x :: r =>
      if keep x index then x :: filterFrom keep (S index) r
      else filterFrom keep (S index) r
  end.

(** [self.filter((file, index, self) => index === self.findIndex(f => ...))] *)
Definition uniqueFiles (self : list File) : list File :=
  filterFrom
    (fun file index =>
       match findIndex (fun f => sameFile f file) self with
       | Some first => (index =? first)%nat
       | None => false
       end)
    0 self.

Definition processFiles (selectedFiles : option (list File)) (st : State)
    : State * list toast :=
  match selectedFiles with
  | None => (st, [])
  | Some selected =>
      let '(newFiles, invalidFiles) := validate selected in
      ({| files := uniqueFiles (files st ++ newFiles);
          analysisResults := [];
          analysisState := idle;
          currentAnalyzingFile := currentAnalyzingFile st;
          isDragging := isDragging st |},
       if (0 <? length invalidFiles)%nat then [SomeFilesSkipped invalidFiles] else [])
  end.

Definition handleFileChange (targetFiles : option (list File)) (st : State)
    : State * list toast :=
  processFiles targetFiles st.

Definition setIsDragging (b : bool) (st : State) : State :=
  {| files := files st; analysisResults := analysisResults st;
     analysisState := analysisState st;
     currentAnalyzingFile := currentAnalyzingFile st; isDragging := b |}.

Definition handleDrop (dropped : list File) (st : State) : State * list toast :=
  processFiles (Some dropped) (setIsDragging false st).

Definition handleDragOver (st : State) : State := setIsDragging true st.
Definition handleDragLeave (st : State) : State := setIsDragging false st.

Definition removeFile (indexToRemove : nat) (st : State) : State :=
  let remaining :=
    filterFrom (fun _ index => negb (index =? indexToRemove)%nat) 0 (files st) in
  if (length (files st) =? 1)%nat then
    {| files := remaining; analysisResults := []; analysisState := idle;
       currentAnalyzingFile := currentAnalyzingFile st; isDragging := isDragging st |}
  else
    {| files := remaining; analysisResults := analysisResults st;
       analysisState := analysisState st;
       currentAnalyzingFile := currentAnalyzingFile st; isDragging := isDragging st |}.

Definition clearAllFiles (st : State) : State :=
  {| files := []; analysisResults := []; analysisState := idle;
     currentAnalyzingFile := None; isDragging := isDragging st |}.

Section Analyze.
(** What the two awaited calls of an iteration do: resolve, or reject. *)
Variable readFileAsDataURL : File -> thrown + string.
Variable analyzeFileContent :
  AnalyzeFile.AnalyzeFileInput -> thrown + AnalyzeFile.AnalyzeFileOutput.

Definition processFile (currentFile : File) : FileAnalyzer.outcome :=
  match readFileAsDataURL currentFile with
  | inl e => FileAnalyzer.Threw e
  | inr fileContent =>
      match analyzeFileContent
              {| AnalyzeFile.fileName := name currentFile;
                 AnalyzeFile.fileContent := fileContent;
                 AnalyzeFile.contentType := type currentFile |} with
      | inl e => FileAnalyzer.Threw e
      | inr serverResult => FileAnalyzer.Returned serverResult
      end
  end.

(** The branches of an iteration that set [overallError]. *)
Definition setsOverallError (o : FileAnalyzer.outcome) : bool :=
  match o with
  | FileAnalyzer.Returned serverResult =>
      FileAnalyzer.truthyOpt (AnalyzeFile.error serverResult)
  | FileAnalyzer.Threw _ => true
  end.

(** The loop: [resultsAccumulator] and [overallError]. *)
Definition analyzeAll (fs : list File) : list FileAnalyzer.AnalysisResult * bool :=
  fold_left
    (fun acc currentFile =>
       let o := processFile currentFile in
       (fst acc ++ [FileAnalyzer.resultFor (name currentFile) o],
        snd acc || setsOverallError o))
    fs ([], false).

Definition handleAnalyze (st : State) : State * list toast :=
  if (length (files st) =? 0)%nat then (st, [NoFilesSelected])
  else
    let '(resultsAccumulator, overallError) := analyzeAll (files st) in
    ({| files := files st;
        analysisResults := resultsAccumulator;
        analysisState := if overallError then error else analyzed;
        currentAnalyzingFile := None;
        isDragging := isDragging st |},
     if negb overallError && (0 <? length resultsAccumulator)%nat
     then [AnalysisComplete (length resultsAccumulator)]
     else if overallError then [AnalysisPartiallyCompleted] else []).

End Analyze.

(** The server action as the component reaches it. *)
Definition serverAction (malwarePatterns : AnalyzeFile.library)
    (prompt : string -> SummarizeAnalysis.promptReply)
    (input : AnalyzeFile.AnalyzeFileInput) : thrown + AnalyzeFile.AnalyzeFileOutput :=
  inr (value (AnalyzeFile.analyzeFileContent malwarePatterns prompt input)).

(** *** Rendering *)

Inductive fileIcon : Type := ImageIcon | Music | Video | FileText.

Definition getFileIcon (fileType : string) : fileIcon :=
  if startsWith fileType "image/" then ImageIcon
  else if startsWith fileType "audio/" then Music
  else if startsWith fileType "video/" then Video
  else FileText.

Inductive verdictIcon : Type := AlertTriangle | ShieldAlert | ShieldCheck.

Definition resultIcon (result : FileAnalyzer.AnalysisResult) : verdictIcon :=
  if FileAnalyzer.truthyOpt (FileAnalyzer.error result) then AlertTriangle
  else if FileAnalyzer.isMalicious result then ShieldAlert
  else ShieldCheck.

(** [result.summary || (...)] *)
Definition resultDescription (result : FileAnalyzer.AnalysisResult) : string :=
  if FileAnalyzer.truthyOpt (FileAnalyzer.summary result)
  then FileAnalyzer.showOpt (FileAnalyzer.summary result)
  else if FileAnalyzer.isMalicious result
          && negb (FileAnalyzer.truthyOpt (FileAnalyzer.error result))
  then "Potential threats detected based on pattern matching."
  else if negb (FileAnalyzer.truthyOpt (FileAnalyzer.error result))
  then "No known malicious patterns detected."
  else "An error occurred during analysis.".

Inductive resultPanel : Type :=
| DetectedPatterns (findings : list AnalyzeFile.Finding)
| NoThreatsFound
| AnalysisError (description : string).

Definition resultContent (result : FileAnalyzer.AnalysisResult) : resultPanel :=
  if negb (FileAnalyzer.truthyOpt (FileAnalyzer.error result)) then
    match FileAnalyzer.findings result with
    | Some (f :: fs) => DetectedPatterns (f :: fs)
    | _ => NoThreatsFound
    end
  else
    AnalysisError
      (if FileAnalyzer.truthyOpt (FileAnalyzer.summary result)
       then FileAnalyzer.showOpt (FileAnalyzer.summary result)
       else "An error occurred while analyzing this file.").

(** *** What the user can do *)

Inductive step (readFileAsDataURL : File -> thrown + string)
    (analyzeFileContent : AnalyzeFile.AnalyzeFileInput -> thrown + AnalyzeFile.AnalyzeFileOutput)
    : State -> State -> Prop :=
| step_change selected st : step _ _ st (fst (handleFileChange selected st))
| step_drop dropped st : step _ _ st (fst (handleDrop dropped st))
| step_dragOver st : step _ _ st (handleDragOver st)
| step_dragLeave st : step _ _ st (handleDragLeave st)
| step_remove i st : step _ _ st (removeFile i st)
| step_clear st : step _ _ st (clearAllFiles st)
| step_analyze st :
    step _ _ st (fst (handleAnalyze readFileAsDataURL analyzeFileContent st)).

Inductive reachable (readFileAsDataURL : File -> thrown + string)
    (analyzeFileContent : AnalyzeFile.AnalyzeFileInput -> thrown + AnalyzeFile.AnalyzeFileOutput)
    : State -> Prop :=
| reachable_initial : reachable _ _ initial
| reachable_step st st' :
    reachable _ _ st -> step readFileAsDataURL analyzeFileContent st st' ->
    reachable _ _ st'.

(** A file the component accepts, and the key it deduplicates on. *)
Definition accepted (f : File) : Prop :=
  (size f <= MAX_FILE_SIZE_BYTES)%Z /\ isMediaFile (type f) = true.

Definition fileKey (f : File) : string * Z * Z := (name f, size f, lastModified f).

End Component.

(* ===================================================================== *)
(** * Part IV. Properties of the rest of the code                        *)
(* ===================================================================== *)

(** ** The file list of the component *)
Module FileListFacts.
Import JSString Effects Component.

Lemma sameFile_fileKey f g : sameFile f g = true <-> fileKey f = fileKey g.
Proof.
  unfold sameFile, fileKey. rewrite !andb_true_iff, String.eqb_eq, !Z.eqb_eq.
  split; [intros [[-> ->] ->]; reflexivity | intros [= -> -> ->]; auto].
Qed.

Lemma findIndex_None {A} (p : A -> bool) l :
  findIndex p l = None <-> forall x, x ∈ l -> p x = false.
Proof.
  induction l as [|y l IH]; cbn [findIndex].
  - split; [intros _ x Hx; inversion Hx | reflexivity].
  - destruct (p y) eqn:Hy.
    + split; [discriminate|]. intros H. rewrite (H y) in Hy by left. discriminate.
    + destruct (findIndex p l) as [i|]; cbn.
      * split; [discriminate|]. intros H. exfalso.
        assert (Some i = None) as Hn; [|discriminate].
        apply IH. intros x Hx. apply H. now right.
      * split; [|reflexivity]. intros _ x Hx.
        apply elem_of_cons in Hx as [-> | Hx]; [exact Hy|]. now apply IH.
Qed.

Lemma findIndex_Some_lt {A} (p : A -> bool) l i :
  findIndex p l = Some i -> (i < length l)%nat.
Proof.
  revert i. induction l as [|y l IH]; intros i; cbn [findIndex]; [discriminate|].
  destruct (p y); [intros [= <-]; cbn; lia|].
  destruct (findIndex p l) as [j|]; cbn; [|discriminate].
  intros [= <-]. specialize (IH j eq_refl). cbn. lia.
Qed.

Lemma findIndex_app {A} (p : A -> bool) pre l :
  findIndex p (pre ++ l) =
  match findIndex p pre with
  | Some i => Some i
  | None => option_map (Nat.add (length pre)) (findIndex p l)
  end.
Proof.
  induction pre as [|y pre IH]; cbn [findIndex app length].
  - destruct (findIndex p l); reflexivity.
  - destruct (p y); [reflexivity|]. rewrite IH.
    destruct (findIndex p pre); [reflexivity|].
    destruct (findIndex p l); reflexivity.
Qed.

(** The filter keeps a file exactly when no earlier file has its key. *)
Lemma keeps_first pre x post :
  match findIndex (fun f => sameFile f x) (pre ++ x :: post) with
  | Some first => (length pre =? first)%nat
  | None => false
  end = true
  <-> forall z, z ∈ pre -> fileKey z <> fileKey x.
Proof.
  rewrite findIndex_app.
  destruct (findIndex (fun f => sameFile f x) pre) as [i|] eqn:E.
  - pose proof (findIndex_Some_lt _ _ _ E) as Hlt. split.
    + intros H. apply Nat.eqb_eq in H. lia.
    + intros H. exfalso.
      assert (findIndex (fun f => sameFile f x) pre = None) as Hn; [|congruence].
      apply findIndex_None. intros z Hz.
      destruct (sameFile z x) eqn:Hs; [|reflexivity].
      apply sameFile_fileKey in Hs. now apply H in Hz.
  - cbn [findIndex]. assert (sameFile x x = true) as -> by now apply sameFile_fileKey.
    cbn. rewrite Nat.add_0_r, Nat.eqb_refl. split; [|reflexivity].
    intros _ z Hz Hk. apply sameFile_fileKey in Hk.
    rewrite (proj1 (findIndex_None _ _) E z Hz) in Hk. discriminate.
Qed.

(** The filter, seen from a position of the list it runs over. *)
Lemma uniqueFiles_from self : forall l pre,
  self = pre ++ l ->
  let out :=
    filterFrom
      (fun file index =>
         match findIndex (fun f => sameFile f file) self with
         | Some first => (index =? first)%nat
         | None => false
         end)
      (length pre) l in
  out `sublist_of` l
  /\ (forall y z, y ∈ out -> z ∈ pre -> fileKey z <> fileKey y)
  /\ NoDup (fileKey <$> out)
  /\ (forall x, x ∈ l ->
        (exists z, z ∈ pre /\ fileKey z = fileKey x)
        \/ (exists y, y ∈ out /\ fileKey y = fileKey x))
  /\ (NoDup (fileKey <$> (pre ++ l)) -> out = l).
Proof.
  induction l as [|x l IH]; intros pre Hself; cbn zeta.
  - cbn. repeat split; try constructor; intros; easy.
  - cbn [filterFrom].
    specialize (IH (pre ++ [x])). rewrite <- app_assoc in IH. specialize (IH Hself).
    cbn zeta in IH. rewrite length_app, Nat.add_1_r in IH.
    destruct IH as (Hsub & Hpre & Hnd & Hcov & Hid).
    pose proof (keeps_first pre x l) as Hkeep. rewrite <- Hself in Hkeep.
    destruct (match findIndex _ self with Some _ => _ | None => false end) eqn:E.
    + pose proof (proj1 Hkeep eq_refl) as Hfresh. repeat split.
      * now constructor.
      * intros y z Hy Hz. apply elem_of_cons in Hy as [-> | Hy]; [now apply Hfresh|].
        apply (Hpre y z Hy). apply elem_of_app. now left.
      * rewrite fmap_cons. constructor; [|exact Hnd].
        intros Hin. apply list_elem_of_fmap in Hin as (y & Hk & Hy).
        apply (Hpre y x Hy); [apply elem_of_app; right; left | now symmetry].
      * intros x' Hx'. apply elem_of_cons in Hx' as [-> | Hx'].
        -- right. exists x. split; [left | reflexivity].
        -- destruct (Hcov x' Hx') as [(z & Hz & Hk) | (y & Hy & Hk)].
           ++ apply elem_of_app in Hz as [Hz | Hz].
              ** left. eauto.
              ** apply list_elem_of_singleton in Hz as ->. right. exists x.
                 split; [left | exact Hk].
           ++ right. exists y. split; [now right | exact Hk].
      * intros Hall. f_equal. apply Hid. exact Hall.
    + assert (~ forall z, z ∈ pre -> fileKey z <> fileKey x) as Hdup
        by (intros H; apply Hkeep in H; discriminate).
      repeat split.
      * now constructor.
      * intros y z Hy Hz. apply (Hpre y z Hy). apply elem_of_app. now left.
      * exact Hnd.
      * intros x' Hx'. apply elem_of_cons in Hx' as [-> | Hx'].
        -- left. destruct (decide (Exists (fun z => fileKey z = fileKey x) pre))
             as [Hex | Hnex].
           ++ apply Exists_exists in Hex as (z & Hz & Hk). eauto.
           ++ exfalso. apply Hdup. intros z Hz Hk. apply Hnex.
              apply Exists_exists. eauto.
        -- destruct (Hcov x' Hx') as [(z & Hz & Hk) | (y & Hy & Hk)].
           ++ apply elem_of_app in Hz as [Hz | Hz].
              ** left. eauto.
              ** apply list_elem_of_singleton in Hz as ->.
                 left. destruct (decide (Exists (fun z => fileKey z = fileKey x) pre))
                   as [Hex | Hnex].
                 --- apply Exists_exists in Hex as (z & Hz & Hk'). exists z.
                     split; [exact Hz | congruence].
                 --- exfalso. apply Hdup. intros z Hz Hk'. apply Hnex.
                     apply Exists_exists. eauto.
           ++ right. eauto.
      * intros Hall. exfalso. apply Hdup. intros z Hz Hk.
        rewrite fmap_app, fmap_cons in Hall. apply NoDup_app in Hall as (_ & Hdis & _).
        apply (Hdis (fileKey z)); [now apply list_elem_of_fmap_2 | rewrite Hk; left].
Qed.

Lemma uniqueFiles_spec self :
  uniqueFiles self `sublist_of` self
  /\ NoDup (fileKey <$> uniqueFiles self)
  /\ (forall x, x ∈ self -> exists y, y ∈ uniqueFiles self /\ fileKey y = fileKey x)
  /\ (NoDup (fileKey <$> self) -> uniqueFiles self = self).
Proof.
  destruct (uniqueFiles_from self self [] eq_refl) as (Hsub & _ & Hnd & Hcov & Hid).
  repeat split; try assumption.
  intros x Hx. destruct (Hcov x Hx) as [(z & Hz & _) | H]; [inversion Hz | exact H].
Qed.

Lemma validate_spec selected :
  fst (validate selected)
  = List.filter (fun f => (size f <=? MAX_FILE_SIZE_BYTES)%Z && isMediaFile (type f)) selected
  /\ snd (validate selected)
     = map (fun f => (name f,
                      if (size f >? MAX_FILE_SIZE_BYTES)%Z then sizeReason else typeReason))
         (List.filter
            (fun f => negb ((size f <=? MAX_FILE_SIZE_BYTES)%Z && isMediaFile (type f)))
            selected).
Proof.
  induction selected as [|f selected [IH1 IH2]]; [split; reflexivity|].
  cbn [validate List.filter]. destruct (validate selected) as [newFiles invalidFiles].
  cbn [fst snd] in *. rewrite Z.gtb_ltb, Z.leb_antisym.
  destruct (MAX_FILE_SIZE_BYTES <? size f)%Z eqn:Hs; cbn [negb andb fst snd].
  - split; [exact IH1|]. cbn [map]. rewrite Z.gtb_ltb, Hs. now rewrite IH2.
  - destruct (isMediaFile (type f)); cbn [negb fst snd map].
    + split; [now rewrite IH1 | exact IH2].
    + split; [exact IH1|]. rewrite Z.gtb_ltb, Hs. now rewrite IH2.
Qed.

End FileListFacts.

(** ** More on strings *)
Module MoreStringFacts.
Import JSString Claims.

Lemma append_assoc (a b c : string) : (a +:+ b) +:+ c = a +:+ b +:+ c.
Proof.
  induction a as [|x a IH]; [reflexivity|].
  change ((String x a +:+ b) +:+ c) with (String x ((a +:+ b) +:+ c)).
  now rewrite IH.
Qed.

Lemma containsLiteral_embedded pattern content before after :
  containsLiteral pattern content ->
  containsLiteral pattern (before +:+ content +:+ after).
Proof.
  intros (b & m & a & -> & Hm). exists (before +:+ b), m, (a +:+ after).
  split; [|exact Hm]. now rewrite !append_assoc.
Qed.

Lemma sameUnit_toLowerCaseChar_r a b :
  sameUnit true a (toLowerCaseChar b) = sameUnit true a b.
Proof. unfold sameUnit. now rewrite JSStringFacts.canonicalize_toLowerCaseChar. Qed.

Lemma stripPrefix_lowered p : forall s,
  match stripPrefix true p (toLowerCase s) with Some _ => true | None => false end
  = match stripPrefix true p s with Some _ => true | None => false end.
Proof.
  induction p as [|a p IH]; intros [|b s]; cbn [stripPrefix toLowerCase]; try reflexivity.
  rewrite sameUnit_toLowerCaseChar_r. destruct (sameUnit true a b); [apply IH | reflexivity].
Qed.

Lemma occursIn_lowered p s : occursIn true p (toLowerCase s) = occursIn true p s.
Proof.
  induction s as [|c s IH].
  - reflexivity.
  - rewrite (JSStringFacts.occursIn_unfold true p (toLowerCase (String c s))),
            (JSStringFacts.occursIn_unfold true p (String c s)).
    pose proof (stripPrefix_lowered p (String c s)) as H.
    destruct (stripPrefix true p (toLowerCase (String c s))),
             (stripPrefix true p (String c s)); try discriminate; [reflexivity|].
    cbn [toLowerCase]. exact IH.
Qed.

End MoreStringFacts.

(** ** The scan as a whole *)
Module ScanProperties.
Import JSString AnalyzeFile Claims ScanFacts.

Lemma declared_in_forIn (malwarePatterns : library) (f : Finding) :
  f ∈ declared malwarePatterns -> f ∈ declared (JSObject.forIn malwarePatterns).
Proof.
  unfold declared. rewrite !list_elem_of_In, !in_flat_map.
  intros (e & He & Hf). exists e. split; [|exact Hf].
  apply list_elem_of_In. rewrite (JSObjectFacts.forIn_Permutation malwarePatterns).
  now apply list_elem_of_In.
Qed.

Lemma scan_is_scanFlat (malwarePatterns : library) (content : string) :
  scan malwarePatterns content
  = fst (scanFlat regexTestI content (declared (JSObject.forIn malwarePatterns)) ([], ∅)).
Proof. unfold scan, findMaliciousPatterns. now rewrite scanLibrary_flat. Qed.

Lemma found_by_key (malwarePatterns : library) (content : string) (f : Finding) :
  f ∈ declared malwarePatterns ->
  containsLiteral (pattern f) content ->
  exists g, g ∈ scan malwarePatterns content /\ keyOf g = keyOf f.
Proof.
  intros Hf Hc. rewrite scan_is_scanFlat.
  apply ScanResults.scanFlat_complete; [set_solver | now apply declared_in_forIn | exact Hc].
Qed.

(** X1. Every finding of a scan is a (category, pattern) pair of the library
    whose pattern occurs in the content, up to case: the scan reports nothing
    the library does not list and nothing the content does not hold. *)
Theorem findings_are_library_patterns (malwarePatterns : library) (content : string)
    (f : Finding) :
  f ∈ scan malwarePatterns content ->
  f ∈ declared malwarePatterns /\ containsLiteral (pattern f) content.
Proof.
  intros Hf. rewrite scan_is_scanFlat in Hf.
  apply ScanResults.scanFlat_sound in Hf as [Hf | [Hf Hc]]; [inversion Hf|].
  split; [now apply SummaryPolicy.declared_forIn | exact Hc].
Qed.

Lemma findings_are_library_patterns_witness :
  {| pattern := "mimikatz"; category := "Credential Theft" |}
    ∈ declared [("Credential Theft", ["mimikatz"])]
  /\ containsLiteral "mimikatz" "run MIMIKATZ now".
Proof.
  apply (findings_are_library_patterns [("Credential Theft", ["mimikatz"])]
           "run MIMIKATZ now" {| pattern := "mimikatz"; category := "Credential Theft" |}).
  vm_compute. left.
Defined.

(** X2. A pair of the library whose pattern occurs in the content is among
    the findings, provided no other pair of the library has the same
    [category:pattern] key. *)
Theorem library_pattern_is_found (malwarePatterns : library) (content : string)
    (f : Finding) :
  f ∈ declared malwarePatterns ->
  containsLiteral (pattern f) content ->
  (forall g, g ∈ declared malwarePatterns -> keyOf g = keyOf f -> g = f) ->
  f ∈ scan malwarePatterns content.
Proof.
  intros Hf Hc Huniq. destruct (found_by_key _ _ _ Hf Hc) as (g & Hg & Hkey).
  assert (g ∈ declared malwarePatterns) as Hd.
  { rewrite scan_is_scanFlat in Hg. apply ScanResults.scanFlat_sound in Hg as [Hg | [Hg _]];
      [inversion Hg | now apply SummaryPolicy.declared_forIn]. }
  now rewrite <- (Huniq g Hd Hkey).
Qed.

Lemma library_pattern_is_found_witness :
  {| pattern := "reverse shell"; category := "Shells" |}
    ∈ scan [("Credential Theft", ["mimikatz"]); ("Shells", ["reverse shell"])]
        "opens a Reverse Shell".
Proof.
  apply library_pattern_is_found.
  - vm_compute. right. left.
  - apply JSStringFacts.occursIn_containsLiteral. vm_compute. reflexivity.
  - intros g Hg Hk. vm_compute in Hg.
    apply elem_of_cons in Hg as [-> | Hg]; [vm_compute in Hk; discriminate|].
    apply elem_of_cons in Hg as [-> | Hg]; [reflexivity | inversion Hg].
Defined.

Lemma no_findings_iff (malwarePatterns : library) (content : string) :
  scan malwarePatterns content = []
  <-> forall f, f ∈ declared malwarePatterns -> ~ containsLiteral (pattern f) content.
Proof.
  split.
  - intros Hempty f Hf Hc. destruct (found_by_key _ _ _ Hf Hc) as (g & Hg & _).
    rewrite Hempty in Hg. inversion Hg.
  - intros Hnone. destruct (scan malwarePatterns content) as [|g gs] eqn:E; [reflexivity|].
    exfalso. assert (g ∈ scan malwarePatterns content) as Hg by (rewrite E; left).
    rewrite scan_is_scanFlat in Hg. apply ScanResults.scanFlat_sound in Hg as [Hg | [Hg Hc]];
      [inversion Hg|].
    apply (Hnone g); [now apply SummaryPolicy.declared_forIn | exact Hc].
Qed.

(** X3. A scan has no findings exactly when no pattern of the library occurs
    in the content. *)
Theorem scan_empty_iff (malwarePatterns : library) (content : string) :
  scan malwarePatterns content = []
  <-> forall f, f ∈ declared malwarePatterns -> ~ containsLiteral (pattern f) content.
Proof. apply no_findings_iff. Qed.

Lemma scanPattern_same_matches content content' cat pat st :
  (forall p, occursIn true p content' = occursIn true p content) ->
  scanPattern regexTestI content' cat pat st = scanPattern regexTestI content cat pat st.
Proof.
  intros H. unfold scanPattern, regexTestI.
  destruct (decide (patternKey cat pat ∈ snd st)); [reflexivity|].
  now rewrite !RegExpFacts.test_escapeRegExp, H.
Qed.

Lemma scan_same_matches (malwarePatterns : library) content content' :
  (forall p, occursIn true p content' = occursIn true p content) ->
  scan malwarePatterns content' = scan malwarePatterns content.
Proof.
  intros H. rewrite !scan_is_scanFlat. f_equal. unfold scanFlat.
  generalize (([], ∅) : scanState).
  induction (declared (JSObject.forIn malwarePatterns)) as [|f fs IH]; intros st;
    [reflexivity|].
  cbn [fold_left]. rewrite (scanPattern_same_matches _ _ _ _ _ H). apply IH.
Qed.

(** X4. The findings do not depend on the case of the content: the scan of
    the lower-cased content returns the same findings in the same order. *)
Theorem scan_ignores_case (malwarePatterns : library) (content : string) :
  scan malwarePatterns (toLowerCase content) = scan malwarePatterns content.
Proof.
  apply scan_same_matches. intros p. apply MoreStringFacts.occursIn_lowered.
Qed.

(** X5. Data added before or after the content hides nothing: every finding
    of the content has a finding with the same key in the scan of the larger
    content (the finding itself when its key is its own), so a flagged
    content stays flagged. *)
Theorem scan_survives_embedding (malwarePatterns : library)
    (content before after : string) (f : Finding) :
  f ∈ scan malwarePatterns content ->
  (exists g, g ∈ scan malwarePatterns (before +:+ content +:+ after) /\ keyOf g = keyOf f)
  /\ scan malwarePatterns (before +:+ content +:+ after) <> []
  /\ ((forall g, g ∈ declared malwarePatterns -> keyOf g = keyOf f -> g = f) ->
      f ∈ scan malwarePatterns (before +:+ content +:+ after)).
Proof.
  intros Hf. rewrite scan_is_scanFlat in Hf.
  apply ScanResults.scanFlat_sound in Hf as [Hf | [Hf Hc]]; [inversion Hf|].
  apply SummaryPolicy.declared_forIn in Hf.
  apply (MoreStringFacts.containsLiteral_embedded _ _ before after) in Hc.
  destruct (found_by_key _ _ _ Hf Hc) as (g & Hg & Hkey).
  split; [eauto|]. split.
  - intros Hempty. rewrite Hempty in Hg. inversion Hg.
  - intros Huniq.
    assert (g ∈ declared malwarePatterns) as Hd.
    { rewrite scan_is_scanFlat in Hg.
      apply ScanResults.scanFlat_sound in Hg as [Hg' | [Hg' _]];
        [inversion Hg' | now apply SummaryPolicy.declared_forIn]. }
    now rewrite <- (Huniq g Hd Hkey).
Qed.

Lemma scan_survives_embedding_witness :
  scan [("Credential Theft", ["mimikatz"])] ("JFIF header " +:+ "mimikatz" +:+ " trailer")
  <> [].
Proof.
  apply (scan_survives_embedding [("Credential Theft", ["mimikatz"])] "mimikatz"
           "JFIF header " " trailer" {| pattern := "mimikatz"; category := "Credential Theft" |}).
  vm_compute. left.
Defined.

End ScanProperties.

(** ** The server action as a whole *)
Module ActionProperties.
Import JSString Effects AnalyzeFile SummarizeAnalysis Claims.

(** An input that passes both guards of the action. *)
Definition wellFormed (input : AnalyzeFileInput) : Prop :=
  truthy (fileName input) = true /\ truthy (fileContent input) = true
  /\ truthy (contentType input) = true /\ stripHeader (fileContent input) <> EmptyString.

(** The text the action scans for a well-formed input. *)
Definition scanned (input : AnalyzeFileInput) : string :=
  Buffer.toStringLatin1 (Buffer.fromBase64 (stripHeader (fileContent input))).

Definition missingInput : AnalyzeFileOutput :=
  {| findings := None; summary := None; error := Some "Missing required input data." |}.

Definition emptyContent : AnalyzeFileOutput :=
  {| findings := Some [];
     summary := Some "Analysis could not be performed: File content is empty.";
     error := Some "File content appears to be empty after processing." |}.

Lemma summarizeWith_value prompt analysisResults :
  exists s, value (summarizeWith prompt analysisResults) = inr s.
Proof.
  unfold summarizeWith, bind, ret, value.
  destruct (summarizeAnalysisResults prompt analysisResults) as [s t]. cbn. eauto.
Qed.

Lemma summarize_trace prompt analysisResults :
  trace (summarizeAnalysisResults prompt analysisResults) = []
  \/ trace (summarizeAnalysisResults prompt analysisResults) = [LlmPrompt analysisResults].
Proof.
  unfold summarizeAnalysisResults.
  destruct (_ && _); [now left|].
  destruct (RegExp.testLiteral reNoPatternsRaw true analysisResults); [now left|].
  right. unfold summarizeAnalysisResultsFlow, bind, emit, ret, trace.
  destruct (prompt analysisResults); reflexivity.
Qed.

Lemma summarizeWith_trace prompt analysisResults :
  trace (summarizeWith prompt analysisResults)
  = trace (summarizeAnalysisResults prompt analysisResults).
Proof.
  unfold summarizeWith, bind, ret, trace.
  destruct (summarizeAnalysisResults prompt analysisResults) as [s t]. cbn.
  now rewrite app_nil_r.
Qed.

Lemma not_wellFormed_cases input :
  ~ wellFormed input ->
  (truthy (fileName input) && truthy (fileContent input) && truthy (contentType input) = false)
  \/ (truthy (fileName input) && truthy (fileContent input) && truthy (contentType input) = true
      /\ stripHeader (fileContent input) = EmptyString).
Proof.
  intros H. unfold wellFormed in H.
  destruct (truthy (fileName input)), (truthy (fileContent input)),
    (truthy (contentType input)); cbn; try (now left).
  right. split; [reflexivity|].
  destruct (stripHeader (fileContent input)) eqn:E; [reflexivity|].
  exfalso. apply H. repeat split; discriminate.
Qed.

Lemma action_rejects malwarePatterns prompt input :
  ~ wellFormed input ->
  analyzeFileContent malwarePatterns prompt input = (missingInput, [])
  \/ analyzeFileContent malwarePatterns prompt input = (emptyContent, []).
Proof.
  intros H. unfold analyzeFileContent, analyzeFileContentWith.
  destruct (not_wellFormed_cases input H) as [Hm | [Hm He]].
  - left.
    destruct (truthy (fileName input)), (truthy (fileContent input)),
      (truthy (contentType input)); try discriminate; reflexivity.
  - right.
    destruct (truthy (fileName input)), (truthy (fileContent input)),
      (truthy (contentType input)); try discriminate.
    cbn [negb orb]. now rewrite He.
Qed.

Lemma action_accepts malwarePatterns prompt input :
  wellFormed input ->
  error (value (analyzeFileContent malwarePatterns prompt input)) = None
  /\ findings (value (analyzeFileContent malwarePatterns prompt input))
     = Some (scan malwarePatterns (scanned input))
  /\ (exists s, summary (value (analyzeFileContent malwarePatterns prompt input)) = Some s).
Proof.
  intros (Hn & Hc & Ht & Hp).
  rewrite (Action.analyzeFileContent_runs _ _ _ Hn Hc Ht Hp).
  destruct (scan malwarePatterns (scanned input)) as [|f fs] eqn:E.
  - rewrite SummaryPolicy.clean_decoded_scan; [|reflexivity | exact E].
    cbn. eauto.
  - assert (findMaliciousPatterns regexTestI malwarePatterns
              (text (decodeStep nodeDecode (stripHeader (fileContent input)))) <> [])
      as Hne by (change (scan malwarePatterns (scanned input) <> []); now rewrite E).
    rewrite (SummaryPolicy.analyzeDecoded_findings _ _ _ _ Hne).
    unfold value at 1 3 5. cbn [fst error findings summary].
    split; [reflexivity|]. split; [exact (f_equal Some E)|].
    destruct (summarizeWith_value prompt
                (evidenceBlock (decodeStep nodeDecode (stripHeader (fileContent input)))
                   (findMaliciousPatterns regexTestI malwarePatterns
                      (text (decodeStep nodeDecode (stripHeader (fileContent input)))))))
      as [s ->]. eauto.
Qed.

(** X6. The action has three outcomes and no other. The missing-field error
    and the empty-content error are returned before anything is scanned or
    sent to the summarizer; every other input gets no error, the findings of
    the scan of its decoded payload and a summary. With the summary flow as
    it is, the generic server error is never returned. *)
Theorem action_outcomes (malwarePatterns : library) (prompt : string -> promptReply)
    (input : AnalyzeFileInput) :
  (error (value (analyzeFileContent malwarePatterns prompt input)) = None
   <-> wellFormed input)
  /\ (wellFormed input ->
      findings (value (analyzeFileContent malwarePatterns prompt input))
      = Some (scan malwarePatterns (scanned input))
      /\ exists s, summary (value (analyzeFileContent malwarePatterns prompt input)) = Some s)
  /\ (~ wellFormed input ->
      trace (analyzeFileContent malwarePatterns prompt input) = []
      /\ (value (analyzeFileContent malwarePatterns prompt input) = missingInput
          \/ value (analyzeFileContent malwarePatterns prompt input) = emptyContent)).
Proof.
  assert (~ wellFormed input ->
          trace (analyzeFileContent malwarePatterns prompt input) = []
          /\ (value (analyzeFileContent malwarePatterns prompt input) = missingInput
              \/ value (analyzeFileContent malwarePatterns prompt input) = emptyContent))
    as Hrej.
  { intros H. destruct (action_rejects malwarePatterns prompt input H) as [-> | ->];
      (split; [reflexivity|]); [now left | now right]. }
  split; [|split; [intros H; now apply action_accepts | exact Hrej]].
  split; [|intros H; now apply action_accepts].
  intros Herr.
  assert (Decision (wellFormed input)) as [Hw | Hw];
    [unfold wellFormed; apply _ | exact Hw |].
  exfalso. destruct (Hrej Hw) as [_ [Hv | Hv]]; rewrite Hv in Herr; discriminate.
Qed.

(** X7. A file is described to the model at most once, and only by the
    evidence block of its findings: the model is never prompted when the scan
    finds nothing or the input is refused, and never receives the payload. *)
Theorem model_prompted_once (malwarePatterns : library) (prompt : string -> promptReply)
    (input : AnalyzeFileInput) :
  List.filter isLlmPrompt (trace (analyzeFileContent malwarePatterns prompt input)) = []
  \/ (wellFormed input
      /\ scan malwarePatterns (scanned input) <> []
      /\ List.filter isLlmPrompt (trace (analyzeFileContent malwarePatterns prompt input))
         = [LlmPrompt
              (evidenceBlock
                 {| text := scanned input; decodedSuccessfully := true; decodeError := None |}
                 (scan malwarePatterns (scanned input)))]).
Proof.
  assert (Decision (wellFormed input)) as [Hw | Hw]; [unfold wellFormed; apply _ | |].
  - pose proof Hw as (Hn & Hc & Ht & Hp).
    rewrite (Action.analyzeFileContent_runs _ _ _ Hn Hc Ht Hp).
    destruct (scan malwarePatterns (scanned input)) as [|f fs] eqn:E.
    + left. rewrite SummaryPolicy.clean_decoded_scan; [reflexivity | reflexivity | exact E].
    + assert (findMaliciousPatterns regexTestI malwarePatterns
                (text (decodeStep nodeDecode (stripHeader (fileContent input)))) <> [])
        as Hne by (change (scan malwarePatterns (scanned input) <> []); now rewrite E).
      rewrite (SummaryPolicy.analyzeDecoded_findings _ _ _ _ Hne).
      unfold trace at 1 3. cbn [snd List.filter isLlmPrompt].
      rewrite summarizeWith_trace.
      change (findMaliciousPatterns regexTestI malwarePatterns
                (text (decodeStep nodeDecode (stripHeader (fileContent input)))))
        with (scan malwarePatterns (scanned input)).
      rewrite E.
      destruct (summarize_trace prompt
                  (evidenceBlock (decodeStep nodeDecode (stripHeader (fileContent input)))
                     (f :: fs))) as [-> | ->].
      * now left.
      * right. split; [exact Hw|]. split; [discriminate | reflexivity].
  - left. destruct (action_rejects malwarePatterns prompt input Hw) as [-> | ->];
      reflexivity.
Qed.

End ActionProperties.

(** ** The summary flow as a whole *)
Module SummaryProperties.
Import JSString Effects RegExp AnalyzeFile SummarizeAnalysis Claims.

(** The terms of the threat vocabulary, as the literal lists them. *)
Definition threatTerms : list string :=
  ["reverse shell"; "malicious command"; "suspicious network"; "persistence";
   "destructive"; "malware"; "threat"; "exploit"; "credential dumping";
   "keylogger"; "ransomware"].

Lemma testLiteral_threatVocabulary s :
  testLiteral reThreatVocabulary true s = existsb (fun t => occursIn true t s) threatTerms.
Proof.
  unfold testLiteral, test.
  change (compile reThreatVocabulary)
    with (Pattern
            (Seq (Alt (literal "reverse shell")
                 (Alt (literal "malicious command")
                 (Alt (literal "suspicious network")
                 (Alt (literal "persistence")
                 (Alt (literal "destructive")
                 (Alt (literal "malware")
                 (Alt (literal "threat")
                 (Alt (literal "exploit")
                 (Alt (literal "credential dumping")
                 (Alt (literal "keylogger") (literal "ransomware")))))))))))
               Empty)).
  cbv beta iota. rewrite RegExpFacts.search_group.
  rewrite !RegExpFacts.search_Alt, !RegExpFacts.search_literal.
  cbn [existsb threatTerms]. now rewrite orb_false_r.
Qed.

(** X8. A model summary that uses a term of the threat vocabulary, in any
    case, is returned as it came, whatever the evidence. *)
Theorem threat_summary_is_kept (summary analysisResults term : string) :
  In term threatTerms ->
  occursIn true term summary = true ->
  postProcess summary analysisResults = summary.
Proof.
  intros Hterm Hocc. unfold postProcess, overrideGuard.
  rewrite testLiteral_threatVocabulary.
  assert (existsb (fun t => occursIn true t summary) threatTerms = true) as ->
    by (apply existsb_exists; eauto).
  reflexivity.
Qed.

Lemma threat_summary_is_kept_witness :
  postProcess "AES is used here by known Ransomware." "analysisResults: AES"
  = "AES is used here by known Ransomware.".
Proof.
  apply (threat_summary_is_kept _ _ "ransomware").
  - vm_compute. tauto.
  - vm_compute. reflexivity.
Defined.

(** X9. Evidence that holds one of the phrases [malicious use], [obfuscate],
    [hide C2] or [ransomware behavior], in any case, is never overridden:
    the summary of the model is returned as it came. *)
Theorem malicious_context_is_kept (summary analysisResults phrase : string) :
  In phrase ["malicious use"; "obfuscate"; "hide C2"; "ransomware behavior"] ->
  occursIn true phrase analysisResults = true ->
  postProcess summary analysisResults = summary.
Proof.
  intros Hphrase Hocc. apply SummaryFacts.postProcess_malicious_context.
  cbn [In] in Hphrase.
  destruct Hphrase as [<- | [<- | [<- | [<- | []]]]]; tauto.
Qed.

Lemma malicious_context_is_kept_witness :
  postProcess "The file uses AES." "analysisResults: AES used to hide c2 traffic"
  = "The file uses AES.".
Proof.
  apply (malicious_context_is_kept _ _ "hide C2").
  - vm_compute. tauto.
  - vm_compute. reflexivity.
Defined.

(** X10. Post-processing returns the summary of the model, or one of two
    fixed texts; applying it twice changes nothing more. *)
Theorem postProcess_results (summary analysisResults : string) :
  (postProcess summary analysisResults = summary
   \/ postProcess summary analysisResults = overrideSummary
   \/ postProcess summary analysisResults = overrideSummary +:+ limitationNote)
  /\ postProcess (postProcess summary analysisResults) analysisResults
     = postProcess summary analysisResults.
Proof.
  unfold postProcess at 1 2 3 5 6.
  destruct (overrideGuard summary analysisResults) eqn:G.
  - unfold overrideGuard in G. apply andb_prop in G as [G Hctx].
    apply andb_prop in G as [G Htok]. apply andb_prop in G as [_ Hmark].
    assert (forall s, testLiteral reThreatVocabulary true s = false ->
                      overrideGuard s analysisResults = true) as Hguard.
    { intros s Hs. unfold overrideGuard. now rewrite Hs, Hmark, Htok, Hctx. }
    destruct (testLiteral reLimitation true analysisResults) eqn:L.
    + split; [auto|]. unfold postProcess.
      rewrite Hguard by (vm_compute; reflexivity). now rewrite L.
    + split; [auto|]. unfold postProcess.
      rewrite Hguard by (vm_compute; reflexivity). now rewrite L.
  - split; [auto|]. unfold postProcess. now rewrite G.
Qed.

(** X11. Unless a category or pattern of the library holds the text
    [analysisResults], no scan has its model summary replaced: whatever the
    model writes for a findings-present scan is the summary returned. *)
Theorem library_names_disable_override (malwarePatterns : library)
    (prompt : string -> promptReply) (o : DecodeOutcome) (external : string) :
  Forall markerFree (declared malwarePatterns) ->
  occursIn false "analysisResults" (showDecodeError (decodeError o)) = false ->
  scan malwarePatterns (text o) <> [] ->
  testLiteral reNoPatterns true (evidenceBlock o (scan malwarePatterns (text o))) = false ->
  prompt (evidenceBlock o (scan malwarePatterns (text o))) = Output external ->
  value (analyzeDecoded regexTestI malwarePatterns (summarizeWith prompt) o)
  = {| findings := Some (scan malwarePatterns (text o));
       summary := Some external;
       error := None |}.
Proof. apply SummaryPolicy.override_never_applies. Qed.

Lemma library_names_disable_override_witness :
  value (analyzeDecoded regexTestI [("Encoding/Decoding", ["AES"; "RSA"])]
           (summarizeWith (fun _ => Output "AES and RSA are present."))
           {| text := "uses aes and rsa"; decodedSuccessfully := true; decodeError := None |})
  = {| findings := Some [{| pattern := "AES"; category := "Encoding/Decoding" |};
                         {| pattern := "RSA"; category := "Encoding/Decoding" |}];
       summary := Some "AES and RSA are present.";
       error := None |}.
Proof.
  apply (library_names_disable_override [("Encoding/Decoding", ["AES"; "RSA"])]
           (fun _ => Output "AES and RSA are present.")
           {| text := "uses aes and rsa"; decodedSuccessfully := true; decodeError := None |}
           "AES and RSA are present.").
  - repeat constructor.
  - reflexivity.
  - vm_compute. discriminate.
  - vm_compute. reflexivity.
  - reflexivity.
Defined.

(** X12. When the model call fails on the evidence of a decoded scan with
    [n] single-line findings, the findings are returned unchanged with no
    error, and the summary is the fallback of the flow, which states [n - 1]
    patterns and the failure message. *)
Theorem model_failure_summary (malwarePatterns : library) (prompt : string -> promptReply)
    (o : DecodeOutcome) (e : thrown) :
  decodedSuccessfully o = true ->
  scan malwarePatterns (text o) <> [] ->
  Forall singleLine (scan malwarePatterns (text o)) ->
  testLiteral reNoPatterns true (evidenceBlock o (scan malwarePatterns (text o))) = false ->
  prompt (evidenceBlock o (scan malwarePatterns (text o))) = Rejects e ->
  value (analyzeDecoded regexTestI malwarePatterns (summarizeWith prompt) o)
  = {| findings := Some (scan malwarePatterns (text o));
       summary :=
         Some ("Analysis detected "
               +:+ intToString (Z.of_nat (length (scan malwarePatterns (text o))) - 1)
               +:+ " potential patterns. However, an error occurred while generating a detailed summary: "
               +:+ messageOf e "Unknown error during AI summary generation");
       error := None |}.
Proof. apply SummaryPolicy.model_failure_fallback. Qed.

Lemma model_failure_summary_witness :
  value (analyzeDecoded regexTestI [("Credential Theft", ["mimikatz"])]
           (summarizeWith (fun _ => Rejects ThrownValue))
           {| text := "mimikatz"; decodedSuccessfully := true; decodeError := None |})
  = {| findings := Some [{| pattern := "mimikatz"; category := "Credential Theft" |}];
       summary :=
         Some "Analysis detected 0 potential patterns. However, an error occurred while generating a detailed summary: Unknown error during AI summary generation";
       error := None |}.
Proof.
  apply (model_failure_summary [("Credential Theft", ["mimikatz"])]
           (fun _ => Rejects ThrownValue)
           {| text := "mimikatz"; decodedSuccessfully := true; decodeError := None |}
           ThrownValue).
  - reflexivity.
  - vm_compute. discriminate.
  - vm_compute. repeat constructor.
  - vm_compute. reflexivity.
  - reflexivity.
Defined.

(** X13. If the imported summarizer itself throws on a findings-present scan,
    the action catches it: no error is set, the findings are returned
    unchanged and the summary states their exact number and the reason. *)
Theorem summarizer_exception_is_caught (regexTest : string -> string -> option bool)
    (malwarePatterns : library) (summarize : string -> Eff (thrown + string))
    (o : DecodeOutcome) (e : thrown) :
  findMaliciousPatterns regexTest malwarePatterns (text o) <> [] ->
  value (summarize (evidenceBlock o (findMaliciousPatterns regexTest malwarePatterns (text o))))
  = inl e ->
  value (analyzeDecoded regexTest malwarePatterns summarize o)
  = {| findings := Some (findMaliciousPatterns regexTest malwarePatterns (text o));
       summary :=
         Some ("Potential threats detected ("
               +:+ natToString (length (findMaliciousPatterns regexTest malwarePatterns (text o)))
               +:+ " patterns). Failed to generate detailed summary. Reason: "
               +:+ messageOf e "An unknown error occurred during AI summary");
       error := None |}.
Proof. apply SummaryPolicy.action_catch_reports_count. Qed.

Lemma summarizer_exception_is_caught_witness :
  value (analyzeDecoded regexTestI [("Credential Theft", ["mimikatz"])]
           (fun _ => (inl (ThrownError "service down"), []))
           {| text := "mimikatz"; decodedSuccessfully := true; decodeError := None |})
  = {| findings := Some [{| pattern := "mimikatz"; category := "Credential Theft" |}];
       summary :=
         Some "Potential threats detected (1 patterns). Failed to generate detailed summary. Reason: service down";
       error := None |}.
Proof.
  apply (summarizer_exception_is_caught regexTestI [("Credential Theft", ["mimikatz"])]
           (fun _ => (inl (ThrownError "service down"), []))
           {| text := "mimikatz"; decodedSuccessfully := true; decodeError := None |}
           (ThrownError "service down")).
  - vm_compute. discriminate.
  - reflexivity.
Defined.

(** X14. A scan without findings never reaches the model and gets the fixed
    message of the decoded case; after a failed decode too, whatever the
    reason of the failure, unless the reason itself reads [performed on raw
    Base64]. *)
Theorem clean_scan_summary (malwarePatterns : library) (prompt : string -> promptReply)
    (o : DecodeOutcome) :
  scan malwarePatterns (text o) = [] ->
  (decodedSuccessfully o = true
   \/ exists reason, decodedSuccessfully o = false /\ decodeError o = Some reason
                     /\ occursIn true "performed on raw Base64" reason = false) ->
  analyzeDecoded regexTestI malwarePatterns (summarizeWith prompt) o
  = ({| findings := Some []; summary := Some noPatternsSummary; error := None |},
     [PatternScan (text o); SummarizerCall (cleanReport o)]).
Proof.
  intros Hclean [Hok | (reason & Hfail & Herr & Hreason)].
  - now apply SummaryPolicy.clean_decoded_scan.
  - now apply SummaryPolicy.clean_raw_scan with reason.
Qed.

Lemma clean_scan_summary_witness :
  analyzeDecoded regexTestI [("Credential Theft", ["mimikatz"])]
    (summarizeWith (fun _ => NoOutput))
    {| text := "aGVsbG8="; decodedSuccessfully := false;
       decodeError := Some "Invalid character" |}
  = ({| findings := Some []; summary := Some noPatternsSummary; error := None |},
     [PatternScan "aGVsbG8=";
      SummarizerCall
        (cleanReport {| text := "aGVsbG8="; decodedSuccessfully := false;
                        decodeError := Some "Invalid character" |})]).
Proof.
  apply (clean_scan_summary [("Credential Theft", ["mimikatz"])] (fun _ => NoOutput)
           {| text := "aGVsbG8="; decodedSuccessfully := false;
              decodeError := Some "Invalid character" |}).
  - vm_compute. reflexivity.
  - right. exists "Invalid character". repeat split.
Defined.

End SummaryProperties.

(** ** The payload format, from the browser to the scan *)
Module PayloadProperties.
Import JSString Effects AnalyzeFile.

Lemma append_cons (x : ascii) (a b : string) : String x a +:+ b = String x (a +:+ b).
Proof. reflexivity. Qed.

Lemma indexOf_append c a b :
  indexOf c a = None -> indexOf c (a +:+ String c b) = Some (String.length a).
Proof.
  induction a as [|x a IH]; cbn [indexOf String.length].
  - intros _. change (EmptyString +:+ String c b) with (String c b). cbn [indexOf].
    now rewrite Ascii.eqb_refl.
  - rewrite append_cons. cbn [indexOf]. destruct (Ascii.eqb x c); [discriminate|].
    destruct (indexOf c a); [discriminate|]. intros _. now rewrite IH.
Qed.

Lemma substringFrom_append a b : substringFrom (String.length a) (a +:+ b) = b.
Proof.
  induction a as [|x a IH]; [now destruct b|].
  rewrite append_cons. exact IH.
Qed.

Lemma stripHeader_payload (header payload : string) :
  indexOf "," header = None ->
  stripHeader (header +:+ "," +:+ payload) = payload.
Proof.
  intros Hh. unfold stripHeader.
  change ("," +:+ payload) with (String "," payload).
  rewrite (indexOf_append _ _ _ Hh).
  replace (String.length header + 1)%nat with (String.length (header +:+ ","))
    by (clear; induction header as [|x h IH]; [reflexivity | rewrite append_cons; cbn; now rewrite IH]).
  change (header +:+ String "," payload) with (header +:+ ("," +:+ payload)).
  rewrite <- MoreStringFacts.append_assoc. apply substringFrom_append.
Qed.

Lemma stripHeader_dataURL (mediaType : string) (bytes : list Z) :
  indexOf "," mediaType = None ->
  stripHeader (FileReader.dataURL mediaType bytes) = FileReader.base64 bytes.
Proof.
  intros Hm. unfold FileReader.dataURL.
  change (";base64," +:+ FileReader.base64 bytes)
    with (";base64" +:+ "," +:+ FileReader.base64 bytes).
  rewrite <- (MoreStringFacts.append_assoc mediaType).
  rewrite <- (MoreStringFacts.append_assoc "data:").
  apply stripHeader_payload.
  rewrite !append_cons. cbn [indexOf].
  change (EmptyString +:+ mediaType +:+ ";base64") with (mediaType +:+ ";base64").
  change (Ascii.eqb "d" ",") with false; change (Ascii.eqb "a" ",") with false;
    change (Ascii.eqb "t" ",") with false; change (Ascii.eqb ":" ",") with false.
  cbv iota.
  assert (indexOf "," (mediaType +:+ ";base64") = None) as ->; [|reflexivity].
  clear -Hm. induction mediaType as [|x m IH]; [reflexivity|].
  rewrite append_cons. cbn [indexOf] in *. destruct (Ascii.eqb x ","); [discriminate|].
  destruct (indexOf "," m); [discriminate|]. now rewrite IH.
Qed.

(** X15. The header of a data URL is dropped whole and the payload kept
    whole: for a header without comma, [stripHeader] of header, comma and
    payload is the payload (commas of the payload stay), and a content
    without comma is its own payload. *)
Theorem stripHeader_framing (header payload : string) :
  indexOf "," header = None ->
  stripHeader (header +:+ "," +:+ payload) = payload
  /\ stripHeader header = header.
Proof.
  intros Hh. split; [now apply stripHeader_payload|].
  unfold stripHeader. now rewrite Hh.
Qed.

Lemma stripHeader_framing_witness :
  stripHeader ("data:image/png;base64" +:+ "," +:+ "aGk=,x") = "aGk=,x"
  /\ stripHeader "data:image/png;base64" = "data:image/png;base64".
Proof. apply stripHeader_framing. reflexivity. Defined.

(** Checks over all bytes and pairs of bytes. *)
Definition isByte (b : Z) : Prop := (0 <= b < 256)%Z.

Lemma all_pairs (P : Z -> Z -> bool) :
  forallb (fun i => forallb (fun j => P (Z.of_nat i) (Z.of_nat j)) (seq 0 256)) (seq 0 256)
  = true ->
  forall a b, isByte a -> isByte b -> P a b = true.
Proof.
  intros H a b Ha Hb. unfold isByte in *. rewrite forallb_forall in H.
  assert (In (Z.to_nat a) (seq 0 256)) as Hi by (apply in_seq; lia).
  specialize (H _ Hi). rewrite forallb_forall in H.
  assert (In (Z.to_nat b) (seq 0 256)) as Hj by (apply in_seq; lia).
  specialize (H _ Hj). now rewrite !Z2Nat.id in H by lia.
Qed.

Lemma sextets_of_bytes a b :
  isByte a -> isByte b ->
  ((0 <= FileReader.sextet0 a < 64) /\ (0 <= FileReader.sextet1 a b < 64)
   /\ (0 <= FileReader.sextet2 a b < 64) /\ (0 <= FileReader.sextet3 a < 64))%Z.
Proof.
  intros Ha Hb.
  pose proof (all_pairs
    (fun a b =>
       ((0 <=? FileReader.sextet0 a) && (FileReader.sextet0 a <? 64)
        && (0 <=? FileReader.sextet1 a b) && (FileReader.sextet1 a b <? 64)
        && (0 <=? FileReader.sextet2 a b) && (FileReader.sextet2 a b <? 64)
        && (0 <=? FileReader.sextet3 a) && (FileReader.sextet3 a <? 64))%Z)
    ltac:(vm_compute; reflexivity) a b Ha Hb) as H.
  cbv beta in H. repeat (apply andb_prop in H as [H ?]). lia.
Qed.

Lemma group_round_trip a b :
  isByte a -> isByte b ->
  Buffer.byte1 (FileReader.sextet0 a) (FileReader.sextet1 a b) = a
  /\ Z.land (FileReader.sextet1 a b) 15 = Z.shiftr b 4
  /\ Z.shiftr (Z.land (FileReader.sextet2 a b) 60) 2 = Z.land a 15
  /\ Z.lor (Z.shiftl (Z.shiftr a 4) 4) (Z.land a 15) = a
  /\ Buffer.byte3 (FileReader.sextet2 a b) (FileReader.sextet3 b) = b.
Proof.
  intros Ha Hb.
  pose proof (all_pairs
    (fun a b =>
       ((Buffer.byte1 (FileReader.sextet0 a) (FileReader.sextet1 a b) =? a)
        && (Z.land (FileReader.sextet1 a b) 15 =? Z.shiftr b 4)
        && (Z.shiftr (Z.land (FileReader.sextet2 a b) 60) 2 =? Z.land a 15)
        && (Z.lor (Z.shiftl (Z.shiftr a 4) 4) (Z.land a 15) =? a)
        && (Buffer.byte3 (FileReader.sextet2 a b) (FileReader.sextet3 b) =? b))%Z)
    ltac:(vm_compute; reflexivity) a b Ha Hb) as H.
  cbv beta in H. repeat (apply andb_prop in H as [H ?]).
  repeat split; now apply Z.eqb_eq.
Qed.

Lemma byte2_round_trip a b c :
  isByte a -> isByte b -> isByte c ->
  Buffer.byte2 (FileReader.sextet1 a b) (FileReader.sextet2 b c) = b.
Proof.
  intros Ha Hb Hc. unfold Buffer.byte2.
  destruct (group_round_trip a b Ha Hb) as (_ & -> & _).
  destruct (group_round_trip b c Hb Hc) as (_ & _ & -> & Hb' & _).
  exact Hb'.
Qed.

Lemma sextets_base64Char v s :
  (0 <= v < 64)%Z ->
  Buffer.sextets (String (FileReader.base64Char v) s) = v :: Buffer.sextets s.
Proof.
  intros Hv.
  assert (forallb (fun i =>
            negb (Ascii.eqb (FileReader.base64Char (Z.of_nat i)) "=")
            && match Buffer.unbase64 (FileReader.base64Char (Z.of_nat i)) with
               | Some w => (w =? Z.of_nat i)%Z
               | None => false
               end) (seq 0 64) = true) as H by (vm_compute; reflexivity).
  rewrite forallb_forall in H. specialize (H (Z.to_nat v) ltac:(apply in_seq; lia)).
  rewrite Z2Nat.id in H by lia. apply andb_prop in H as [Hpad Hval].
  cbn [Buffer.sextets]. apply negb_true_iff in Hpad. rewrite Hpad.
  destruct (Buffer.unbase64 (FileReader.base64Char v)) as [w|]; [|discriminate].
  apply Z.eqb_eq in Hval. now subst w.
Qed.

Lemma isByte_zero : isByte 0.
Proof. unfold isByte. lia. Qed.

(** The decoder reads back what the browser wrote. *)
Lemma fromBase64_base64 : forall n bytes,
  (length bytes <= n)%nat -> Forall isByte bytes ->
  Buffer.fromBase64 (FileReader.base64 bytes) = bytes.
Proof.
  unfold Buffer.fromBase64.
  induction n as [|n IH]; intros bytes Hlen Hbytes.
  - destruct bytes; [reflexivity | cbn in Hlen; lia].
  - destruct bytes as [|a [|b [|c rest]]]; [reflexivity|..];
      repeat match goal with
             | H : Forall _ (_ :: _) |- _ => apply Forall_cons_1 in H as [? H]
             end;
      cbn [FileReader.base64].
    + destruct (sextets_of_bytes a 0) as (Hs0 & Hs1 & _); [assumption | apply isByte_zero|].
      rewrite !sextets_base64Char by assumption.
      change (Buffer.sextets "==") with (@nil Z). cbn [Buffer.decodeGroups].
      now destruct (group_round_trip a 0 ltac:(assumption) isByte_zero) as (-> & _).
    + destruct (sextets_of_bytes a b) as (Hs0 & Hs1 & _); [assumption..|].
      destruct (sextets_of_bytes b 0) as (_ & _ & Hs2 & _); [assumption | apply isByte_zero|].
      rewrite !sextets_base64Char by assumption.
      change (Buffer.sextets "=") with (@nil Z). cbn [Buffer.decodeGroups].
      destruct (group_round_trip a b) as (-> & _); [assumption..|].
      now rewrite (byte2_round_trip a b 0) by (assumption || apply isByte_zero).
    + destruct (sextets_of_bytes a b) as (Hs0 & Hs1 & _); [assumption..|].
      destruct (sextets_of_bytes b c) as (_ & _ & Hs2 & _); [assumption..|].
      destruct (sextets_of_bytes c 0) as (_ & _ & _ & Hs3); [assumption | apply isByte_zero|].
      rewrite !sextets_base64Char by assumption.
      cbn [Buffer.decodeGroups].
      destruct (group_round_trip a b) as (-> & _); [assumption..|].
      rewrite (byte2_round_trip a b c) by assumption.
      destruct (group_round_trip b c) as (_ & _ & _ & _ & ->); [assumption..|].
      do 3 f_equal. apply IH; [cbn in Hlen; lia | assumption].
Qed.

(** X16. The bytes of a file survive the way from the browser to the scan:
    for a media type without comma, the action strips the header of the data
    URL the browser built, decodes exactly the bytes of the file, and scans
    their Latin-1 text. *)
Theorem dataURL_round_trip (mediaType : string) (bytes : list Z) :
  indexOf "," mediaType = None ->
  Forall isByte bytes ->
  stripHeader (FileReader.dataURL mediaType bytes) = FileReader.base64 bytes
  /\ Buffer.fromBase64 (stripHeader (FileReader.dataURL mediaType bytes)) = bytes
  /\ text (decodeStep nodeDecode (stripHeader (FileReader.dataURL mediaType bytes)))
     = Buffer.toStringLatin1 bytes.
Proof.
  intros Hm Hbytes.
  rewrite (stripHeader_dataURL mediaType bytes Hm).
  split; [reflexivity|].
  rewrite (fromBase64_base64 (length bytes) bytes (le_n _) Hbytes).
  split; [reflexivity|]. cbn. unfold Buffer.fromBase64.
  pose proof (fromBase64_base64 (length bytes) bytes (le_n _) Hbytes) as H.
  unfold Buffer.fromBase64 in H. now rewrite H.
Qed.

Lemma dataURL_round_trip_witness :
  FileReader.dataURL "image/png" [109; 105; 109; 105; 0; 255; 16]%Z
  = "data:image/png;base64,bWltaQD/EA=="
  /\ Buffer.fromBase64 (stripHeader (FileReader.dataURL "image/png" [109; 105; 109; 105; 0; 255; 16]%Z))
     = [109; 105; 109; 105; 0; 255; 16]%Z.
Proof.
  split; [vm_compute; reflexivity|].
  apply (dataURL_round_trip "image/png" [109; 105; 109; 105; 0; 255; 16]%Z).
  - reflexivity.
  - repeat constructor; unfold isByte; lia.
Defined.

End PayloadProperties.

(** ** The texts exchanged between the action and the summarizer *)
Module ReportProperties.
Import JSString Effects AnalyzeFile SummarizeAnalysis Claims.

(** A reason that holds a closing parenthesis or a line terminator. *)
Fixpoint closesOrBreaks (reason : string) : bool :=
  match reason with
  | EmptyString => false
  | String c r => Ascii.eqb c ")" || RegExp.isLineTerminator c || closesOrBreaks r
  end.

Lemma upToParen_reason reason tail :
  closesOrBreaks reason = false ->
  upToParen (reason +:+ String ")" tail) = Some reason.
Proof.
  induction reason as [|c r IH]; [reflexivity|].
  cbn [closesOrBreaks]. intros H.
  apply orb_false_elim in H as [H Hr]. apply orb_false_elim in H as [Hp Hl].
  rewrite PayloadProperties.append_cons. cbn [upToParen]. rewrite Hp, Hl.
  now rewrite (IH Hr).
Qed.

Lemma execDecodeReason_skip x s :
  Ascii.eqb "B" x = false -> execDecodeReason (String x s) = execDecodeReason s.
Proof.
  intros H. cbn [execDecodeReason stripPrefix]. unfold sameUnit. now rewrite H.
Qed.

(** X17. The reason of a decode failure that the action writes into its
    no-findings report is read back unchanged by the expression of the
    summarizer, for every reason without closing parenthesis and line
    terminator. *)
Theorem report_reason_round_trip (raw reason : string) :
  closesOrBreaks reason = false ->
  execDecodeReason
    (cleanReport {| text := raw; decodedSuccessfully := false; decodeError := Some reason |})
  = Some reason.
Proof.
  intros H. unfold cleanReport. cbn [decodedSuccessfully decodeError showDecodeError].
  change (reason +:+ ").") with (reason +:+ String ")" ".").
  rewrite !PayloadProperties.append_cons.
  change (EmptyString +:+ reason +:+ String ")" ".") with (reason +:+ String ")" ".").
  repeat (rewrite execDecodeReason_skip by reflexivity).
  cbn [execDecodeReason stripPrefix].
  repeat (change (sameUnit false ?a ?a) with true; cbv iota).
  now rewrite (upToParen_reason reason "." H).
Qed.

Lemma report_reason_round_trip_witness :
  execDecodeReason
    (cleanReport {| text := "aGVsbG8="; decodedSuccessfully := false;
                    decodeError := Some "Invalid character" |})
  = Some "Invalid character".
Proof. apply report_reason_round_trip. reflexivity. Defined.

Lemma split_single s : lineBreaks s = 0 -> split LF s = [s].
Proof.
  induction s as [|c s IH]; [reflexivity|]. cbn [lineBreaks split].
  destruct (Ascii.eqb c LF); [discriminate|]. cbn [Nat.add]. intros H.
  now rewrite (IH H).
Qed.

Lemma split_line a b :
  lineBreaks a = 0 -> split LF (a +:+ String LF b) = a :: split LF b.
Proof.
  induction a as [|c a IH].
  - intros _. change (EmptyString +:+ String LF b) with (String LF b).
    cbn [split]. now rewrite Ascii.eqb_refl.
  - cbn [lineBreaks]. rewrite PayloadProperties.append_cons. cbn [split].
    destruct (Ascii.eqb c LF); [discriminate|]. cbn [Nat.add]. intros H.
    now rewrite (IH H).
Qed.

Lemma split_join lines :
  lines <> [] -> Forall (fun l => lineBreaks l = 0) lines ->
  split LF (join newline lines) = lines.
Proof.
  intros Hne Hlines. induction Hlines as [|l lines Hl Hlines IH]; [contradiction|].
  destruct lines as [|l' lines]; [now apply split_single|].
  change (join newline (l :: l' :: lines))
    with (l +:+ String LF (join newline (l' :: lines))).
  rewrite (split_line _ _ Hl). f_equal. now apply IH.
Qed.

(** X18. The evidence block of a decoded scan with single-line categories
    and patterns is one header line, which states the number of findings,
    followed by one line per finding, in the order of the findings. *)
Theorem evidence_lines (o : DecodeOutcome) (detected : list Finding) :
  decodedSuccessfully o = true ->
  detected <> [] ->
  Forall singleLine detected ->
  split LF (evidenceBlock o detected)
  = ("Analysis Results (" +:+ natToString (length detected)
     +:+ " patterns found - Decoded Content Scan):")
    :: map (fun f => "- Category: " +:+ category f +:+ ", Detected Pattern: "
                     +:+ dquote +:+ pattern f +:+ dquote) detected.
Proof.
  intros Hok Hne Hlines. unfold evidenceBlock. rewrite Hok.
  change ("Analysis Results (" +:+ natToString (length detected)
          +:+ " patterns found - Decoded Content Scan):" +:+ newline
          +:+ join newline (map detailLine detected))
    with ("Analysis Results (" +:+ natToString (length detected)
          +:+ " patterns found - Decoded Content Scan):"
          +:+ String LF (join newline (map detailLine detected))).
  rewrite <- (MoreStringFacts.append_assoc (natToString (length detected))).
  rewrite <- (MoreStringFacts.append_assoc "Analysis Results (").
  rewrite split_line.
  - f_equal. apply split_join.
    + destruct detected; [contradiction | discriminate].
    + apply Forall_map. eapply Forall_impl; [exact Hlines|].
      intros f Hf. now apply SummaryFacts.lineBreaks_detailLine.
  - rewrite !SummaryFacts.lineBreaks_app. unfold natToString.
    now rewrite SummaryFacts.lineBreaks_uint.
Qed.

Lemma evidence_lines_witness :
  split LF
    (evidenceBlock {| text := "x"; decodedSuccessfully := true; decodeError := None |}
       [{| pattern := "mimikatz"; category := "Credential Theft" |};
        {| pattern := "reverse shell"; category := "Shells" |}])
  = ["Analysis Results (2 patterns found - Decoded Content Scan):";
     "- Category: Credential Theft, Detected Pattern: " +:+ dquote +:+ "mimikatz" +:+ dquote;
     "- Category: Shells, Detected Pattern: " +:+ dquote +:+ "reverse shell" +:+ dquote].
Proof.
  apply (evidence_lines {| text := "x"; decodedSuccessfully := true; decodeError := None |}
           [{| pattern := "mimikatz"; category := "Credential Theft" |};
            {| pattern := "reverse shell"; category := "Shells" |}]).
  - reflexivity.
  - discriminate.
  - repeat constructor.
Defined.

End ReportProperties.

(** ** The component *)
Module ComponentProperties.
Import JSString Effects Component FileListFacts.

Lemma filterFrom_sublist {A} (keep : A -> nat -> bool) l : forall k,
  filterFrom keep k l `sublist_of` l.
Proof.
  induction l as [|x l IH]; intros k; cbn [filterFrom]; [constructor|].
  destruct (keep x k); constructor; apply IH.
Qed.

Lemma filterFrom_all {A} (keep : A -> nat -> bool) l : forall k,
  (forall x i, (k <= i)%nat -> keep x i = true) -> filterFrom keep k l = l.
Proof.
  induction l as [|x l IH]; intros k H; cbn [filterFrom]; [reflexivity|].
  rewrite (H x k (le_n k)). f_equal. apply IH. intros y i Hi. apply H. lia.
Qed.

Lemma filterFrom_delete {A} (l : list A) : forall k i,
  filterFrom (fun _ index => negb (index =? k + i)%nat) k l = delete i l.
Proof.
  induction l as [|x l IH]; intros k i; cbn [filterFrom]; [now destruct i|].
  destruct i as [|i].
  - rewrite Nat.add_0_r, Nat.eqb_refl. cbn [negb delete list_delete].
    apply filterFrom_all. intros _ j Hj. apply negb_true_iff, Nat.eqb_neq. lia.
  - assert ((k =? k + S i)%nat = false) as -> by (apply Nat.eqb_neq; lia).
    cbn [negb delete list_delete]. f_equal.
    replace (k + S i)%nat with (S k + i)%nat by lia. apply IH.
Qed.

Lemma delete_past_end {A} (l : list A) : forall i,
  (length l <= i)%nat -> delete i l = l.
Proof.
  induction l as [|x l IH]; intros i H; [now destruct i|].
  destruct i as [|i]; cbn in H; [lia|]. cbn [delete list_delete]. f_equal.
  apply IH. lia.
Qed.

Lemma accepted_filter f :
  (size f <=? MAX_FILE_SIZE_BYTES)%Z && isMediaFile (type f) = true <-> accepted f.
Proof. unfold accepted. rewrite andb_true_iff, Z.leb_le. reflexivity. Qed.

(** X19. [processFiles] takes a selected file exactly when its size is at
    most 1 GiB and its type begins with [image/], [audio/] or [video/]:
    every file listed afterwards was listed before or is such a file, every
    such file is listed (itself, or an earlier file with the same name, size
    and date), every other selected file is named in the toast with the
    reason (the size first), and no toast appears when all are accepted. *)
Theorem processFiles_selection (selected : list File) (st : State) :
  (forall f, f ∈ files (fst (processFiles (Some selected) st)) ->
             f ∈ files st \/ (f ∈ selected /\ accepted f))
  /\ (forall f, f ∈ selected -> accepted f ->
        exists g, g ∈ files (fst (processFiles (Some selected) st))
                  /\ fileKey g = fileKey f)
  /\ (forall f, f ∈ selected -> ~ accepted f ->
        exists invalidFiles,
          snd (processFiles (Some selected) st) = [SomeFilesSkipped invalidFiles]
          /\ (name f, if (size f >? MAX_FILE_SIZE_BYTES)%Z then sizeReason else typeReason)
             ∈ invalidFiles)
  /\ (Forall accepted selected -> snd (processFiles (Some selected) st) = []).
Proof.
  unfold processFiles. destruct (validate_spec selected) as [Hnew Hinv].
  destruct (validate selected) as [newFiles invalidFiles]. cbn [fst snd] in *.
  destruct (uniqueFiles_spec (files st ++ newFiles)) as (Hsub & _ & Hcov & _).
  assert (forall f, f ∈ newFiles <-> f ∈ selected /\ accepted f) as Hmem.
  { intros f. rewrite Hnew, list_elem_of_In, filter_In, <- list_elem_of_In.
    now rewrite accepted_filter. }
  split; [|split; [|split]].
  - intros f Hf. apply (elem_of_sublist _ _ _ Hf) in Hsub as Hf'.
    apply elem_of_app in Hf' as [Hf' | Hf']; [now left | right; now apply Hmem].
  - intros f Hf Hacc. apply Hcov. apply elem_of_app. right. now apply Hmem.
  - intros f Hf Hrej.
    assert ((name f, if (size f >? MAX_FILE_SIZE_BYTES)%Z then sizeReason else typeReason)
              ∈ invalidFiles) as Hin.
    { rewrite Hinv. apply list_elem_of_In, in_map_iff. exists f. split; [reflexivity|].
      apply filter_In. split; [now apply list_elem_of_In|].
      apply negb_true_iff. destruct (_ && _) eqn:E; [|reflexivity].
      apply accepted_filter in E. contradiction. }
    exists invalidFiles. split; [|exact Hin].
    destruct invalidFiles; [inversion Hin | reflexivity].
  - intros Hall. rewrite Hinv.
    assert (List.filter
              (fun f => negb ((size f <=? MAX_FILE_SIZE_BYTES)%Z && isMediaFile (type f)))
              selected = []) as ->; [|reflexivity].
    revert Hall. clear. induction 1 as [|f l Hf _ IH]; [reflexivity|]. cbn [List.filter].
    apply accepted_filter in Hf. rewrite Hf. exact IH.
Qed.

(** X20. After [processFiles] no two listed files have the same name, size
    and modification date, whatever was listed before; and a list that had
    no such pair is kept as it was, the new files coming after it. *)
Theorem processFiles_distinct (selected : list File) (st : State) :
  NoDup (fileKey <$> files (fst (processFiles (Some selected) st)))
  /\ (NoDup (fileKey <$> files st) ->
      exists added, files (fst (processFiles (Some selected) st)) = files st ++ added).
Proof.
  unfold processFiles. destruct (validate selected) as [newFiles invalidFiles].
  cbn [fst files].
  destruct (uniqueFiles_spec (files st ++ newFiles)) as (_ & Hnd & _ & _).
  split; [exact Hnd|]. intros Hprev. unfold uniqueFiles.
  set (keep := fun file index => _).
  assert (forall l pre, files st = pre ++ l ->
            filterFrom keep (length pre) (l ++ newFiles)
            = l ++ filterFrom keep (length pre + length l) newFiles) as Hgen.
  { induction l as [|x l IH]; intros pre Hpre.
    - cbn. now rewrite Nat.add_0_r.
    - cbn [app filterFrom length].
      assert (keep x (length pre) = true) as ->.
      { unfold keep. rewrite Hpre, <- app_assoc. cbn [app].
        apply keeps_first. intros z Hz Hk.
        rewrite Hpre, fmap_app, fmap_cons in Hprev.
        apply NoDup_app in Hprev as (_ & Hdis & _).
        apply (Hdis (fileKey z)); [now apply list_elem_of_fmap_2 | rewrite Hk; left]. }
      f_equal. specialize (IH (pre ++ [x])). rewrite length_app in IH. cbn [length] in IH.
      rewrite Nat.add_1_r in IH. rewrite IH by (now rewrite <- app_assoc).
      f_equal. f_equal. lia. }
  specialize (Hgen (files st) [] eq_refl). cbn [length] in Hgen. rewrite Hgen. eauto.
Qed.

Lemma processFiles_distinct_witness :
  exists added,
    files (fst (processFiles
                  (Some [{| name := "a.png"; size := 10; type := "image/png"; lastModified := 1 |};
                         {| name := "b.mp3"; size := 20; type := "audio/mpeg"; lastModified := 2 |}])
                  {| files := [{| name := "a.png"; size := 10; type := "image/png";
                                  lastModified := 1 |}];
                     analysisResults := []; analysisState := analyzed;
                     currentAnalyzingFile := None; isDragging := false |}))
    = [{| name := "a.png"; size := 10; type := "image/png"; lastModified := 1 |}] ++ added.
Proof.
  apply (processFiles_distinct
           [{| name := "a.png"; size := 10; type := "image/png"; lastModified := 1 |};
            {| name := "b.mp3"; size := 20; type := "audio/mpeg"; lastModified := 2 |}]
           {| files := [{| name := "a.png"; size := 10; type := "image/png";
                           lastModified := 1 |}];
              analysisResults := []; analysisState := analyzed;
              currentAnalyzingFile := None; isDragging := false |}).
  cbn. repeat constructor. intros H. inversion H.
Defined.

Lemma processFiles_invariant selected st :
  Forall accepted (files st) ->
  Forall accepted (files (fst (processFiles selected st)))
  /\ NoDup (fileKey <$> files (fst (processFiles selected st)))
  \/ (selected = None /\ fst (processFiles selected st) = st).
Proof.
  intros Hacc. destruct selected as [selected|]; [left | right; now split].
  unfold processFiles. destruct (validate_spec selected) as [Hnew _].
  destruct (validate selected) as [newFiles invalidFiles]. cbn [fst snd files] in *.
  destruct (uniqueFiles_spec (files st ++ newFiles)) as (Hsub & Hnd & _ & _).
  split; [|exact Hnd].
  apply Forall_forall. intros f Hf. apply (elem_of_sublist _ _ _ Hf) in Hsub as Hf'.
  apply elem_of_app in Hf' as [Hf' | Hf'].
  - rewrite Forall_forall in Hacc. now apply Hacc.
  - rewrite Hnew, list_elem_of_In, filter_In in Hf'. now apply accepted_filter.
Qed.

(** X21. Whatever the user does (choosing or dropping files, removing one,
    clearing the list, dragging, analyzing), every listed file is at most
    1 GiB in size and of an image, audio or video type, and no two listed
    files have the same name, size and modification date. *)
Theorem listed_files_invariant (readFileAsDataURL : File -> thrown + string)
    (analyzeFileContent : AnalyzeFile.AnalyzeFileInput -> thrown + AnalyzeFile.AnalyzeFileOutput)
    (st : State) :
  reachable readFileAsDataURL analyzeFileContent st ->
  Forall accepted (files st) /\ NoDup (fileKey <$> files st).
Proof.
  induction 1 as [|st st' _ [Hacc Hnd] Hstep]; [split; constructor|].
  destruct Hstep as [selected st | dropped st | st | st | i st | st | st].
  - unfold handleFileChange.
    destruct (processFiles_invariant selected st Hacc) as [H | [_ ->]]; [exact H | now split].
  - unfold handleDrop.
    destruct (processFiles_invariant (Some dropped) (setIsDragging false st) Hacc)
      as [H | [H _]]; [exact H | discriminate].
  - now split.
  - now split.
  - assert (files (removeFile i st) `sublist_of` files st) as Hsub.
    { unfold removeFile. destruct (length (files st) =? 1)%nat; apply filterFrom_sublist. }
    split.
    + apply Forall_forall. intros f Hf. apply (elem_of_sublist _ _ _ Hf) in Hsub as Hf'.
      rewrite Forall_forall in Hacc. now apply Hacc.
    + eapply sublist_NoDup; [exact Hnd|]. now apply fmap_sublist.
  - split; constructor.
  - unfold handleAnalyze. destruct (length (files st) =? 0)%nat; [now split|].
    destruct (analyzeAll _ _ (files st)). now split.
Qed.

Lemma listed_files_invariant_witness :
  Forall accepted
    (files (fst (handleDrop
                   [{| name := "a.png"; size := 10; type := "image/png"; lastModified := 1 |};
                    {| name := "notes.txt"; size := 5; type := "text/plain"; lastModified := 3 |}]
                   initial))).
Proof.
  apply (listed_files_invariant (fun _ => inl ThrownValue) (fun _ => inl ThrownValue)).
  eapply reachable_step; [apply reachable_initial | apply step_drop].
Defined.

(** X22. [removeFile] removes the file at the given position and keeps the
    others in order; a position past the end removes nothing. Results of an
    earlier analysis stay on screen unless the list had exactly one file. *)
Theorem removeFile_removes (indexToRemove : nat) (st : State) :
  files (removeFile indexToRemove st) = delete indexToRemove (files st)
  /\ ((length (files st) <= indexToRemove)%nat -> files (removeFile indexToRemove st) = files st)
  /\ ((indexToRemove < length (files st))%nat ->
      S (length (files (removeFile indexToRemove st))) = length (files st))
  /\ (length (files st) <> 1%nat ->
      analysisResults (removeFile indexToRemove st) = analysisResults st
      /\ analysisState (removeFile indexToRemove st) = analysisState st)
  /\ (length (files st) = 1%nat ->
      analysisResults (removeFile indexToRemove st) = []
      /\ analysisState (removeFile indexToRemove st) = idle).
Proof.
  assert (files (removeFile indexToRemove st) = delete indexToRemove (files st)) as Hdel.
  { unfold removeFile.
    destruct (length (files st) =? 1)%nat; cbn [files];
      apply (filterFrom_delete (files st) 0 indexToRemove). }
  rewrite Hdel. split; [reflexivity|]. split; [|split; [|split]].
  - intros H. now apply delete_past_end.
  - intros H. rewrite length_delete by (apply lookup_lt_is_Some; exact H). lia.
  - intros H. unfold removeFile. apply Nat.eqb_neq in H. now rewrite H.
  - intros H. unfold removeFile. apply Nat.eqb_eq in H. now rewrite H.
Qed.

(** *** Analysis and display *)

Lemma analyzeAll_from readFileAsDataURL analyzeFileContent fs : forall acc,
  fold_left
    (fun (acc : list FileAnalyzer.AnalysisResult * bool) currentFile =>
       let o := processFile readFileAsDataURL analyzeFileContent currentFile in
       (fst acc ++ [FileAnalyzer.resultFor (name currentFile) o],
        snd acc || setsOverallError o))
    fs acc
  = (fst acc
       ++ map (fun f => FileAnalyzer.resultFor (name f)
                          (processFile readFileAsDataURL analyzeFileContent f)) fs,
     snd acc
       || existsb (fun f => setsOverallError
                              (processFile readFileAsDataURL analyzeFileContent f)) fs).
Proof.
  induction fs as [|f fs IH]; intros [rs e]; cbn [fold_left map existsb fst snd].
  - now rewrite app_nil_r, orb_false_r.
  - rewrite IH. cbn [fst snd]. now rewrite <- app_assoc, orb_assoc.
Qed.

Lemma resultFor_error_None fileName o :
  FileAnalyzer.error (FileAnalyzer.resultFor fileName o) = None
  <-> setsOverallError o = false.
Proof.
  destruct o as [serverResult | e]; cbn [FileAnalyzer.resultFor setsOverallError].
  - destruct (FileAnalyzer.truthyOpt (AnalyzeFile.error serverResult)) eqn:E;
      cbn [FileAnalyzer.error]; [|now split].
    split; [|discriminate]. intros H. rewrite H in E. discriminate.
  - cbn [FileAnalyzer.error]. split; discriminate.
Qed.

(** X23. [handleAnalyze] on a non-empty list leaves the list as it is and
    shows one result per file, in the order of the list and under the file's
    name. The run ends in state [analyzed], with the toast counting the
    files, exactly when no result carries an error; otherwise it ends in
    state [error] with the partial-completion toast. *)
Theorem handleAnalyze_results (readFileAsDataURL : File -> thrown + string)
    (analyzeFileContent : AnalyzeFile.AnalyzeFileInput -> thrown + AnalyzeFile.AnalyzeFileOutput)
    (st : State) :
  files st <> [] ->
  files (fst (handleAnalyze readFileAsDataURL analyzeFileContent st)) = files st
  /\ analysisResults (fst (handleAnalyze readFileAsDataURL analyzeFileContent st))
     = map (fun f => FileAnalyzer.resultFor (name f)
                       (processFile readFileAsDataURL analyzeFileContent f)) (files st)
  /\ map FileAnalyzer.fileName
       (analysisResults (fst (handleAnalyze readFileAsDataURL analyzeFileContent st)))
     = map name (files st)
  /\ ((analysisState (fst (handleAnalyze readFileAsDataURL analyzeFileContent st)) = analyzed
       /\ Forall (fun r => FileAnalyzer.error r = None)
            (analysisResults (fst (handleAnalyze readFileAsDataURL analyzeFileContent st)))
       /\ snd (handleAnalyze readFileAsDataURL analyzeFileContent st)
          = [AnalysisComplete (length (files st))])
      \/ (analysisState (fst (handleAnalyze readFileAsDataURL analyzeFileContent st))
          = Component.error
          /\ Exists (fun r => FileAnalyzer.error r <> None)
               (analysisResults (fst (handleAnalyze readFileAsDataURL analyzeFileContent st)))
          /\ snd (handleAnalyze readFileAsDataURL analyzeFileContent st)
             = [AnalysisPartiallyCompleted])).
Proof.
  intros Hne. unfold handleAnalyze, analyzeAll.
  destruct (files st) as [|f0 fs0] eqn:Efiles; [contradiction|].
  cbn [length Nat.eqb]. rewrite analyzeAll_from. cbn [fst snd app orb].
  split; [reflexivity|]. split; [reflexivity|]. split.
  - cbn [analysisResults]. rewrite map_map. apply map_ext. intros f.
    destruct (processFile readFileAsDataURL analyzeFileContent f) as [r | e];
      cbn [FileAnalyzer.resultFor]; [|reflexivity].
    now destruct (FileAnalyzer.truthyOpt (AnalyzeFile.error r)).
  - cbn [analysisResults analysisState]. set (fs := f0 :: fs0).
    destruct (existsb _ fs) eqn:E; [right | left].
    + split; [reflexivity|]. split; [|reflexivity].
      apply existsb_exists in E as (f & Hf & Hset).
      apply Exists_exists.
      exists (FileAnalyzer.resultFor (name f)
                (processFile readFileAsDataURL analyzeFileContent f)).
      split.
      * apply list_elem_of_In, in_map_iff. exists f. now split.
      * intros H. apply resultFor_error_None in H. rewrite H in Hset. discriminate.
    + split; [reflexivity|]. split.
      * apply Forall_forall. intros r Hr.
        apply list_elem_of_In, in_map_iff in Hr as (f & <- & Hf).
        apply resultFor_error_None.
        destruct (setsOverallError _) eqn:Eo; [|reflexivity].
        assert (existsb (fun f => setsOverallError
                           (processFile readFileAsDataURL analyzeFileContent f)) fs = true)
          as Hex by (apply existsb_exists; exists f; now split).
        rewrite Hex in E. discriminate.
      * cbn [negb andb]. rewrite length_map. reflexivity.
Qed.

Lemma handleAnalyze_results_witness :
  analysisState
    (fst (handleAnalyze (fun _ => inl (ThrownError "unreadable")) (fun _ => inl ThrownValue)
            {| files := [{| name := "a.png"; size := 10; type := "image/png";
                            lastModified := 1 |}];
               analysisResults := []; analysisState := idle;
               currentAnalyzingFile := None; isDragging := false |}))
  = Component.error
  /\ map FileAnalyzer.fileName
       (analysisResults
          (fst (handleAnalyze (fun _ => inl (ThrownError "unreadable"))
                  (fun _ => inl ThrownValue)
                  {| files := [{| name := "a.png"; size := 10; type := "image/png";
                                  lastModified := 1 |}];
                     analysisResults := []; analysisState := idle;
                     currentAnalyzingFile := None; isDragging := false |})))
     = ["a.png"].
Proof.
  destruct (handleAnalyze_results (fun _ => inl (ThrownError "unreadable"))
              (fun _ => inl ThrownValue)
              {| files := [{| name := "a.png"; size := 10; type := "image/png";
                              lastModified := 1 |}];
                 analysisResults := []; analysisState := idle;
                 currentAnalyzingFile := None; isDragging := false |})
    as (_ & _ & Hnames & _); [discriminate|].
  split; [reflexivity | exact Hnames].
Defined.

(** The request the component sends for a file. *)
Definition inputOf (f : File) (fileContent : string) : AnalyzeFile.AnalyzeFileInput :=
  {| AnalyzeFile.fileName := name f;
     AnalyzeFile.fileContent := fileContent;
     AnalyzeFile.contentType := type f |}.

(** A call that, when it returns, returns what the action computed. *)
Definition callsAction (malwarePatterns : AnalyzeFile.library)
    (prompt : string -> SummarizeAnalysis.promptReply)
    (analyzeFileContent : AnalyzeFile.AnalyzeFileInput -> thrown + AnalyzeFile.AnalyzeFileOutput)
    : Prop :=
  forall input r,
    analyzeFileContent input = inr r ->
    r = value (AnalyzeFile.analyzeFileContent malwarePatterns prompt input).

Lemma serverAction_callsAction malwarePatterns prompt :
  callsAction malwarePatterns prompt (serverAction malwarePatterns prompt).
Proof. intros input r H. unfold serverAction in H. now injection H as <-. Qed.

Lemma threw_card fileName e :
  resultIcon (FileAnalyzer.resultFor fileName (FileAnalyzer.Threw e)) <> ShieldCheck
  /\ resultContent (FileAnalyzer.resultFor fileName (FileAnalyzer.Threw e))
     <> DetectedPatterns (default [] (FileAnalyzer.findings
                                         (FileAnalyzer.resultFor fileName (FileAnalyzer.Threw e))))
  /\ forall fs, resultContent (FileAnalyzer.resultFor fileName (FileAnalyzer.Threw e))
                <> DetectedPatterns fs.
Proof.
  unfold resultIcon, resultContent. cbn.
  destruct (truthy _); cbn; repeat split; try discriminate; intros fs; discriminate.
Qed.

Lemma refused_card malwarePatterns prompt input fileName :
  ~ ActionProperties.wellFormed input ->
  resultIcon (FileAnalyzer.resultFor fileName
                (FileAnalyzer.Returned
                   (value (AnalyzeFile.analyzeFileContent malwarePatterns prompt input))))
  = AlertTriangle
  /\ exists d,
       resultContent (FileAnalyzer.resultFor fileName
                        (FileAnalyzer.Returned
                           (value (AnalyzeFile.analyzeFileContent malwarePatterns prompt input))))
       = AnalysisError d.
Proof.
  intros H.
  destruct (ActionProperties.action_rejects malwarePatterns prompt input H) as [-> | ->];
    (split; [reflexivity | eexists; reflexivity]).
Qed.

Lemma scanned_card malwarePatterns prompt input fileName :
  ActionProperties.wellFormed input ->
  FileAnalyzer.resultFor fileName
    (FileAnalyzer.Returned
       (value (AnalyzeFile.analyzeFileContent malwarePatterns prompt input)))
  = {| FileAnalyzer.fileName := fileName;
       FileAnalyzer.findings :=
         Some (AnalyzeFile.scan malwarePatterns (ActionProperties.scanned input));
       FileAnalyzer.isMalicious :=
         (0 <? length (AnalyzeFile.scan malwarePatterns (ActionProperties.scanned input)))%nat;
       FileAnalyzer.summary :=
         AnalyzeFile.summary
           (value (AnalyzeFile.analyzeFileContent malwarePatterns prompt input));
       FileAnalyzer.error := None |}.
Proof.
  intros H.
  destruct (ActionProperties.action_accepts malwarePatterns prompt input H) as (He & Hf & _).
  unfold FileAnalyzer.resultFor. rewrite He, Hf. reflexivity.
Qed.



(** X25. The patterns listed on a file's card are the findings of the scan
    of that file's decoded payload: each is a pair of the library whose
    pattern occurs in the payload, and the card then shows the red shield. *)
Theorem detected_patterns_are_findings (malwarePatterns : AnalyzeFile.library)
    (prompt : string -> SummarizeAnalysis.promptReply)
    (readFileAsDataURL : File -> thrown + string)
    (analyzeFileContent : AnalyzeFile.AnalyzeFileInput -> thrown + AnalyzeFile.AnalyzeFileOutput)
    (f : File) (shown : list AnalyzeFile.Finding) :
  callsAction malwarePatterns prompt analyzeFileContent ->
  resultContent (FileAnalyzer.resultFor (name f)
                   (processFile readFileAsDataURL analyzeFileContent f))
  = DetectedPatterns shown ->
  resultIcon (FileAnalyzer.resultFor (name f)
                (processFile readFileAsDataURL analyzeFileContent f)) = ShieldAlert
  /\ exists fileContent,
       readFileAsDataURL f = inr fileContent
       /\ shown = AnalyzeFile.scan malwarePatterns
                    (ActionProperties.scanned (inputOf f fileContent))
       /\ forall g, g ∈ shown ->
            g ∈ Claims.declared malwarePatterns
            /\ Claims.containsLiteral (AnalyzeFile.pattern g)
                 (ActionProperties.scanned (inputOf f fileContent)).
Proof.
  intros Hact. unfold processFile. fold (inputOf f).
  destruct (readFileAsDataURL f) as [e | fileContent].
  { intros H. now apply threw_card in H. }
  fold (inputOf f fileContent).
  destruct (analyzeFileContent (inputOf f fileContent)) as [e | r] eqn:Ecall.
  { intros H. now apply threw_card in H. }
  rewrite (Hact _ _ Ecall).
  assert (Decision (ActionProperties.wellFormed (inputOf f fileContent))) as [Hw | Hw];
    [unfold ActionProperties.wellFormed; apply _ | |].
  - rewrite (scanned_card _ _ _ _ Hw). unfold resultIcon, resultContent.
    cbn [FileAnalyzer.error FileAnalyzer.truthyOpt FileAnalyzer.isMalicious
         FileAnalyzer.findings negb].
    destruct (AnalyzeFile.scan malwarePatterns
                (ActionProperties.scanned (inputOf f fileContent))) as [|g0 gs] eqn:E;
      [discriminate|].
    intros H. injection H as <-. split; [reflexivity|].
    exists fileContent. split; [reflexivity|]. split; [now rewrite E|].
    intros g Hg. rewrite <- E, ScanProperties.scan_is_scanFlat in Hg.
    apply ScanResults.scanFlat_sound in Hg as [Hg | [Hg Hc]]; [inversion Hg|].
    split; [now apply SummaryPolicy.declared_forIn | exact Hc].
  - destruct (refused_card malwarePatterns prompt _ (name f) Hw) as [_ [d Hd]].
    rewrite Hd. discriminate.
Qed.

Lemma detected_patterns_are_findings_witness :
  resultIcon
    (FileAnalyzer.resultFor "a.png"
       (processFile (fun _ => inr "data:image/png;base64,bWltaWthdHo=")
          (serverAction [("Credential Theft", ["mimikatz"])]
             (fun _ => SummarizeAnalysis.NoOutput))
          {| name := "a.png"; size := 8; type := "image/png"; lastModified := 1 |}))
  = ShieldAlert.
Proof.
  apply (detected_patterns_are_findings [("Credential Theft", ["mimikatz"])]
           (fun _ => SummarizeAnalysis.NoOutput)
           (fun _ => inr "data:image/png;base64,bWltaWthdHo=")
           (serverAction [("Credential Theft", ["mimikatz"])]
              (fun _ => SummarizeAnalysis.NoOutput))
           {| name := "a.png"; size := 8; type := "image/png"; lastModified := 1 |}
           [{| AnalyzeFile.pattern := "mimikatz"; AnalyzeFile.category := "Credential Theft" |}]
           (serverAction_callsAction _ _)).
  vm_compute. reflexivity.
Defined.

Lemma isMediaFile_truthy fileType : isMediaFile fileType = true -> truthy fileType = true.
Proof. now destruct fileType. Qed.

Lemma base64_nonempty bytes : bytes <> [] -> FileReader.base64 bytes <> EmptyString.
Proof. destruct bytes as [|a [|b [|c rest]]]; [contradiction|..]; discriminate. Qed.

(** X26. From the file to its card: an accepted file with a name and at
    least one byte, read by the browser as the data URL of its bytes and of
    its type, is never refused by the action; its card carries no error, its
    findings are the scan of the Latin-1 text of its bytes, and it shows the
    green shield exactly when no pattern of the library occurs in that
    text. *)
Theorem accepted_file_is_scanned (malwarePatterns : AnalyzeFile.library)
    (prompt : string -> SummarizeAnalysis.promptReply)
    (readFileAsDataURL : File -> thrown + string) (f : File) (bytes : list Z) :
  accepted f ->
  name f <> EmptyString ->
  indexOf "," (type f) = None ->
  bytes <> [] ->
  Forall PayloadProperties.isByte bytes ->
  readFileAsDataURL f = inr (FileReader.dataURL (type f) bytes) ->
  FileAnalyzer.error
    (FileAnalyzer.resultFor (name f)
       (processFile readFileAsDataURL (serverAction malwarePatterns prompt) f)) = None
  /\ FileAnalyzer.findings
       (FileAnalyzer.resultFor (name f)
          (processFile readFileAsDataURL (serverAction malwarePatterns prompt) f))
     = Some (AnalyzeFile.scan malwarePatterns (Buffer.toStringLatin1 bytes))
  /\ (resultIcon
        (FileAnalyzer.resultFor (name f)
           (processFile readFileAsDataURL (serverAction malwarePatterns prompt) f))
      = ShieldCheck
      <-> forall g, g ∈ Claims.declared malwarePatterns ->
            ~ Claims.containsLiteral (AnalyzeFile.pattern g) (Buffer.toStringLatin1 bytes)).
Proof.
  intros [_ Hmedia] Hname Hcomma Hbytes Hbyte Hread.
  unfold processFile, serverAction. rewrite Hread. fold (inputOf f).
  assert (AnalyzeFile.stripHeader (FileReader.dataURL (type f) bytes)
          = FileReader.base64 bytes) as Hstrip
    by now apply PayloadProperties.stripHeader_dataURL.
  assert (ActionProperties.wellFormed (inputOf f (FileReader.dataURL (type f) bytes))) as Hw.
  { unfold ActionProperties.wellFormed, inputOf.
    cbn [AnalyzeFile.fileName AnalyzeFile.fileContent AnalyzeFile.contentType].
    split; [now destruct (name f)|]. split; [reflexivity|].
    split; [now apply isMediaFile_truthy|].
    rewrite Hstrip. now apply base64_nonempty. }
  assert (ActionProperties.scanned (inputOf f (FileReader.dataURL (type f) bytes))
          = Buffer.toStringLatin1 bytes) as Hscanned.
  { unfold ActionProperties.scanned, inputOf. cbn [AnalyzeFile.fileContent].
    rewrite Hstrip.
    now rewrite (PayloadProperties.fromBase64_base64 (length bytes) bytes (le_n _) Hbyte). }
  rewrite (scanned_card _ _ _ _ Hw), Hscanned.
  split; [reflexivity|]. split; [reflexivity|].
  unfold resultIcon.
  cbn [FileAnalyzer.error FileAnalyzer.truthyOpt FileAnalyzer.isMalicious].
  rewrite <- ScanProperties.no_findings_iff.
  destruct (AnalyzeFile.scan _ _); [now split | split; discriminate].
Qed.

Lemma accepted_file_is_scanned_witness :
  FileAnalyzer.findings
    (FileAnalyzer.resultFor "a.png"
       (processFile (fun f => inr (FileReader.dataURL (type f) [109; 105; 109; 105]%Z))
          (serverAction [("Credential Theft", ["mimi"])]
             (fun _ => SummarizeAnalysis.NoOutput))
          {| name := "a.png"; size := 4; type := "image/png"; lastModified := 1 |}))
  = Some (AnalyzeFile.scan [("Credential Theft", ["mimi"])]
            (Buffer.toStringLatin1 [109; 105; 109; 105]%Z)).
Proof.
  apply (accepted_file_is_scanned [("Credential Theft", ["mimi"])]
           (fun _ => SummarizeAnalysis.NoOutput)
           (fun f => inr (FileReader.dataURL (type f) [109; 105; 109; 105]%Z))
           {| name := "a.png"; size := 4; type := "image/png"; lastModified := 1 |}
           [109; 105; 109; 105]%Z).
  - split; [vm_compute; discriminate | reflexivity].
  - discriminate.
  - reflexivity.
  - discriminate.
  - repeat constructor; unfold PayloadProperties.isByte; lia.
  - reflexivity.
Defined.

End ComponentProperties.
